(** * instrument_tool.py: the VISA instrument console

    A shallow embedding of [src/instrument_tool.py] (class [Console], a
    [cmd.Cmd] shell that formats SCPI commands and sends them over a VISA
    transport) and of the properties its specification states.

    Python strings are modelled as [string] (sequences of 8-bit characters;
    the model covers ASCII text: [Py.strip], [Py.upper] and [Py.lower] are
    Python's on characters below 128, while Python's also act on white space
    and letters outside ASCII, so the properties on file extensions and
    letter case are stated for ASCII arguments), Python floats as IEEE-754
    binary64
    ([PrimFloat.float]), the console object as a record, and the effects of
    a command (printing, transport calls, file writes, raised exceptions) by
    a state-and-exception monad over an explicit world.  The VISA stack, the
    file system and the builtins [float] and [repr] are an environment the
    commands are parameterised by.

    The first part embeds the program; the second states and proves its
    properties. *)

From Stdlib Require Import String Ascii List Bool Arith ZArith Lia.
From Stdlib Require Import Floats Uint63.
Import ListNotations.

Local Open Scope string_scope.
Local Open Scope list_scope.
Local Open Scope nat_scope.
Set Warnings "-inexact-float".

Infix "+++" := String.append (right associativity, at level 60).

(** ** Python string operations used by the console *)

Module Py.

Definition code (c : ascii) : nat := nat_of_ascii c.

(** The double quote, tab, line feed and carriage return characters. *)
Definition dquote : ascii := ascii_of_nat 34.
Definition dq : string := String dquote EmptyString.
Definition tab : string := String (ascii_of_nat 9) EmptyString.
Definition lf : string := String (ascii_of_nat 10) EmptyString.
Definition crlf : string := String (ascii_of_nat 13) lf.

(** Truth value of a [str]: non-empty. *)
Definition truthy (s : string) : bool :=
  match s with EmptyString => false | String _ _ => true end.

(** [str.isspace] on one ASCII character: the six characters 9 to 13 and
    32, and the four separators 28 to 31.  (Python counts further white
    space outside ASCII, such as the no-break space, which is not modelled.) *)
Definition is_space (c : ascii) : bool :=
  let n := code c in
  ((9 <=? n) && (n <=? 13)) || ((28 <=? n) && (n <=? 32)).

Fixpoint lstrip_by (p : ascii -> bool) (s : string) : string :=
  match s with
  | EmptyString => EmptyString
  | String c r => if p c then lstrip_by p r else s
  end.

(** Right strip: a character is dropped when it is strippable and
    everything after it has been dropped. *)
Fixpoint rstrip_by (p : ascii -> bool) (s : string) : string :=
  match s with
  | EmptyString => EmptyString
  | String c r =>
      match rstrip_by p r with
      | EmptyString => if p c then EmptyString else String c EmptyString
      | r' => String c r'
      end
  end.

Definition strip_by (p : ascii -> bool) (s : string) : string :=
  rstrip_by p (lstrip_by p s).

(** [s.strip()] *)
Definition strip (s : string) : string := strip_by is_space s.

(** [s.strip(q)] where [q] is the double quote character *)
Definition strip_dq (s : string) : string :=
  strip_by (fun c => Ascii.eqb c dquote) s.

Definition upper_char (c : ascii) : ascii :=
  let n := code c in
  if (97 <=? n) && (n <=? 122) then ascii_of_nat (n - 32) else c.

Definition lower_char (c : ascii) : ascii :=
  let n := code c in
  if (65 <=? n) && (n <=? 90) then ascii_of_nat (n + 32) else c.

Fixpoint map_chars (f : ascii -> ascii) (s : string) : string :=
  match s with
  | EmptyString => EmptyString
  | String c r => String (f c) (map_chars f r)
  end.

(** [s.upper()] and [s.lower()] on ASCII text: the 26 letters are mapped
    and every other character is kept.  (Python also maps letters outside
    ASCII, some of them to ASCII letters; they are not modelled.) *)
Definition upper (s : string) : string := map_chars upper_char s.
Definition lower (s : string) : string := map_chars lower_char s.

(** [s.split(sep)] for a one-character separator: never empty. *)
Fixpoint split (sep : ascii) (s : string) : list string :=
  match s with
  | EmptyString => [EmptyString]
  | String c r =>
      if Ascii.eqb c sep then EmptyString :: split sep r
      else match split sep r with
           | h :: t => String c h :: t
           | [] => [String c EmptyString]
           end
  end.

Definition comma : ascii := ascii_of_nat 44.
Definition dot : ascii := ascii_of_nat 46.

(** [x in [a, b, ...]] for strings. *)
Definition str_in (x : string) (l : list string) : bool :=
  existsb (String.eqb x) l.

(** [sep in s] for a one-character [sep]. *)
Fixpoint contains_char (c : ascii) (s : string) : bool :=
  match s with
  | EmptyString => false
  | String d r => Ascii.eqb d c || contains_char c r
  end.

(** [s[:n]] *)
Fixpoint take_chars (n : nat) (s : string) : string :=
  match n, s with
  | S k, String c r => String c (take_chars k r)
  | _, _ => EmptyString
  end.

Definition digit_char (d : Z) : ascii := ascii_of_nat (48 + Z.to_nat d).

Fixpoint decimal_fuel (fuel : nat) (n : Z) (acc : string) : string :=
  let acc' := String (digit_char (n mod 10)) acc in
  match fuel with
  | O => acc'
  | S f => if (n <? 10)%Z then acc' else decimal_fuel f (n / 10) acc'
  end.

(** [str(n)] for a non-negative [int]. *)
Definition str_Z (n : Z) : string :=
  decimal_fuel (Z.to_nat (Z.log2 n)) n EmptyString.

Definition str_nat (n : nat) : string := str_Z (Z.of_nat n).

End Py.

(** ** Waveform decoding (step 3 of [do_oscope_capture_data]) *)

Module Waveform.

(** The loop index [i] of [enumerate(raw_data)] is a Python [int]; in
    [i * X_INCrement] it is converted to a float, rounding to nearest.  The
    conversion below agrees with Python's for every index below [2^63]. *)
Definition float_of_index (i : nat) : float :=
  PrimFloat.of_uint63 (Uint63.of_Z (Z.of_nat i)).

(** [preamble[k]]: list indexing, [None] standing for [IndexError]. *)
Definition index (preamble : list float) (k : nat) : option float :=
  nth_error preamble k.

(** The body of the [for i, raw_value in enumerate(raw_data)] loop, started
    at index [i]: one [(time_sec, voltage)] pair is appended per sample. *)
Fixpoint process_from (X_INCrement Y_INCrement Y_Reference : float)
    (i : nat) (raw_data : list float) : list (float * float) :=
  match raw_data with
  | [] => []
  | raw_value :: rest =>
      let voltage := (Y_INCrement * (raw_value - Y_Reference))%float in
      let time_sec := (float_of_index i * X_INCrement)%float in
      (time_sec, voltage) :: process_from X_INCrement Y_INCrement Y_Reference (S i) rest
  end.

Definition process_data (X_INCrement Y_INCrement Y_Reference : float)
    (raw_data : list float) : list (float * float) :=
  process_from X_INCrement Y_INCrement Y_Reference 0 raw_data.

(** Reading the three scale factors and decoding; [None] when one of
    [preamble[5]], [preamble[7]], [preamble[8]] raises [IndexError]. *)
Definition decode (preamble raw_data : list float) : option (list (float * float)) :=
  match index preamble 5, index preamble 7, index preamble 8 with
  | Some X_INCrement, Some Y_INCrement, Some Y_Reference =>
      Some (process_data X_INCrement Y_INCrement Y_Reference raw_data)
  | _, _, _ => None
  end.

End Waveform.

(** ** Number formatting of the text export: the format spec [.6e] *)

Module Fmt.
Import Py.

(** Smallest [j >= j0] with [dn <= n * 10^(j - j0)], searched upwards. *)
Fixpoint scale_up (fuel : nat) (n dn j : Z) : Z :=
  match fuel with
  | O => j
  | S f => if (dn <=? n)%Z then j else scale_up f (10 * n) dn (j + 1)
  end.

(** Number of decimal digits of [v >= 1], minus one. *)
Fixpoint int_exp (fuel : nat) (v k : Z) : Z :=
  match fuel with
  | O => k
  | S f => if (v <? 10)%Z then k else int_exp f (v / 10) (k + 1)
  end.

(** The decimal exponent of the positive rational [n / dn]: the [k] with
    [10^k <= n / dn < 10^(k+1)]. *)
Definition dec_exp (n dn : Z) : Z :=
  if (dn <=? n)%Z then int_exp 400 (n / dn) 0
  else (- scale_up 400 n dn 0)%Z.

(** Rounding of [sn / sd] to an integer, ties to even. *)
Definition round_half_even (sn sd : Z) : Z :=
  let q := (sn / sd)%Z in
  let r := (sn mod sd)%Z in
  if (sd <? 2 * r)%Z then (q + 1)%Z
  else if (2 * r =? sd)%Z then (if Z.odd q then q + 1 else q)%Z
  else q.

(** [prec + 1] significant decimal digits of [n / dn] and its decimal
    exponent, as a correctly rounded conversion gives them. *)
Definition sci_digits (prec : Z) (n dn : Z) : Z * Z :=
  let k := dec_exp n dn in
  let sh := (prec - k)%Z in
  let q := if (0 <=? sh)%Z then round_half_even (n * 10 ^ sh) dn
           else round_half_even n (dn * 10 ^ (- sh)) in
  if (10 ^ (prec + 1) <=? q)%Z then (10 ^ prec, k + 1)%Z else (q, k).

(** Exactly [w] decimal digits: [q mod 10^w], zero padded. *)
Fixpoint fixed_digits (w : nat) (q : Z) : string :=
  match w with
  | O => EmptyString
  | S w' => String (digit_char ((q / 10 ^ Z.of_nat w') mod 10)) (fixed_digits w' q)
  end.

(** The exponent part: [e], a sign, and at least two digits. *)
Definition exp_part (k : Z) : string :=
  let a := Z.abs k in
  "e" +++ (if (k <? 0)%Z then "-" else "+")
      +++ (if (a <? 10)%Z then "0" +++ str_Z a else str_Z a).

Definition sign_part (s : bool) : string := if s then "-" else EmptyString.

(** The mantissa [d.dddddd] of [q] with [prec] digits after the point. *)
Definition mantissa_part (prec : nat) (q : Z) : string :=
  String (digit_char ((q / 10 ^ Z.of_nat prec) mod 10)) ("." +++ fixed_digits prec q).

(** [format(x, '.<prec>e')] for a float. *)
Definition format_e (prec : nat) (x : float) : string :=
  match Prim2SF x with
  | S754_nan => "nan"
  | S754_infinity s => sign_part s +++ "inf"
  | S754_zero s => sign_part s +++ mantissa_part prec 0 +++ exp_part 0
  | S754_finite s m e =>
      let n := (Z.pos m * 2 ^ Z.max e 0)%Z in
      let dn := (2 ^ Z.max (- e) 0)%Z in
      let '(q, k) := sci_digits (Z.of_nat prec) n dn in
      sign_part s +++ mantissa_part prec q +++ exp_part k
  end.

(** [f"{x:.6e}"] *)
Definition format_6e (x : float) : string := format_e 6 x.

End Fmt.

(** ** The world a command runs in *)

(** An open instrument (a [pyvisa.Resource]); always truthy. *)
Definition handle := nat.

(** Exceptions deriving from [Exception], with their message. *)
Inductive error :=
| VisaIOError (msg : string)
| ValueError (msg : string)
| IndexError (msg : string)
| AttributeError (msg : string)
| OtherError (msg : string).

(** Everything that can be raised: [SystemExit] and [KeyboardInterrupt]
    derive from [BaseException] only, so [except Exception] lets them go. *)
Inductive exn :=
| Exception (e : error)
| SystemExit (code : Z)
| KeyboardInterrupt.

(** [str(e)], as interpolated by [f"{e}"]. *)
Definition str_error (e : error) : string :=
  match e with
  | VisaIOError m | ValueError m | IndexError m | AttributeError m | OtherError m => m
  end.

(** Calls made on the VISA resource manager and on instrument handles. *)
Inductive call :=
| ListResources
| OpenResource (resource_name : string)
| Close (inst : handle)
| GetTimeout (inst : handle)
| SetTimeout (inst : handle) (ms : Z)
| Write (inst : handle) (message : string)
| Query (inst : handle) (message : string)
| QueryBinaryValues (inst : handle) (message : string).

(** What lies outside the program: the VISA stack and the instruments
    behind it (each answer may depend on the number of calls made so far),
    the file system, the history file, and the Python builtins [float],
    [repr] of a float and [repr] of a string. *)
Record Env := mkEnv {
  env_list_resources : nat -> error + list string;
  env_open_resource : nat -> string -> option error;
  env_close : nat -> handle -> option error;
  env_get_timeout : nat -> handle -> error + Z;
  env_set_timeout : nat -> handle -> Z -> option error;
  env_write : nat -> handle -> string -> option error;
  env_query : nat -> handle -> string -> error + string;
  env_query_binary_values : nat -> handle -> string -> error + string;
  env_open_file : string -> option error;
  env_write_history_file : option error;
  env_float : string -> option float;
  env_repr_float : float -> string;
  env_repr_str : string -> string
}.

(** The attributes of the [Console] object. *)
Record Console := mkConsole {
  rm : bool;                            (* [rm] is not [None] *)
  selected_device_id : option string;
  instrument : option handle
}.

Record World := mkWorld {
  self : Console;
  trace : list call;                    (* transport calls, oldest first *)
  stdout : list string;                 (* one entry per [print] *)
  files : list (string * string);       (* files written: name, content *)
  history_saves : nat
}.

Definition with_self (c : Console) (w : World) : World :=
  mkWorld c (trace w) (stdout w) (files w) (history_saves w).
Definition log_call (c : call) (w : World) : World :=
  mkWorld (self w) (trace w ++ [c]) (stdout w) (files w) (history_saves w).
Definition log_print (s : string) (w : World) : World :=
  mkWorld (self w) (trace w) (stdout w ++ [s]) (files w) (history_saves w).
Definition log_file (name content : string) (w : World) : World :=
  mkWorld (self w) (trace w) (stdout w) (files w ++ [(name, content)]) (history_saves w).
Definition log_history (w : World) : World :=
  mkWorld (self w) (trace w) (stdout w) (files w) (S (history_saves w)).

(** The connection state: the two fields a selection sets. *)
Definition connection (w : World) : option handle * option string :=
  (instrument (self w), selected_device_id (self w)).

(** ** The monad of commands: state and exceptions *)

Inductive result (A : Type) :=
| Ret (a : A)
| Raise (e : exn).
Arguments Ret {A} a.
Arguments Raise {A} e.

Definition M (A : Type) : Type := World -> result A * World.

Definition ret {A} (a : A) : M A := fun w => (Ret a, w).
Definition raise {A} (e : exn) : M A := fun w => (Raise e, w).
Definition bind {A B} (m : M A) (k : A -> M B) : M B := fun w =>
  match m w with
  | (Ret a, w') => k a w'
  | (Raise e, w') => (Raise e, w')
  end.

Notation "x <- m ;; k" := (bind m (fun x => k))
  (at level 61, m at next level, right associativity).
Notation "m ;; k" := (bind m (fun _ => k))
  (at level 61, right associativity).
Notation "' pat <- m ;; k" := (bind m (fun x => match x with pat => k end))
  (at level 61, pat pattern, m at next level, right associativity).

(** [try: body / except <classes deriving from Exception>: handler]. *)
Definition try_except {A} (body : M A) (handler : error -> M A) : M A := fun w =>
  match body w with
  | (Raise (Exception e), w') => handler e w'
  | r => r
  end.

(** [try: body / except Exception: pass] *)
Definition try_pass (body : M unit) : M unit := try_except body (fun _ => ret tt).

Definition print (s : string) : M unit := fun w => (Ret tt, log_print s w).
Definition get_self : M Console := fun w => (Ret (self w), w).
Definition set_instrument (i : option handle) : M unit := fun w =>
  (Ret tt, with_self (mkConsole (rm (self w)) (selected_device_id (self w)) i) w).
Definition set_selected_device_id (d : option string) : M unit := fun w =>
  (Ret tt, with_self (mkConsole (rm (self w)) d (instrument (self w))) w).

Definition of_option_error (o : option error) : result unit :=
  match o with None => Ret tt | Some e => Raise (Exception e) end.
Definition of_sum_error {A} (o : error + A) : result A :=
  match o with inr a => Ret a | inl e => Raise (Exception e) end.

Section Transport.
Variable env : Env.

Definition rm_list_resources : M (list string) := fun w =>
  (of_sum_error (env_list_resources env (length (trace w))), log_call ListResources w).

(** [rm.open_resource(name)]: the new handle is named after the position of
    the call, so no two opened handles are equal. *)
Definition rm_open_resource (name : string) : M handle := fun w =>
  let t := length (trace w) in
  (match env_open_resource env t name with
   | None => Ret t
   | Some e => Raise (Exception e)
   end, log_call (OpenResource name) w).

Definition inst_close (inst : handle) : M unit := fun w =>
  (of_option_error (env_close env (length (trace w)) inst), log_call (Close inst) w).
Definition inst_get_timeout (inst : handle) : M Z := fun w =>
  (of_sum_error (env_get_timeout env (length (trace w)) inst), log_call (GetTimeout inst) w).
Definition inst_set_timeout (inst : handle) (ms : Z) : M unit := fun w =>
  (of_option_error (env_set_timeout env (length (trace w)) inst ms),
   log_call (SetTimeout inst ms) w).
Definition inst_write (inst : handle) (message : string) : M unit := fun w =>
  (of_option_error (env_write env (length (trace w)) inst message),
   log_call (Write inst message) w).
Definition inst_query (inst : handle) (message : string) : M string := fun w =>
  (of_sum_error (env_query env (length (trace w)) inst message),
   log_call (Query inst message) w).
Definition inst_query_binary_values (inst : handle) (message : string) : M string := fun w =>
  (of_sum_error (env_query_binary_values env (length (trace w)) inst message),
   log_call (QueryBinaryValues inst message) w).

(** [with open(name, mode) as f: f.write(content)]; opening may fail. *)
Definition write_file (name content : string) : M unit := fun w =>
  match env_open_file env name with
  | Some e => (Raise (Exception e), w)
  | None => (Ret tt, log_file name content w)
  end.

(** [readline.write_history_file(HISTORY_FILE)] *)
Definition write_history_file : M unit := fun w =>
  match env_write_history_file env with
  | Some e => (Raise (Exception e), w)
  | None => (Ret tt, log_history w)
  end.

End Transport.

(** [sys.exit(code)] *)
Definition sys_exit {A} (code : Z) : M A := raise (SystemExit code).

(** ** The commands of class [Console] *)

Section Commands.
Variable env : Env.
Import Py.

Definition no_device_hint : string := "No device selected. Use 'deviceselect' first.".
Definition no_device : string := "No device selected.".
Definition unexpected (m : string) : string := "An unexpected error occurred: " +++ m.

(** [f"{x}"] for an attribute that is a [str] or [None]. *)
Definition str_opt (o : option string) : string :=
  match o with Some x => x | None => "None" end.

(** The guard every instrument command starts with:
    [if not self.instrument: print(msg); return]. *)
Definition with_instrument (msg : string) (k : handle -> M unit) : M unit :=
  s <- get_self ;;
  match instrument s with
  | None => print msg
  | Some inst => k inst
  end.

(** [if not arg: print(usage); return] *)
Definition require_arg (arg usage : string) (k : M unit) : M unit :=
  if truthy arg then k else print usage.

(** [except pyvisa.errors.VisaIOError as e: print(visa(e))]
    [except Exception as e: print(other(e))] *)
Definition except_visa (visa other : string -> string) (e : error) : M unit :=
  match e with
  | VisaIOError _ => print (visa (str_error e))
  | _ => print (other (str_error e))
  end.

(** [except ValueError: print(fmt)], then the two clauses above. *)
Definition except_value_visa (fmt : string) (visa other : string -> string)
    (e : error) : M unit :=
  match e with
  | ValueError _ => print fmt
  | _ => except_visa visa other e
  end.

(** [except Exception as e: print(msg(e))] *)
Definition except_any (msg : string -> string) (e : error) : M unit :=
  print (msg (str_error e)).

(** [a, b = map(str.strip, s.split(','))] *)
Definition unpack2 (parts : list string) : M (string * string) :=
  match parts with
  | [a; b] => ret (strip a, strip b)
  | [] | [_] => raise (Exception (ValueError
      ("not enough values to unpack (expected 2, got "
         +++ str_nat (length parts) +++ ")")))
  | _ => raise (Exception (ValueError "too many values to unpack (expected 2)"))
  end.

(** [a, b, c = map(str.strip, s.split(','))] *)
Definition unpack3 (parts : list string) : M (string * string * string) :=
  match parts with
  | [a; b; c] => ret (strip a, strip b, strip c)
  | [] | [_] | [_; _] => raise (Exception (ValueError
      ("not enough values to unpack (expected 3, got "
         +++ str_nat (length parts) +++ ")")))
  | _ => raise (Exception (ValueError "too many values to unpack (expected 3)"))
  end.

(** [for x in xs: print(f"  {x}")] *)
Fixpoint print_indented (xs : list string) : M unit :=
  match xs with
  | [] => ret tt
  | x :: rest => print ("  " +++ x) ;; print_indented rest
  end.

(** *** Device management *)

Definition do_devicelist (arg : string) : M unit :=
  s <- get_self ;;
  if negb (rm s) then print "ResourceManager not available."
  else
    try_except
      (devices <- rm_list_resources env ;;
       match devices with
       | _ :: _ => print "Available VISA Resources:" ;; print_indented devices
       | [] => print "No VISA resources detected."
       end)
      (except_any (fun m => "Error listing devices: " +++ m)).

Definition do_id (arg : string) : M unit :=
  with_instrument no_device_hint (fun inst =>
    try_except
      (idn <- inst_query env inst "*IDN?" ;;
       print ("Instrument IDN: " +++ strip idn))
      (except_visa (fun m => "Error querying *IDN?: " +++ m) unexpected)).

(** In [self.do_id(None)] the argument is not used; the empty string stands
    for it. *)
Definition do_deviceselect (device_id : string) : M unit :=
  if negb (truthy device_id) then
    print "Please provide a device ID. Use 'devicelist' to see options."
  else
    s <- get_self ;;
    if negb (rm s) then print "ResourceManager not available."
    else
      let device_id_clean := strip_dq (strip device_id) in
      try_except
        (s <- get_self ;;
         match instrument s with
         | Some old =>
             try_pass (inst_close env old) ;;
             set_instrument None ;;
             set_selected_device_id None
         | None => ret tt
         end ;;
         inst <- rm_open_resource env device_id_clean ;;
         set_instrument (Some inst) ;;
         set_selected_device_id (Some device_id_clean) ;;
         try_pass
           (ms <- try_except (inst_get_timeout env inst)
                    (fun e => match e with
                              | AttributeError _ => ret 5000%Z
                              | _ => raise (Exception e)
                              end) ;;
            inst_set_timeout env inst ms) ;;
         s <- get_self ;;
         print ("Successfully selected and connected to: "
                  +++ str_opt (selected_device_id s)) ;;
         try_pass (do_id EmptyString))
        (fun e =>
           match e with
           | VisaIOError _ =>
               print ("Error connecting to device '" +++ device_id_clean
                        +++ "': " +++ str_error e) ;;
               set_instrument None ;;
               set_selected_device_id None
           | _ => print (unexpected (str_error e))
           end).

Definition do_deviceinfo (device_id : string) : M unit :=
  if negb (truthy device_id) then
    print ("Usage: deviceinfo " +++ dq +++ "device_id" +++ dq)
  else
    print ("Device ID: " +++ strip_dq (strip device_id)) ;;
    print "To get manufacturer/model, use 'deviceselect' then 'id' (which queries *IDN?).".

(** *** Generic SCPI commands *)

Definition do_write (command : string) : M unit :=
  with_instrument no_device_hint (fun inst =>
    require_arg command ("Usage: write " +++ dq +++ "SCPI_CMD" +++ dq)
      (try_except
         (let cmd_str := strip_dq (strip command) in
          inst_write env inst cmd_str ;;
          print ("Sent: " +++ cmd_str))
         (except_visa (fun m => "Error writing command: " +++ m) unexpected))).

Definition do_query (command : string) : M unit :=
  with_instrument no_device_hint (fun inst =>
    require_arg command ("Usage: query " +++ dq +++ "SCPI_QUERY" +++ dq)
      (try_except
         (let cmd_str := strip_dq (strip command) in
          response <- inst_query env inst cmd_str ;;
          print ("Response: " +++ strip response))
         (except_visa (fun m => "Error querying command: " +++ m) unexpected))).

Definition do_reset (arg : string) : M unit :=
  with_instrument no_device_hint (fun inst =>
    try_except
      (inst_write env inst "*RST" ;;
       print "Instrument reset command (*RST) sent.")
      (except_visa (fun m => "Error resetting instrument: " +++ m) unexpected)).

Definition do_wait_opc (arg : string) : M unit :=
  with_instrument no_device_hint (fun inst =>
    try_except
      (_ <- inst_query env inst "*OPC?" ;;
       print "Operation Complete (*OPC?) verified.")
      (except_visa (fun m => "Error waiting for OPC: " +++ m) unexpected)).

Definition do_get_error (arg : string) : M unit :=
  with_instrument no_device_hint (fun inst =>
    try_except
      (err <- inst_query env inst ":SYSTem:ERRor?" ;;
       print ("Instrument Error: " +++ strip err))
      (except_visa (fun m => "Error querying system error: " +++ m) unexpected)).

(** *** DMM commands *)

Definition do_dmm_func_set (func : string) : M unit :=
  with_instrument no_device_hint (fun inst =>
    require_arg func ("Usage: dmm_func_set " +++ dq +++ "FUNCTION" +++ dq)
      (try_except
         (let scpi_func := upper (strip_dq (strip func)) in
          inst_write env inst (":SENSe:FUNCtion " +++ dq +++ scpi_func +++ dq) ;;
          print ("DMM function set to: " +++ scpi_func))
         (except_visa (fun m => "Error setting DMM function: " +++ m) unexpected))).

Definition do_dmm_range_set (range_val : string) : M unit :=
  with_instrument no_device_hint (fun inst =>
    require_arg range_val "Usage: dmm_range_set <range_value|AUTO>"
      (try_except
         (inst_write env inst (":SENSe:RANGe " +++ strip range_val) ;;
          print ("DMM range set to: " +++ strip range_val))
         (except_visa (fun m => "Error setting DMM range: " +++ m) unexpected))).

Definition do_dmm_autoranging (state : string) : M unit :=
  with_instrument no_device (fun inst =>
    require_arg state "Usage: dmm_autoranging <ON|OFF>"
      (try_except
         (let scpi_state := upper state in
          if negb (str_in scpi_state ["ON"; "OFF"; "1"; "0"]) then
            print "Invalid state. Use ON or OFF."
          else
            inst_write env inst (":SENSe:RANGe:AUTO " +++ scpi_state) ;;
            print ("DMM auto-ranging set to: " +++ scpi_state))
         (except_visa (fun m => "Error setting DMM auto-ranging: " +++ m) unexpected))).

Definition do_dmm_delay_set (delay : string) : M unit :=
  with_instrument no_device (fun inst =>
    require_arg delay "Usage: dmm_delay_set <seconds>"
      (try_except
         (inst_write env inst (":SENSe:DELay " +++ strip delay) ;;
          print ("DMM measurement delay set to: " +++ strip delay +++ " s"))
         (except_visa (fun m => "Error setting DMM delay: " +++ m) unexpected))).

Definition do_dmm_resolution_set (resolution : string) : M unit :=
  with_instrument no_device (fun inst =>
    require_arg resolution "Usage: dmm_resolution_set <resolution>"
      (try_except
         (inst_write env inst (":SENSe:RESolution " +++ strip resolution) ;;
          print ("DMM resolution set to: " +++ strip resolution))
         (except_visa (fun m => "Error setting DMM resolution: " +++ m) unexpected))).

Definition do_dmm_measure_dc_v (arg : string) : M unit :=
  with_instrument no_device (fun inst =>
    try_except
      (measurement <- inst_query env inst ":MEASure:VOLTage:DC?" ;;
       print ("DC Voltage: " +++ strip measurement +++ " V"))
      (except_visa (fun m => "Error measuring DC Voltage. Check instrument capability: " +++ m) unexpected)).

Definition do_dmm_measure_ac_v (arg : string) : M unit :=
  with_instrument no_device (fun inst =>
    try_except
      (measurement <- inst_query env inst ":MEASure:VOLTage:AC?" ;;
       print ("AC Voltage (RMS): " +++ strip measurement +++ " V"))
      (except_visa (fun m => "Error measuring AC Voltage. Check instrument capability: " +++ m) unexpected)).

Definition do_dmm_measure_dc_i (arg : string) : M unit :=
  with_instrument no_device (fun inst =>
    try_except
      (measurement <- inst_query env inst ":MEASure:CURRent:DC?" ;;
       print ("DC Current: " +++ strip measurement +++ " A"))
      (except_visa (fun m => "Error measuring DC Current. Check instrument capability: " +++ m) unexpected)).

Definition do_dmm_measure_ac_i (arg : string) : M unit :=
  with_instrument no_device (fun inst =>
    try_except
      (measurement <- inst_query env inst ":MEASure:CURRent:AC?" ;;
       print ("AC Current (RMS): " +++ strip measurement +++ " A"))
      (except_visa (fun m => "Error measuring AC Current. Check instrument capability: " +++ m) unexpected)).

Definition do_dmm_measure_continuity (arg : string) : M unit :=
  with_instrument no_device (fun inst =>
    try_except
      (measurement <- inst_query env inst ":MEASure:CONTinuity?" ;;
       print ("Continuity Resistance: " +++ strip measurement +++ " Ohm"))
      (except_visa (fun m => "Error measuring continuity. Check instrument capability: " +++ m) unexpected)).

Definition do_dmm_measure_diode (arg : string) : M unit :=
  with_instrument no_device (fun inst =>
    try_except
      (measurement <- inst_query env inst ":MEASure:DIODe?" ;;
       print ("Diode Forward Voltage: " +++ strip measurement +++ " V"))
      (except_visa (fun m => "Error measuring diode forward voltage. Check instrument capability: " +++ m) unexpected)).

Definition do_dmm_measure2_resistance (arg : string) : M unit :=
  with_instrument no_device (fun inst =>
    try_except
      (measurement <- inst_query env inst ":MEASure:RESistance?" ;;
       print ("Resistance: " +++ strip measurement +++ " Ohm"))
      (except_visa (fun m => "Error measuring 2-wire Resistance. Check instrument capability: " +++ m) unexpected)).

Definition do_dmm_measure4_resistance (arg : string) : M unit :=
  with_instrument no_device (fun inst =>
    try_except
      (measurement <- inst_query env inst ":MEASure:FRESistance?" ;;
       print ("4-Wire Resistance: " +++ strip measurement +++ " Ohm"))
      (except_visa (fun m => "Error measuring 4-wire Resistance. Check instrument capability: " +++ m) unexpected)).

(** *** Oscilloscope commands *)

Definition do_oscope_set_timebase (sec_per_div : string) : M unit :=
  with_instrument no_device (fun inst =>
    require_arg sec_per_div "Usage: oscope_set_timebase <seconds_per_div>"
      (try_except
         (inst_write env inst (":HORizontal:SCAle " +++ sec_per_div) ;;
          print ("Oscilloscope timebase set to: " +++ sec_per_div +++ " s/div"))
         (except_visa (fun m => "Error setting timebase: " +++ m) unexpected))).

Definition do_oscope_set_vertscale (channel_volt_per_div : string) : M unit :=
  with_instrument no_device (fun inst =>
    require_arg channel_volt_per_div "Usage: oscope_set_vertscale <channel>,<volts_per_div>"
      (try_except
         ('(channel, volts_per_div) <- unpack2 (split comma channel_volt_per_div) ;;
          inst_write env inst (":CHANnel" +++ channel +++ ":SCAle " +++ volts_per_div) ;;
          print ("Oscilloscope Channel " +++ channel +++ " scale set to: "
                   +++ volts_per_div +++ " V/div"))
         (except_value_visa "Invalid format. Use: <channel>,<volts_per_div> (e.g., 1,0.5)"
            (fun m => "Error setting vertical scale: " +++ m) unexpected))).

Definition do_oscope_measure_param (channel_parameter : string) : M unit :=
  with_instrument no_device (fun inst =>
    require_arg channel_parameter "Usage: oscope_measure_param <channel>,<parameter>"
      (try_except
         ('(channel, parameter) <- unpack2 (split comma channel_parameter) ;;
          let parameter_scpi := upper parameter in
          let raw_query := ":MEASure:" +++ parameter_scpi +++ "? CHANnel" +++ channel in
          measurement <- inst_query env inst raw_query ;;
          print ("Channel " +++ channel +++ " " +++ parameter_scpi +++ ": "
                   +++ strip measurement))
         (except_value_visa "Invalid format. Use: <channel>,<parameter> (e.g., 1,FREQ)"
            (fun m => "Error reading measurement: " +++ m
                        +++ ". Check if this measurement is supported.")
            unexpected))).

Definition do_oscope_set_trigger_source (source : string) : M unit :=
  with_instrument no_device (fun inst =>
    require_arg source "Usage: oscope_set_trigger_source <source>"
      (try_except
         (inst_write env inst (":TRIGger:SOURce " +++ upper source) ;;
          print ("Oscilloscope trigger source set to: " +++ upper source))
         (except_visa (fun m => "Error setting trigger source: " +++ m) unexpected))).

Definition do_oscope_set_trigger_level (channel_level : string) : M unit :=
  with_instrument no_device (fun inst =>
    require_arg channel_level "Usage: oscope_set_trigger_level <channel>,<voltage>"
      (try_except
         ('(channel, level) <- unpack2 (split comma channel_level) ;;
          inst_write env inst (":TRIGger:LEVel " +++ level) ;;
          print ("Oscilloscope trigger level set to: " +++ level
                   +++ " V (Assumed for Channel " +++ channel +++ " source)"))
         (except_value_visa "Invalid format. Use: <channel>,<voltage> (e.g., 1,0.5)"
            (fun m => "Error setting trigger level: " +++ m) unexpected))).

Definition do_oscope_set_trigger_slope (channel_slope : string) : M unit :=
  with_instrument no_device (fun inst =>
    require_arg channel_slope "Usage: oscope_set_trigger_slope <channel>,<POS|NEG|EITH>"
      (try_except
         ('(channel, slope) <- unpack2 (split comma channel_slope) ;;
          let scpi_slope := upper slope in
          if negb (str_in scpi_slope ["POS"; "NEG"; "EITH"]) then
            print "Invalid slope. Use POS, NEG, or EITH."
          else
            inst_write env inst (":TRIGger:EDGE:SLOpe " +++ scpi_slope) ;;
            print ("Oscilloscope trigger slope set to: " +++ scpi_slope
                     +++ " (Assumed for Channel " +++ channel +++ " source)"))
         (except_value_visa "Invalid format. Use: <channel>,<POS|NEG|EITH> (e.g., 1,POS)"
            (fun m => "Error setting trigger slope: " +++ m) unexpected))).

Definition do_oscope_get_setup (arg : string) : M unit :=
  with_instrument no_device (fun inst =>
    try_except
      (setup <- inst_query env inst ":SETup?" ;;
       print ("Oscilloscope Setup String (truncated to 200 chars): " +++ take_chars 200 (strip setup) +++ "..."))
      (except_visa (fun m => "Error getting setup. Check instrument capability: " +++ m) unexpected)).

Definition do_oscope_run (arg : string) : M unit :=
  with_instrument no_device (fun inst =>
    try_except
      (inst_write env inst ":RUN" ;;
       print "Oscilloscope set to RUN mode.")
      (except_visa (fun m => "Error setting RUN mode: " +++ m) unexpected)).

(** [filename.split('.')[-1].upper()]; [split] returns at least one item,
    so the index [-1] never raises. *)
Definition file_extension (filename : string) : string :=
  upper (last (split dot filename) EmptyString).

Definition screen_capture (usage request saved hint : string)
    (filename_format : string) : M unit :=
  with_instrument no_device (fun inst =>
    require_arg filename_format usage
      (try_except
         (let filename := strip filename_format in
          let extension := file_extension filename in
          if str_in extension ["PNG"; "JPEG"; "JPG"] then
            let scpi_format := extension in
            let SCPI_COMMAND := ":DISPlay:DATA? " +++ scpi_format in
            print (request +++ scpi_format +++ ")...") ;;
            image_data <- inst_query_binary_values env inst SCPI_COMMAND ;;
            if negb (truthy image_data) then
              print "Error: Received no image data from the instrument."
            else
              write_file env filename image_data ;;
              print (saved +++ filename)
          else
            print "Unsupported format for screen capture. Use PNG or JPEG/JPG.")
         (fun e =>
            match e with
            | VisaIOError _ =>
                print ("Error communicating with instrument: " +++ str_error e) ;;
                print hint
            | _ => print (unexpected (str_error e))
            end))).

Definition do_oscope_screen_capture (filename_format : string) : M unit :=
  screen_capture "Usage: oscope_screen_capture <filename.png|filename.jpeg>"
    "Requesting scope screen data ("
    "Scope screen capture successfully saved to: "
    "HINT: Ensure the waveform source is set via 'oscope_set_wfm_source'."
    filename_format.

(** [map(float, items)] run to its end: the floats, or the first item that
    [float] rejects. *)
Fixpoint float_list (items : list string) : string + list float :=
  match items with
  | [] => inr []
  | x :: rest =>
      match env_float env x with
      | None => inl x
      | Some v =>
          match float_list rest with
          | inl bad => inl bad
          | inr vs => inr (v :: vs)
          end
      end
  end.

(** [list(map(float, s.strip().split(',')))] *)
Definition parse_floats (s : string) : M (list float) :=
  match float_list (split comma (strip s)) with
  | inr vs => ret vs
  | inl bad => raise (Exception (ValueError
                 ("could not convert string to float: " +++ env_repr_str env bad)))
  end.

(** [l[k]] on a list of floats *)
Definition item (l : list float) (k : nat) : M float :=
  match Waveform.index l k with
  | Some x => ret x
  | None => raise (Exception (IndexError "list index out of range"))
  end.

(** One field of a [csv.writer] row in the default dialect: quoted only
    when it holds the delimiter, the quote character or a line break. *)
Definition csv_needs_quote (field : string) : bool :=
  contains_char comma field || contains_char dquote field
  || contains_char (ascii_of_nat 13) field || contains_char (ascii_of_nat 10) field.
Fixpoint csv_double_quotes (field : string) : string :=
  match field with
  | EmptyString => EmptyString
  | String c r =>
      if Ascii.eqb c dquote then String c (String c (csv_double_quotes r))
      else String c (csv_double_quotes r)
  end.
Definition csv_field (field : string) : string :=
  if csv_needs_quote field then dq +++ csv_double_quotes field +++ dq else field.

(** [writer.writerow(fields)]: the text of one row. *)
Definition csv_row (fields : list string) : string :=
  String.concat "," (map csv_field fields) +++ crlf.

(** The text written to a CSV file: the header row, then [writerows]. *)
Definition csv_content (processed_data : list (float * float)) : string :=
  csv_row ["Time (s)"; "Voltage (V)"]
  +++ String.concat EmptyString
        (map (fun '(t, v) => csv_row [env_repr_float env t; env_repr_float env v])
             processed_data).

(** One line of the text export: [f"{t:.6e}\t{v:.6e}\n"]. *)
Definition txt_line (tv : float * float) : string :=
  let '(t, v) := tv in Fmt.format_6e t +++ tab +++ Fmt.format_6e v +++ lf.

(** The text written to a TXT file. *)
Definition txt_content (processed_data : list (float * float)) : string :=
  ("Time (s)" +++ tab +++ "Voltage (V)" +++ lf)
  +++ String.concat EmptyString (map txt_line processed_data).

Definition do_oscope_capture_data (filename_format : string) : M unit :=
  with_instrument no_device (fun inst =>
    require_arg filename_format "Usage: oscope_capture_data <filename.csv|filename.txt>"
      (try_except
         (let filename := strip filename_format in
          let extension := file_extension filename in
          if negb (str_in extension ["CSV"; "TXT"]) then
            print "Unsupported format for data capture. Use CSV or TXT."
          else
            preamble_str <- inst_query env inst ":WAVeform:PREamble?" ;;
            preamble <- parse_floats preamble_str ;;
            X_INCrement <- item preamble 5 ;;
            Y_INCrement <- item preamble 7 ;;
            Y_Reference <- item preamble 8 ;;
            inst_write env inst ":WAVeform:FORMat ASCii" ;;
            raw_data_str <- inst_query env inst ":WAVeform:DATA?" ;;
            raw_data <- parse_floats raw_data_str ;;
            let processed_data :=
              Waveform.process_data X_INCrement Y_INCrement Y_Reference raw_data in
            (if String.eqb extension "CSV" then
               write_file env filename (csv_content processed_data)
             else if String.eqb extension "TXT" then
               write_file env filename (txt_content processed_data)
             else ret tt) ;;
            print ("Waveform data successfully processed and saved to: " +++ filename
                     +++ " (" +++ str_nat (length raw_data) +++ " points)."))
         (fun e =>
            match e with
            | VisaIOError _ =>
                print ("Error communicating with instrument: " +++ str_error e) ;;
                print "HINT: Ensure the instrument is ready and the waveform source is set."
            | _ => print ("An unexpected error occurred during data processing: "
                            +++ str_error e)
            end))).

(** *** Function generator (AFG) commands *)

Definition unexpected_short (m : string) : string := "Unexpected error: " +++ m.

Definition do_afg_set_wave (args : string) : M unit :=
  with_instrument no_device (fun inst =>
    require_arg args ("Usage: afg_set_wave " +++ dq +++ "WAVE, FREQ, AMPL" +++ dq)
      (try_except
         ('(waveform, freq, ampl) <- unpack3 (split comma args) ;;
          inst_write env inst (":FUNCtion " +++ upper waveform) ;;
          inst_write env inst (":FREQuency " +++ freq) ;;
          inst_write env inst (":VOLTage " +++ ampl) ;;
          print ("AFG set to " +++ upper waveform +++ " wave, " +++ freq +++ " Hz, "
                   +++ ampl +++ " Vpp"))
         (except_value_visa
            ("Invalid format. Use: afg_set_wave " +++ dq +++ "WAVE,FREQ,AMPL" +++ dq
               +++ " (e.g., SIN,1000,1.0)")
            (fun m => "Error setting waveform: " +++ m) unexpected_short))).

Definition do_afg_output_on (arg : string) : M unit :=
  with_instrument no_device (fun inst =>
    try_except
      (inst_write env inst ":OUTPut ON" ;;
       print "AFG output turned ON.")
      (except_any (fun m => "Error enabling output: " +++ m))).

Definition do_afg_output_off (arg : string) : M unit :=
  with_instrument no_device (fun inst =>
    try_except
      (inst_write env inst ":OUTPut OFF" ;;
       print "AFG output turned OFF.")
      (except_any (fun m => "Error disabling output: " +++ m))).

Definition do_afg_psu_slew_set (channel_rate : string) : M unit :=
  with_instrument no_device (fun inst =>
    require_arg channel_rate "Usage: afg_psu_slew_set <rate_V_per_s>"
      (try_except
         (if contains_char comma channel_rate then
            '(channel, rate) <- unpack2 (split comma channel_rate) ;;
            inst_write env inst (":VOLTage:SLEW:RATE " +++ rate) ;;
            print ("Slew rate set to " +++ rate +++ " V/s (Assuming Channel "
                     +++ channel +++ " or single output).")
          else
            let rate := strip channel_rate in
            inst_write env inst (":VOLTage:SLEW:RATE " +++ rate) ;;
            print ("Slew rate set to " +++ rate +++ " V/s."))
         (except_any (fun m =>
            "Error setting slew rate. Command likely unsupported by instrument: " +++ m)))).

(** *** Power supply (PSU) commands *)

Definition do_psu_set_voltage (voltage : string) : M unit :=
  with_instrument no_device (fun inst =>
    require_arg voltage "Usage: psu_set_voltage <voltage>"
      (try_except
         (inst_write env inst (":VOLTage " +++ voltage) ;;
          print ("Voltage set to " +++ voltage +++ " V"))
         (except_any (fun m => "Error setting voltage: " +++ m)))).

Definition do_psu_set_current (current : string) : M unit :=
  with_instrument no_device (fun inst =>
    require_arg current "Usage: psu_set_current <current>"
      (try_except
         (inst_write env inst (":CURRent " +++ current) ;;
          print ("Current limit set to " +++ current +++ " A"))
         (except_any (fun m => "Error setting current: " +++ m)))).

Definition do_psu_output_on (arg : string) : M unit :=
  with_instrument no_device (fun inst =>
    try_except
      (inst_write env inst ":OUTPut ON" ;;
       print "Power supply output ON.")
      (except_any (fun m => "Error enabling PSU output: " +++ m))).

Definition do_psu_output_off (arg : string) : M unit :=
  with_instrument no_device (fun inst =>
    try_except
      (inst_write env inst ":OUTPut OFF" ;;
       print "Power supply output OFF.")
      (except_any (fun m => "Error disabling PSU output: " +++ m))).

Definition do_psu_set_ovp (voltage : string) : M unit :=
  with_instrument no_device (fun inst =>
    require_arg voltage "Usage: psu_set_ovp <voltage>"
      (try_except
         (inst_write env inst (":VOLTage:PROTection:LEVel " +++ voltage) ;;
          print ("OVP set to " +++ voltage +++ " V"))
         (except_any (fun m => "Error setting OVP: " +++ m)))).

Definition do_psu_set_ocp (current : string) : M unit :=
  with_instrument no_device (fun inst =>
    require_arg current "Usage: psu_set_ocp <current>"
      (try_except
         (inst_write env inst (":CURRent:PROTection:LEVel " +++ current) ;;
          print ("OCP set to " +++ current +++ " A"))
         (except_any (fun m => "Error setting OCP: " +++ m)))).

Definition do_psu_set_otp (temperature : string) : M unit :=
  with_instrument no_device (fun inst =>
    require_arg temperature "Usage: psu_set_otp <temperature>"
      (try_except
         (inst_write env inst (":SENSe:TEMPerature:PROTection:LEVel " +++ temperature) ;;
          print ("OTP level set to " +++ temperature +++ " °C."))
         (except_any (fun m => "Error setting OTP. Command may be unsupported by instrument: " +++ m)))).

Definition do_psu_measure_output (measure_type : string) : M unit :=
  with_instrument no_device (fun inst =>
    let measure_type := upper (strip measure_type) in
    if negb (str_in measure_type ["VOLT"; "CURR"]) then
      print "Usage: psu_measure_output <VOLT|CURR>"
    else
      try_except
        (measurement <- inst_query env inst (":MEASure:" +++ measure_type +++ "?") ;;
         let unit_name := if String.eqb measure_type "VOLT" then "V" else "A" in
         print ("Output " +++ measure_type +++ ": " +++ strip measurement
                  +++ " " +++ unit_name))
        (except_any (fun m => "Error measuring output " +++ measure_type +++ ": " +++ m))).

Definition do_psu_protection_clear (arg : string) : M unit :=
  with_instrument no_device (fun inst =>
    try_except
      (inst_write env inst "*CLS" ;;
       print "PSU protection trip state cleared (*CLS sent).")
      (except_any (fun m => "Error clearing protection state: " +++ m))).

(** *** Spectrum analyzer (SA) and network analyzer (VNA) commands *)

Definition do_rf_set_center_freq (frequency : string) : M unit :=
  with_instrument no_device (fun inst =>
    require_arg frequency "Usage: rf_set_center_freq <frequency>"
      (try_except
         (inst_write env inst (":SENSe:FREQuency:CENTer " +++ frequency) ;;
          print ("Center frequency set to: " +++ frequency))
         (except_visa (fun m => "Error setting center frequency: " +++ m) unexpected))).

Definition do_rf_set_span (span : string) : M unit :=
  with_instrument no_device (fun inst =>
    require_arg span "Usage: rf_set_span <span_frequency>"
      (try_except
         (inst_write env inst (":SENSe:FREQuency:SPAN " +++ span) ;;
          print ("Span set to: " +++ span))
         (except_visa (fun m => "Error setting span: " +++ m) unexpected))).

Definition do_rf_set_power (power_level : string) : M unit :=
  with_instrument no_device (fun inst =>
    require_arg power_level "Usage: rf_set_power <power_level>"
      (try_except
         (inst_write env inst (":SOURce:POWer:LEVel " +++ power_level) ;;
          print ("RF Power/Ref Level set to: " +++ power_level))
         (except_visa (fun m => "Error setting RF power level: " +++ m) unexpected))).

Definition do_sa_set_rbw_vbw (bandwidths : string) : M unit :=
  with_instrument no_device (fun inst =>
    require_arg bandwidths "Usage: sa_set_rbw_vbw <rbw>,<vbw>"
      (try_except
         ('(rbw, vbw) <- unpack2 (split comma bandwidths) ;;
          inst_write env inst (":SENSe:BANDwidth:RESolution " +++ rbw) ;;
          inst_write env inst (":SENSe:BANDwidth:VIDeo " +++ vbw) ;;
          print ("RBW set to " +++ rbw +++ ", VBW set to " +++ vbw))
         (except_value_visa "Invalid format. Use: <rbw>,<vbw> (e.g., 10kHz,3kHz)"
            (fun m => "Error setting bandwidths: " +++ m) unexpected_short))).

Definition do_sa_read_marker (marker_number : string) : M unit :=
  with_instrument no_device (fun inst =>
    require_arg marker_number "Usage: sa_read_marker <marker_number>"
      (try_except
         (let mkr := strip marker_number in
          freq <- inst_query env inst (":CALCulate:MARKer" +++ mkr +++ ":X?") ;;
          amp <- inst_query env inst (":CALCulate:MARKer" +++ mkr +++ ":Y?") ;;
          print ("Marker " +++ mkr +++ ": Frequency = " +++ strip freq
                   +++ " Hz, Amplitude = " +++ strip amp +++ " dBm"))
         (except_visa (fun m => "Error reading marker: " +++ m) unexpected))).

Definition do_vna_set_sweep (start_stop_points : string) : M unit :=
  with_instrument no_device (fun inst =>
    require_arg start_stop_points "Usage: vna_set_sweep <start_freq>,<stop_freq>,<points>"
      (try_except
         ('(start, stop, points) <- unpack3 (split comma start_stop_points) ;;
          inst_write env inst (":SENSe:FREQuency:STARt " +++ start) ;;
          inst_write env inst (":SENSe:FREQuency:STOP " +++ stop) ;;
          inst_write env inst (":SENSe:SWEep:POINts " +++ points) ;;
          print ("VNA sweep set: " +++ start +++ " to " +++ stop +++ ", "
                   +++ points +++ " points."))
         (except_value_visa
            "Invalid format. Use: <start_freq>,<stop_freq>,<points> (e.g., 1GHz,2GHz,201)"
            (fun m => "Error setting VNA sweep parameters: " +++ m) unexpected_short))).

Definition do_vna_measure_sparam (sparam_format : string) : M unit :=
  with_instrument no_device (fun inst =>
    require_arg sparam_format "Usage: vna_measure_sparam <sparam>,<format>"
      (try_except
         ('(sparam, dformat) <- unpack2 (split comma sparam_format) ;;
          let sparam_scpi := upper sparam in
          let dformat_scpi := upper dformat in
          inst_write env inst (":CALCulate:PARameter:DEFine " +++ dq +++ "Trc1_"
                                 +++ sparam_scpi +++ dq +++ "," +++ sparam_scpi) ;;
          inst_write env inst (":CALCulate:SELected:FORMat " +++ dformat_scpi) ;;
          print ("VNA Measurement set to " +++ sparam_scpi +++ " with format "
                   +++ dformat_scpi +++ "."))
         (except_value_visa "Invalid format. Use: <sparam>,<format> (e.g., S21,MLOG)"
            (fun m => "Error setting S-parameter measurement: " +++ m)
            unexpected_short))).

Definition do_vna_set_trace (trace_param_window : string) : M unit :=
  with_instrument no_device (fun inst =>
    require_arg trace_param_window "Usage: vna_set_trace <trace_num>,<sparam>,<window_num>"
      (try_except
         ('(tnum, sparam, wnum) <- unpack3 (split comma trace_param_window) ;;
          let sparam_scpi := upper sparam in
          inst_write env inst (":CALCulate" +++ wnum +++ ":PARameter" +++ tnum
                                 +++ ":DEFine " +++ dq +++ sparam_scpi +++ dq) ;;
          inst_write env inst (":DISPlay:WINDow" +++ wnum +++ ":TRACe" +++ tnum
                                 +++ ":FEED " +++ dq +++ sparam_scpi +++ dq) ;;
          print ("Trace " +++ tnum +++ " in Window " +++ wnum +++ " now displays "
                   +++ sparam_scpi +++ "."))
         (except_value_visa
            "Invalid format. Use: <trace_num>,<sparam>,<window_num> (e.g., 2,S21,1)"
            (fun m => "Error setting VNA trace: " +++ m) unexpected_short))).

(** [f"{l}"] for a list of strings. *)
Definition repr_str_list (l : list string) : string :=
  "[" +++ String.concat ", " (map (env_repr_str env) l) +++ "]".

Definition do_vna_query_data (arg : string) : M unit :=
  with_instrument no_device (fun inst =>
    try_except
      (data <- inst_query env inst ":CALCulate:SELected:DATA:FDATa?" ;;
       let data_points := split comma (strip data) in
       print ("VNA Trace Data Queried: " +++ str_nat (length data_points)
                +++ " values received.") ;;
       print ("First 10 values: " +++ repr_str_list (firstn 10 data_points) +++ "...") ;;
       print (lf +++ "Note: Use this with Python scripting for saving/plotting."))
      (except_visa (fun m => "Error querying VNA data: " +++ m) unexpected)).

Definition do_rf_screen_capture (filename_format : string) : M unit :=
  screen_capture "Usage: rf_screen_capture <filename.png|filename.jpeg>"
    "Requesting screen data ("
    "Screen capture successfully saved to: "
    "HINT: Check instrument manual for the exact SCPI screen capture command."
    filename_format.

(** *** Electronic load commands *)

Definition do_eload_set_mode (mode : string) : M unit :=
  with_instrument no_device (fun inst =>
    require_arg mode "Usage: eload_set_mode <CURR|VOLT|RES|POW>"
      (try_except
         (let scpi_mode := upper (strip mode) in
          if negb (str_in scpi_mode ["CURR"; "VOLT"; "RES"; "POW"]) then
            print "Invalid mode. Use CURR, VOLT, RES, or POW."
          else
            inst_write env inst (":FUNCtion:MODE " +++ scpi_mode) ;;
            print ("Electronic Load mode set to: " +++ scpi_mode))
         (except_visa (fun m => "Error setting load mode: " +++ m) unexpected))).

Definition do_eload_set_current (current : string) : M unit :=
  with_instrument no_device (fun inst =>
    require_arg current "Usage: eload_set_current <amps>"
      (try_except
         (inst_write env inst (":CURRent " +++ current) ;;
          print ("CC current set to " +++ current +++ " A."))
         (except_visa (fun m => "Error setting current: " +++ m) unexpected))).

Definition do_eload_set_voltage (voltage : string) : M unit :=
  with_instrument no_device (fun inst =>
    require_arg voltage "Usage: eload_set_voltage <volts>"
      (try_except
         (inst_write env inst (":VOLTage " +++ voltage) ;;
          print ("CV voltage set to " +++ voltage +++ " V."))
         (except_visa (fun m => "Error setting voltage: " +++ m) unexpected))).

Definition do_eload_set_resistance (resistance : string) : M unit :=
  with_instrument no_device (fun inst =>
    require_arg resistance "Usage: eload_set_resistance <ohms>"
      (try_except
         (inst_write env inst (":RESistance " +++ resistance) ;;
          print ("CR resistance set to " +++ resistance +++ " Ohm."))
         (except_visa (fun m => "Error setting resistance: " +++ m) unexpected))).

Definition do_eload_set_power (power : string) : M unit :=
  with_instrument no_device (fun inst =>
    require_arg power "Usage: eload_set_power <watts>"
      (try_except
         (inst_write env inst (":POWer " +++ power) ;;
          print ("CP power set to " +++ power +++ " W."))
         (except_visa (fun m => "Error setting power: " +++ m) unexpected))).

Definition do_eload_input_on (arg : string) : M unit :=
  with_instrument no_device (fun inst =>
    try_except
      (inst_write env inst ":INPut ON" ;;
       print "Electronic Load Input ON (Load active).")
      (except_any (fun m => "Error enabling load input: " +++ m))).

Definition do_eload_input_off (arg : string) : M unit :=
  with_instrument no_device (fun inst =>
    try_except
      (inst_write env inst ":INPut OFF" ;;
       print "Electronic Load Input OFF (Load inactive).")
      (except_any (fun m => "Error disabling load input: " +++ m))).

Definition do_eload_measure_input (measure_type : string) : M unit :=
  with_instrument no_device (fun inst =>
    let measure_type := upper (strip measure_type) in
    if negb (str_in measure_type ["VOLT"; "CURR"]) then
      print "Usage: eload_measure_input <VOLT|CURR>"
    else
      try_except
        (measurement <- inst_query env inst (":MEASure:" +++ measure_type +++ "?") ;;
         let unit_name := if String.eqb measure_type "VOLT" then "V" else "A" in
         print ("ELoad Input " +++ measure_type +++ ": " +++ strip measurement
                  +++ " " +++ unit_name))
        (except_any (fun m => "Error measuring ELoad input " +++ measure_type
                                +++ ": " +++ m))).

Definition do_eload_set_slew (rate : string) : M unit :=
  with_instrument no_device (fun inst =>
    require_arg rate "Usage: eload_set_slew <amps_per_second>"
      (try_except
         (inst_write env inst (":CURRent:SLEW:RATE " +++ rate) ;;
          print ("CC Slew Rate set to " +++ rate +++ " A/s."))
         (except_any (fun m => "Error setting current slew rate: " +++ m)))).

Definition do_eload_set_transient (levels_timing : string) : M unit :=
  with_instrument no_device (fun inst =>
    require_arg levels_timing "Usage: eload_set_transient <level_A>,<level_B>,<pulse_width>"
      (try_except
         ('(level_a, level_b, pulse_width) <- unpack3 (split comma levels_timing) ;;
          inst_write env inst (":CURRent:STATic " +++ level_a) ;;
          inst_write env inst (":CURRent:TRANsient:LEVel " +++ level_b) ;;
          inst_write env inst (":CURRent:TRANsient:PULSe:WIDTh " +++ pulse_width) ;;
          inst_write env inst ":FUNCtion:MODE TRANsient" ;;
          print ("ELoad set for transient test: A=" +++ level_a +++ ", B=" +++ level_b
                   +++ ", Width=" +++ pulse_width +++ "."))
         (except_value_visa
            "Invalid format. Use: <level_A>,<level_B>,<pulse_width> (e.g., 0.5A,2.0A,10ms)"
            (fun m => "Error setting transient mode: " +++ m) unexpected))).

Definition do_eload_set_ovl (voltage : string) : M unit :=
  with_instrument no_device (fun inst =>
    require_arg voltage "Usage: eload_set_ovl <voltage>"
      (try_except
         (inst_write env inst (":VOLTage:PROTection:LEVel " +++ voltage) ;;
          print ("OVL set to " +++ voltage +++ " V"))
         (except_any (fun m => "Error setting OVL: " +++ m)))).

Definition do_eload_set_opl (power : string) : M unit :=
  with_instrument no_device (fun inst =>
    require_arg power "Usage: eload_set_opl <power_watts>"
      (try_except
         (inst_write env inst (":POWer:PROTection:LEVel " +++ power) ;;
          print ("OPL set to " +++ power +++ " W"))
         (except_any (fun m => "Error setting OPL: " +++ m)))).

(** *** Diagnostics *)

Definition do_ping_device (arg : string) : M unit :=
  with_instrument no_device (fun inst =>
    try_except
      (r <- inst_query env inst "*OPC?" ;;
       let resp := strip r in
       if String.eqb resp "1" || String.eqb (lower resp) "true" then
         print "Instrument communication OK."
       else
         print ("Unexpected response: " +++ resp))
      (except_visa (fun m => "Device ping failed (VisaIOError): " +++ m)
         (fun m => "Device ping failed: " +++ m))).

Definition candidate_cmds : list string :=
  [":MEASure:VOLTage:DC?"; ":MEASure:VOLTage:AC?"; ":MEASure:CURRent:DC?";
   ":MEASure:RESistance?"; ":WAVeform:DATA?"; ":TRIGger:SOURce?"; ":OUTPut:STATe?"].

(** The probing loop: [supported] collects the commands that answered. *)
Fixpoint probe (inst : handle) (cmds supported : list string) : M (list string) :=
  match cmds with
  | [] => ret supported
  | cmd :: rest =>
      supported' <- try_except
                      (_ <- inst_query env inst cmd ;; ret (supported ++ [cmd]))
                      (fun _ => ret supported) ;;
      probe inst rest supported'
  end.

Definition do_check_capabilities (arg : string) : M unit :=
  with_instrument no_device (fun inst =>
    try_except
      (print ("Checking instrument capabilities..." +++ lf) ;;
       try_except
         (r <- inst_query env inst "*IDN?" ;;
          print ("IDN: " +++ strip r))
         (fun _ => print "IDN query not supported or failed.") ;;
       try_except
         (r <- inst_query env inst "*OPT?" ;;
          print ("Options: " +++ strip r))
         (fun _ => print "Options query not supported.") ;;
       supported <- probe inst candidate_cmds [] ;;
       match supported with
       | _ :: _ =>
           print (lf +++ "Likely supported SCPI commands (best-effort probe):") ;;
           print_indented supported
       | [] => print (lf +++ "Could not auto-detect SCPI feature set from probes.")
       end)
      (except_any (fun m => "Error checking capabilities: " +++ m))).

(** *** Exit *)

Definition do_exit (arg : string) : M unit :=
  try_pass (write_history_file env) ;;
  s <- get_self ;;
  match instrument s with
  | Some inst =>
      try_pass
        (print ("Closing connection to " +++ str_opt (selected_device_id s) +++ "...") ;;
         inst_close env inst)
  | None => ret tt
  end ;;
  print "Exiting console. Goodbye!" ;;
  sys_exit 0.

Definition do_EOF (arg : string) : M unit :=
  print EmptyString ;;
  do_exit arg.

Definition postloop : M unit :=
  s <- get_self ;;
  match instrument s with
  | Some inst => try_pass (inst_close env inst)
  | None => ret tt
  end ;;
  try_pass (write_history_file env).

End Commands.

(** ** Dispatch and the top level *)

(** The [do_*] methods, by the command name that selects them. *)
Inductive command :=
| cmd_devicelist
| cmd_deviceselect
| cmd_deviceinfo
| cmd_id
| cmd_write
| cmd_query
| cmd_reset
| cmd_wait_opc
| cmd_get_error
| cmd_dmm_func_set
| cmd_dmm_range_set
| cmd_dmm_autoranging
| cmd_dmm_delay_set
| cmd_dmm_resolution_set
| cmd_dmm_measure_dc_v
| cmd_dmm_measure_ac_v
| cmd_dmm_measure_dc_i
| cmd_dmm_measure_ac_i
| cmd_dmm_measure_continuity
| cmd_dmm_measure_diode
| cmd_dmm_measure2_resistance
| cmd_dmm_measure4_resistance
| cmd_oscope_set_timebase
| cmd_oscope_set_vertscale
| cmd_oscope_measure_param
| cmd_oscope_set_trigger_source
| cmd_oscope_set_trigger_level
| cmd_oscope_set_trigger_slope
| cmd_oscope_get_setup
| cmd_oscope_run
| cmd_oscope_screen_capture
| cmd_oscope_capture_data
| cmd_afg_set_wave
| cmd_afg_output_on
| cmd_afg_output_off
| cmd_afg_psu_slew_set
| cmd_psu_set_voltage
| cmd_psu_set_current
| cmd_psu_output_on
| cmd_psu_output_off
| cmd_psu_set_ovp
| cmd_psu_set_ocp
| cmd_psu_set_otp
| cmd_psu_measure_output
| cmd_psu_protection_clear
| cmd_rf_set_center_freq
| cmd_rf_set_span
| cmd_rf_set_power
| cmd_sa_set_rbw_vbw
| cmd_sa_read_marker
| cmd_vna_set_sweep
| cmd_vna_measure_sparam
| cmd_vna_set_trace
| cmd_vna_query_data
| cmd_rf_screen_capture
| cmd_eload_set_mode
| cmd_eload_set_current
| cmd_eload_set_voltage
| cmd_eload_set_resistance
| cmd_eload_set_power
| cmd_eload_input_on
| cmd_eload_input_off
| cmd_eload_measure_input
| cmd_eload_set_slew
| cmd_eload_set_transient
| cmd_eload_set_ovl
| cmd_eload_set_opl
| cmd_ping_device
| cmd_check_capabilities
| cmd_exit
| cmd_EOF.

(** [getattr(self, 'do_' + cmd)(arg)] *)
Definition run (env : Env) (c : command) (arg : string) : M unit :=
  match c with
  | cmd_devicelist => do_devicelist env arg
  | cmd_deviceselect => do_deviceselect env arg
  | cmd_deviceinfo => do_deviceinfo arg
  | cmd_id => do_id env arg
  | cmd_write => do_write env arg
  | cmd_query => do_query env arg
  | cmd_reset => do_reset env arg
  | cmd_wait_opc => do_wait_opc env arg
  | cmd_get_error => do_get_error env arg
  | cmd_dmm_func_set => do_dmm_func_set env arg
  | cmd_dmm_range_set => do_dmm_range_set env arg
  | cmd_dmm_autoranging => do_dmm_autoranging env arg
  | cmd_dmm_delay_set => do_dmm_delay_set env arg
  | cmd_dmm_resolution_set => do_dmm_resolution_set env arg
  | cmd_dmm_measure_dc_v => do_dmm_measure_dc_v env arg
  | cmd_dmm_measure_ac_v => do_dmm_measure_ac_v env arg
  | cmd_dmm_measure_dc_i => do_dmm_measure_dc_i env arg
  | cmd_dmm_measure_ac_i => do_dmm_measure_ac_i env arg
  | cmd_dmm_measure_continuity => do_dmm_measure_continuity env arg
  | cmd_dmm_measure_diode => do_dmm_measure_diode env arg
  | cmd_dmm_measure2_resistance => do_dmm_measure2_resistance env arg
  | cmd_dmm_measure4_resistance => do_dmm_measure4_resistance env arg
  | cmd_oscope_set_timebase => do_oscope_set_timebase env arg
  | cmd_oscope_set_vertscale => do_oscope_set_vertscale env arg
  | cmd_oscope_measure_param => do_oscope_measure_param env arg
  | cmd_oscope_set_trigger_source => do_oscope_set_trigger_source env arg
  | cmd_oscope_set_trigger_level => do_oscope_set_trigger_level env arg
  | cmd_oscope_set_trigger_slope => do_oscope_set_trigger_slope env arg
  | cmd_oscope_get_setup => do_oscope_get_setup env arg
  | cmd_oscope_run => do_oscope_run env arg
  | cmd_oscope_screen_capture => do_oscope_screen_capture env arg
  | cmd_oscope_capture_data => do_oscope_capture_data env arg
  | cmd_afg_set_wave => do_afg_set_wave env arg
  | cmd_afg_output_on => do_afg_output_on env arg
  | cmd_afg_output_off => do_afg_output_off env arg
  | cmd_afg_psu_slew_set => do_afg_psu_slew_set env arg
  | cmd_psu_set_voltage => do_psu_set_voltage env arg
  | cmd_psu_set_current => do_psu_set_current env arg
  | cmd_psu_output_on => do_psu_output_on env arg
  | cmd_psu_output_off => do_psu_output_off env arg
  | cmd_psu_set_ovp => do_psu_set_ovp env arg
  | cmd_psu_set_ocp => do_psu_set_ocp env arg
  | cmd_psu_set_otp => do_psu_set_otp env arg
  | cmd_psu_measure_output => do_psu_measure_output env arg
  | cmd_psu_protection_clear => do_psu_protection_clear env arg
  | cmd_rf_set_center_freq => do_rf_set_center_freq env arg
  | cmd_rf_set_span => do_rf_set_span env arg
  | cmd_rf_set_power => do_rf_set_power env arg
  | cmd_sa_set_rbw_vbw => do_sa_set_rbw_vbw env arg
  | cmd_sa_read_marker => do_sa_read_marker env arg
  | cmd_vna_set_sweep => do_vna_set_sweep env arg
  | cmd_vna_measure_sparam => do_vna_measure_sparam env arg
  | cmd_vna_set_trace => do_vna_set_trace env arg
  | cmd_vna_query_data => do_vna_query_data env arg
  | cmd_rf_screen_capture => do_rf_screen_capture env arg
  | cmd_eload_set_mode => do_eload_set_mode env arg
  | cmd_eload_set_current => do_eload_set_current env arg
  | cmd_eload_set_voltage => do_eload_set_voltage env arg
  | cmd_eload_set_resistance => do_eload_set_resistance env arg
  | cmd_eload_set_power => do_eload_set_power env arg
  | cmd_eload_input_on => do_eload_input_on env arg
  | cmd_eload_input_off => do_eload_input_off env arg
  | cmd_eload_measure_input => do_eload_measure_input env arg
  | cmd_eload_set_slew => do_eload_set_slew env arg
  | cmd_eload_set_transient => do_eload_set_transient env arg
  | cmd_eload_set_ovl => do_eload_set_ovl env arg
  | cmd_eload_set_opl => do_eload_set_opl env arg
  | cmd_ping_device => do_ping_device env arg
  | cmd_check_capabilities => do_check_capabilities env arg
  | cmd_exit => do_exit env arg
  | cmd_EOF => do_EOF env arg
  end.

(** What [cmd.Cmd.cmdloop] meets at the prompt: a line it resolves to a
    [do_*] method with its argument, a line it handles itself ([help], an
    unknown command, an empty first line), or Ctrl+C. *)
Inductive event :=
| Dispatch (c : command) (arg : string)
| Handled
| Interrupt.

(** [Console().cmdloop()]: no [do_*] method returns a true value, so the
    loop only ends by an exception; at the end of the input [cmd.Cmd]
    dispatches the line [EOF]. *)
Fixpoint cmdloop (env : Env) (events : list event) : M unit :=
  match events with
  | [] => do_EOF env EmptyString
  | Dispatch c arg :: rest => run env c arg ;; cmdloop env rest
  | Handled :: rest => cmdloop env rest
  | Interrupt :: _ => raise KeyboardInterrupt
  end.

(** The [__main__] block: the exit status of the process and the final
    world. *)
Definition main (env : Env) (events : list event) (w : World) : Z * World :=
  match cmdloop env events w with
  | (Raise KeyboardInterrupt, w') =>
      (0%Z, log_print (Py.lf +++ "Ctrl+C detected. Exiting console. Goodbye!") w')
  | (Raise (Exception e), w') =>
      (0%Z, log_print ("A fatal error occurred: " +++ str_error e) w')
  | (Raise (SystemExit code), w') => (code, w')
  | (Ret _, w') => (0%Z, w')
  end.

(** The console as the class body creates it. *)
Definition initial_world (rm_ok : bool) : World :=
  mkWorld (mkConsole rm_ok None None) [] [] [] 0.

(** ** Sample environments and worlds *)

Module Demo.
Import Py.

(** The decimal strings a sample instrument sends, with their floats. *)
Definition float_table : list (string * float) :=
  [("0", 0); ("1", 1); ("2", 2); ("3", 3); ("27", 27); ("127", 127); ("227", 227);
   ("1e-6", 1e-6); ("0.01", 0.01); ("0.5", 0.5)]%float.

Fixpoint lookup (table : list (string * float)) (s : string) : option float :=
  match table with
  | [] => None
  | (k, v) :: rest => if String.eqb k s then Some v else lookup rest s
  end.

(** An environment from what [open_resource] does, what a query answers
    and what a binary query answers; writes, closes and files succeed.
    [repr] of a float is stood for by its 17-digit scientific form. *)
Definition station (open_result : option error) (answer : string -> error + string)
    (image : error + string) : Env :=
  mkEnv (fun _ => inr ["GPIB0::2::INSTR"])
        (fun _ _ => open_result)
        (fun _ _ => None)
        (fun _ _ => inr 5000%Z)
        (fun _ _ _ => None)
        (fun _ _ _ => None)
        (fun _ _ message => answer message)
        (fun _ _ _ => image)
        (fun _ => None)
        None
        (fun s => lookup float_table (strip s))
        (Fmt.format_e 16)
        (fun s => "'" +++ s +++ "'").

(** An oscilloscope that sends the given preamble and samples. *)
Definition scope_answer (preamble data : string) (message : string) : error + string :=
  if String.eqb message ":WAVeform:PREamble?" then inr preamble
  else if String.eqb message ":WAVeform:DATA?" then inr data
  else inr "1".

Definition bench : Env :=
  station None (scope_answer "0,0,0,0,0,1e-6,0,0.01,127,0" "127,227,27") (inr "PNG-bytes").

(** Nothing answers: opening and querying time out. *)
Definition unplugged : Env :=
  station (Some (VisaIOError "VI_ERROR_RSRC_NFOUND"))
          (fun _ => inl (VisaIOError "VI_ERROR_TMO"))
          (inl (VisaIOError "VI_ERROR_TMO")).

(** The preamble has three fields only. *)
Definition short_preamble : Env :=
  station None (scope_answer "1,2,3" "127,227,27") (inr "PNG-bytes").

(** The samples are not numbers. *)
Definition garbled : Env :=
  station None (scope_answer "0,0,0,0,0,1e-6,0,0.01,127,0" "127,abc") (inr "PNG-bytes").

(** The screen dump comes back empty. *)
Definition blank : Env :=
  station None (scope_answer "0,0,0,0,0,1e-6,0,0.01,127,0" "127,227,27") (inr EmptyString).

(** A console connected to the instrument opened by the first call. *)
Definition connected : World :=
  mkWorld (mkConsole true (Some "GPIB0::2::INSTR") (Some 0))
          [OpenResource "GPIB0::2::INSTR"] [] [] 0.

End Demo.

(** ** The vocabulary of the properties *)

Module Props.
Import Py.

(** The commands that talk to the selected instrument: all but the
    connection-management ones. *)
Definition connection_management (c : command) : bool :=
  match c with
  | cmd_devicelist | cmd_deviceselect | cmd_deviceinfo | cmd_exit | cmd_EOF => true
  | _ => false
  end.

Definition instrument_facing (c : command) : bool := negb (connection_management c).

(** The exceptions of [E], and every exception deriving from [Exception]:
    what the body of a [try] may raise when the handlers let [E] escape. *)
Definition allow_exc (E : exn -> Prop) : exn -> Prop :=
  fun x => E x \/ exists e, x = Exception e.

(** [keeps R E m]: from any world [w], [m] ends in a world [w'] with
    [R w w'], and an exception it raises is in [E]. *)
Definition keeps (R : World -> World -> Prop) {A} (E : exn -> Prop) (m : M A) : Prop :=
  forall w, R w (snd (m w)) /\ (forall x, fst (m w) = Raise x -> E x).

(** Only [sys.exit(0)] escapes a command. *)
Definition exit_zero (x : exn) : Prop := x = SystemExit 0.

(** The two connection attributes are set together or not at all. *)
Definition consistent (w : World) : Prop :=
  instrument (self w) = None <-> selected_device_id (self w) = None.

(** The console object after a computation is the one before it. *)
Definition same_self (w w' : World) : Prop := self w' = self w.

(** The position in the trace of the [open_resource] call of a selection:
    a previous connection is closed first. *)
Definition open_time (w : World) : nat :=
  length (trace w) + match instrument (self w) with Some _ => 1 | None => 0 end.

(** The resource name a selection opens. *)
Definition clean (device_id : string) : string := strip_dq (strip device_id).

(** The message of a failed selection: the text of the error after a
    prefix that depends on its class. *)
Definition failure_message (device_id : string) (e : error) : string :=
  match e with
  | VisaIOError _ =>
      "Error connecting to device '" +++ clean device_id +++ "': " +++ str_error e
  | _ => unexpected (str_error e)
  end.

(** The relation that holds of any two worlds. *)
Definition always (w w' : World) : Prop := True.

(** The commands whose argument must split on commas into a fixed number of
    parts, with that number. *)
Definition required_parts (c : command) : option nat :=
  match c with
  | cmd_oscope_set_vertscale | cmd_oscope_measure_param
  | cmd_oscope_set_trigger_level | cmd_oscope_set_trigger_slope
  | cmd_sa_set_rbw_vbw | cmd_vna_measure_sparam => Some 2
  | cmd_afg_set_wave | cmd_vna_set_sweep | cmd_vna_set_trace
  | cmd_eload_set_transient => Some 3
  | _ => None
  end.

(** The format error each of them reports. *)
Definition format_error (c : command) : string :=
  match c with
  | cmd_oscope_set_vertscale =>
      "Invalid format. Use: <channel>,<volts_per_div> (e.g., 1,0.5)"
  | cmd_oscope_measure_param =>
      "Invalid format. Use: <channel>,<parameter> (e.g., 1,FREQ)"
  | cmd_oscope_set_trigger_level =>
      "Invalid format. Use: <channel>,<voltage> (e.g., 1,0.5)"
  | cmd_oscope_set_trigger_slope =>
      "Invalid format. Use: <channel>,<POS|NEG|EITH> (e.g., 1,POS)"
  | cmd_afg_set_wave =>
      "Invalid format. Use: afg_set_wave " +++ dq +++ "WAVE,FREQ,AMPL" +++ dq
        +++ " (e.g., SIN,1000,1.0)"
  | cmd_sa_set_rbw_vbw => "Invalid format. Use: <rbw>,<vbw> (e.g., 10kHz,3kHz)"
  | cmd_vna_set_sweep =>
      "Invalid format. Use: <start_freq>,<stop_freq>,<points> (e.g., 1GHz,2GHz,201)"
  | cmd_vna_measure_sparam => "Invalid format. Use: <sparam>,<format> (e.g., S21,MLOG)"
  | cmd_vna_set_trace =>
      "Invalid format. Use: <trace_num>,<sparam>,<window_num> (e.g., 2,S21,1)"
  | cmd_eload_set_transient =>
      "Invalid format. Use: <level_A>,<level_B>,<pulse_width> (e.g., 0.5A,2.0A,10ms)"
  | _ => EmptyString
  end.

(** The extension a capture command derives from its argument. *)
Definition extension_of (filename_format : string) : string :=
  file_extension (strip filename_format).

Definition supported_image (extension : string) : bool :=
  str_in extension ["PNG"; "JPEG"; "JPG"].

Definition screen_capture_command (c : command) : bool :=
  match c with
  | cmd_oscope_screen_capture | cmd_rf_screen_capture => true
  | _ => false
  end.

Definition data_format (extension : string) : bool := str_in extension ["CSV"; "TXT"].

Definition processing_error (m : string) : string :=
  "An unexpected error occurred during data processing: " +++ m.

Definition is_digit (c : ascii) : bool := (48 <=? code c) && (code c <=? 57).

Fixpoint all_digits (s : string) : bool :=
  match s with
  | EmptyString => true
  | String c r => is_digit c && all_digits r
  end.

(** Scientific notation with [prec] digits after the decimal point: an
    optional minus sign, one digit, the point, [prec] digits, the letter
    [e], a sign, and at least two exponent digits. *)
Definition scientific (prec : nat) (s : string) : Prop :=
  exists sign d frac esign edigits,
    s = sign +++ String d ("." +++ frac) +++ "e" +++ esign +++ edigits /\
    (sign = EmptyString \/ sign = "-") /\
    is_digit d = true /\
    String.length frac = prec /\ all_digits frac = true /\
    (esign = "+" \/ esign = "-") /\
    2 <= String.length edigits /\ all_digits edigits = true.


(** [s.isascii()]: every character is below 128. *)
Fixpoint ascii_text (s : string) : bool :=
  match s with
  | EmptyString => true
  | String c r => (code c <? 128) && ascii_text r
  end.

(** [ext] is the extension of the file name [filename] in the words of the
    specification: the text after its last dot; and, as the commands have
    it, the whole name when it has no dot. *)
Definition names_extension (filename ext : string) : Prop :=
  contains_char dot ext = false /\
  (filename = ext \/ exists stem, filename = stem +++ String dot ext).

(** The value of a decimal digit and of a string of decimal digits. *)
Definition digit_value (c : ascii) : option Z :=
  if is_digit c then Some (Z.of_nat (code c) - 48)%Z else None.

Fixpoint decimal_from (acc : Z) (s : string) : option Z :=
  match s with
  | EmptyString => Some acc
  | String c r =>
      match digit_value c with
      | Some d => decimal_from (10 * acc + d)%Z r
      | None => None
      end
  end.

Definition decimal_value (s : string) : option Z :=
  match s with
  | EmptyString => None
  | String _ _ => decimal_from 0 s
  end.

(** [q * 10^(k-6)] is a decimal nearest to [m * 2^e], and [q] is even when
    two such decimals are equally near.  Both numbers are multiplied by
    [10^max(6-k,0) * 2^max(-e,0)] to compare them as integers; half a unit
    of the last digit then is half of [scale]. *)
Definition nearest_decimal (q k : Z) (m : positive) (e : Z) : Prop :=
  let scale := (10 ^ Z.max (k - 6) 0 * 2 ^ Z.max (- e) 0)%Z in
  let approx := (q * scale)%Z in
  let exact := (Z.pos m * 2 ^ Z.max e 0 * 10 ^ Z.max (6 - k) 0)%Z in
  (2 * Z.abs (approx - exact) <= scale)%Z /\
  ((2 * Z.abs (approx - exact))%Z = scale -> Z.even q = true).

Definition minus_if (negative : bool) : string :=
  if negative then "-" else EmptyString.

(** [s] is the float [x] in scientific notation with seven significant
    digits: a minus sign if [x] is negative, one digit that is not zero, the
    point, six digits, the letter [e], the sign of the decimal exponent and
    its two or three digits; the seven digits are those of the decimal
    nearest to [x].  Zero is written with seven zeros, and a value that is
    not finite as [nan], [inf] or [-inf]. *)
Definition written_6e (x : float) (s : string) : Prop :=
  match Prim2SF x with
  | S754_nan => s = "nan"
  | S754_infinity negative => s = minus_if negative +++ "inf"
  | S754_zero negative => s = minus_if negative +++ "0.000000e+00"
  | S754_finite negative m e =>
      exists d frac edigits q k,
        s = minus_if negative +++ String d ("." +++ frac) +++ "e"
              +++ (if (k <? 0)%Z then "-" else "+") +++ edigits /\
        String.length frac = 6 /\
        decimal_value (String d frac) = Some q /\
        (10 ^ 6 <= q < 10 ^ 7)%Z /\
        nearest_decimal q k m e /\
        decimal_value edigits = Some (Z.abs k) /\
        String.length edigits = (if (Z.abs k <? 100)%Z then 2 else 3)
  end.




(** [10^k <= n / dn < 10^(k+1)], cleared of denominators. *)
Definition bracket (n dn k : Z) : Prop :=
  (dn * 10 ^ Z.max k 0 <= n * 10 ^ Z.max (- k) 0 /\
   n * 10 ^ Z.max (- k - 1) 0 < dn * 10 ^ Z.max (k + 1) 0)%Z.

(** [q * 10^(k-6)] is nearest to [n / dn], with [q] even on a tie. *)
Definition near (n dn q k : Z) : Prop :=
  let scale := (10 ^ Z.max (k - 6) 0 * dn)%Z in
  (2 * Z.abs (q * scale - n * 10 ^ Z.max (6 - k) 0) <= scale)%Z /\
  ((2 * Z.abs (q * scale - n * 10 ^ Z.max (6 - k) 0))%Z = scale -> Z.even q = true).

(** The digits of the exponent [a >= 0] as [Fmt.exp_part] writes them, and
    the check that they read back as [a] and are two below 100 and three
    from 100 on. *)
Definition exponent_digits (a : Z) : string :=
  if (a <? 10)%Z then "0" +++ str_Z a else str_Z a.

Definition exponent_ok (a : nat) : bool :=
  let s := exponent_digits (Z.of_nat a) in
  match decimal_value s with
  | Some v => (v =? Z.of_nat a)%Z
              && Nat.eqb (String.length s) (if a <? 100 then 2 else 3)
  | None => false
  end.

End Props.

(** ** Further vocabulary *)

Module MoreProps.
Import Py Props.

(** The commands that leave the process. *)
Definition leaves (c : command) : bool :=
  match c with cmd_exit | cmd_EOF => true | _ => false end.

(** The commands that write a file. *)
Definition captures (c : command) : bool :=
  match c with
  | cmd_oscope_screen_capture | cmd_rf_screen_capture | cmd_oscope_capture_data => true
  | _ => false
  end.

(** No exception at all. *)
Definition never (x : exn) : Prop := False.

(** The files and the saved history are those before. *)
Definition same_files (w w' : World) : Prop :=
  files w' = files w /\ history_saves w' = history_saves w.

(** The instrument commands that print their usage when the argument is
    missing. *)
Definition needs_argument (c : command) : bool :=
  match c with
  | cmd_write | cmd_query | cmd_dmm_func_set | cmd_dmm_range_set
  | cmd_dmm_autoranging | cmd_dmm_delay_set | cmd_dmm_resolution_set
  | cmd_oscope_set_timebase | cmd_oscope_set_vertscale | cmd_oscope_measure_param
  | cmd_oscope_set_trigger_source | cmd_oscope_set_trigger_level
  | cmd_oscope_set_trigger_slope | cmd_oscope_screen_capture
  | cmd_oscope_capture_data | cmd_afg_set_wave | cmd_afg_psu_slew_set
  | cmd_psu_set_voltage | cmd_psu_set_current | cmd_psu_set_ovp | cmd_psu_set_ocp
  | cmd_psu_set_otp | cmd_psu_measure_output | cmd_rf_set_center_freq
  | cmd_rf_set_span | cmd_rf_set_power | cmd_sa_set_rbw_vbw | cmd_sa_read_marker
  | cmd_vna_set_sweep | cmd_vna_measure_sparam | cmd_vna_set_trace
  | cmd_rf_screen_capture | cmd_eload_set_mode | cmd_eload_set_current
  | cmd_eload_set_voltage | cmd_eload_set_resistance | cmd_eload_set_power
  | cmd_eload_measure_input | cmd_eload_set_slew | cmd_eload_set_transient
  | cmd_eload_set_ovl | cmd_eload_set_opl => true
  | _ => false
  end.

(** A call made on the instrument [h]: a write, a query or a binary query,
    and nothing on the resource manager or on the connection itself. *)
Definition on_handle (h : handle) (c : call) : Prop :=
  match c with
  | Write i _ | Query i _ | QueryBinaryValues i _ => i = h
  | _ => False
  end.

(** [sends P m]: the transport calls [m] makes are appended to the trace,
    and each of them satisfies [P]. *)
Definition sends (P : call -> Prop) {A} (m : M A) : Prop :=
  forall w, exists l, trace (snd (m w)) = trace w ++ l /\ Forall P l.

(** The lines devicelist prints for the resources it found. *)
Definition resource_lines (devices : list string) : list string :=
  match devices with
  | [] => ["No VISA resources detected."]
  | _ :: _ => "Available VISA Resources:" :: map (fun d => "  " +++ d) devices
  end.

(** A session in which no device is ever selected. *)
Fixpoint never_selects (events : list event) : bool :=
  match events with
  | [] => true
  | Dispatch cmd_deviceselect _ :: _ => false
  | _ :: rest => never_selects rest
  end.

Definition is_list_resources (c : call) : Prop := c = ListResources.

(** The console object is kept, and the trace and the output only grow. *)
Definition grows (w w' : World) : Prop :=
  self w' = self w /\
  (exists l, trace w' = trace w ++ l) /\
  (exists o, stdout w' = stdout w ++ o).



(** The messages a command with a checked keyword can send. *)
Definition allowed_messages (c : command) : list string :=
  match c with
  | cmd_dmm_autoranging =>
      map (String.append ":SENSe:RANGe:AUTO ") ["ON"; "OFF"; "1"; "0"]
  | cmd_oscope_set_trigger_slope =>
      map (String.append ":TRIGger:EDGE:SLOpe ") ["POS"; "NEG"; "EITH"]
  | cmd_eload_set_mode =>
      map (String.append ":FUNCtion:MODE ") ["CURR"; "VOLT"; "RES"; "POW"]
  | cmd_psu_measure_output | cmd_eload_measure_input =>
      [":MEASure:VOLT?"; ":MEASure:CURR?"]
  | _ => []
  end.

Definition checked_keyword (c : command) : bool :=
  match c with
  | cmd_dmm_autoranging | cmd_oscope_set_trigger_slope | cmd_eload_set_mode
  | cmd_psu_measure_output | cmd_eload_measure_input => true
  | _ => false
  end.

(** A write or a query of one of the messages [allowed], on [h]. *)
Definition one_of (h : handle) (allowed : list string) (c : call) : Prop :=
  exists m, In m allowed /\ (c = Write h m \/ c = Query h m).

(** The line feed and the tab, as characters. *)
Definition lf_char : ascii := ascii_of_nat 10.
Definition tab_char : ascii := ascii_of_nat 9.

(** The commands that take a channel before the value but configure the
    instrument globally. *)
Definition takes_channel (c : command) : bool :=
  match c with
  | cmd_oscope_set_trigger_level | cmd_oscope_set_trigger_slope
  | cmd_afg_psu_slew_set => true
  | _ => false
  end.

(** The commands that make one transport call and no more. *)
Definition single_call (c : command) : bool :=
  match c with
  | cmd_id | cmd_write | cmd_query | cmd_reset | cmd_wait_opc | cmd_get_error
  | cmd_dmm_func_set | cmd_dmm_range_set | cmd_dmm_delay_set | cmd_dmm_resolution_set
  | cmd_dmm_measure_dc_v | cmd_dmm_measure_ac_v | cmd_dmm_measure_dc_i
  | cmd_dmm_measure_ac_i | cmd_dmm_measure_continuity | cmd_dmm_measure_diode
  | cmd_dmm_measure2_resistance | cmd_dmm_measure4_resistance
  | cmd_oscope_set_timebase | cmd_oscope_set_trigger_source | cmd_oscope_get_setup
  | cmd_oscope_run | cmd_afg_output_on | cmd_afg_output_off
  | cmd_psu_set_voltage | cmd_psu_set_current | cmd_psu_output_on | cmd_psu_output_off
  | cmd_psu_set_ovp | cmd_psu_set_ocp | cmd_psu_set_otp | cmd_psu_protection_clear
  | cmd_rf_set_center_freq | cmd_rf_set_span | cmd_rf_set_power | cmd_vna_query_data
  | cmd_eload_set_current | cmd_eload_set_voltage | cmd_eload_set_resistance
  | cmd_eload_set_power | cmd_eload_input_on | cmd_eload_input_off
  | cmd_eload_set_slew | cmd_eload_set_ovl | cmd_eload_set_opl | cmd_ping_device => true
  | _ => false
  end.

End MoreProps.

(** * Properties *)

(** ** Waveform decoding *)

Module WaveformFacts.
Import Waveform.

Lemma process_from_length X Y R i raw :
  length (process_from X Y R i raw) = length raw.
Proof.
  revert i; induction raw as [|r raw IH]; intros i; simpl; [reflexivity|].
  now rewrite IH.
Qed.

Lemma process_from_nth X Y R raw : forall i k r,
  nth_error raw k = Some r ->
  nth_error (process_from X Y R i raw) k
  = Some ((float_of_index (i + k) * X)%float, (Y * (r - R))%float).
Proof.
  induction raw as [|r0 raw IH]; intros i k r Hk.
  - destruct k; discriminate.
  - destruct k as [|k]; simpl in *.
    + injection Hk as ->. now rewrite Nat.add_0_r.
    + rewrite (IH (S i) k r Hk). now rewrite Nat.add_succ_r.
Qed.

End WaveformFacts.

(** ** Commands without a connection *)

Module Guard.
Import Py Props.

Lemma with_instrument_none msg k w :
  instrument (self w) = None ->
  with_instrument msg k w = (Ret tt, log_print msg w).
Proof.
  intros H. unfold with_instrument, bind, get_self. now rewrite H.
Qed.

Lemma with_instrument_some msg k w inst :
  instrument (self w) = Some inst ->
  with_instrument msg k w = k inst w.
Proof.
  intros H. unfold with_instrument, bind, get_self. now rewrite H.
Qed.

(** Every instrument command is the guard followed by the rest. *)
Lemma run_guarded env c arg :
  instrument_facing c = true ->
  exists msg k,
    run env c arg = with_instrument msg k /\
    (msg = no_device \/ msg = no_device_hint).
Proof.
  intros H.
  destruct c; try discriminate H;
    eexists; eexists;
    (split; [reflexivity | (left; reflexivity) || (right; reflexivity)]).
Qed.

(** C3.  An instrument command (every command but devicelist, deviceselect,
    deviceinfo, exit and EOF: write, query, id and all the DMM, oscilloscope,
    AFG, PSU, SA, VNA, electronic-load, capture and diagnostic commands) run
    with any argument while no instrument is selected returns normally,
    prints one message that starts with [No device selected.] and nothing
    else, and makes no transport call, writes no file and leaves the console
    as it was. *)
Theorem no_device_guard env c arg w :
  instrument_facing c = true ->
  instrument (self w) = None ->
  exists msg,
    run env c arg w = (Ret tt, log_print msg w) /\
    prefix "No device selected." msg = true /\
    trace (log_print msg w) = trace w /\
    files (log_print msg w) = files w /\
    self (log_print msg w) = self w.
Proof.
  intros Hc Hw.
  destruct (run_guarded env c arg Hc) as (msg & k & Hrun & Hmsg).
  exists msg. rewrite Hrun. split; [now apply with_instrument_none|].
  split; [destruct Hmsg as [-> | ->]; reflexivity|].
  repeat split.
Qed.

(** The theorem on [write *RST] in a fresh console. *)
Lemma no_device_guard_witness :
  exists msg,
    run Demo.bench cmd_write "*RST" (initial_world true)
    = (Ret tt, log_print msg (initial_world true)) /\
    prefix "No device selected." msg = true.
Proof.
  destruct (no_device_guard Demo.bench cmd_write "*RST" (initial_world true))
    as (msg & H1 & H2 & _); [reflexivity | reflexivity |].
  exists msg. split; [exact H1 | exact H2].
Defined.

End Guard.

(** ** A program logic for commands *)

Create HintDb commands.
#[global] Hint Unfold run
  do_devicelist do_deviceselect do_deviceinfo do_id do_write do_query do_reset
  do_wait_opc do_get_error do_dmm_func_set do_dmm_range_set do_dmm_autoranging
  do_dmm_delay_set do_dmm_resolution_set do_dmm_measure_dc_v
  do_dmm_measure_ac_v do_dmm_measure_dc_i do_dmm_measure_ac_i
  do_dmm_measure_continuity do_dmm_measure_diode do_dmm_measure2_resistance
  do_dmm_measure4_resistance do_oscope_set_timebase do_oscope_set_vertscale
  do_oscope_measure_param do_oscope_set_trigger_source
  do_oscope_set_trigger_level do_oscope_set_trigger_slope do_oscope_get_setup
  do_oscope_run do_oscope_screen_capture do_oscope_capture_data
  do_afg_set_wave do_afg_output_on do_afg_output_off do_afg_psu_slew_set
  do_psu_set_voltage do_psu_set_current do_psu_output_on do_psu_output_off
  do_psu_set_ovp do_psu_set_ocp do_psu_set_otp do_psu_measure_output
  do_psu_protection_clear do_rf_set_center_freq do_rf_set_span do_rf_set_power
  do_sa_set_rbw_vbw do_sa_read_marker do_vna_set_sweep do_vna_measure_sparam
  do_vna_set_trace do_vna_query_data do_rf_screen_capture do_eload_set_mode
  do_eload_set_current do_eload_set_voltage do_eload_set_resistance
  do_eload_set_power do_eload_input_on do_eload_input_off
  do_eload_measure_input do_eload_set_slew do_eload_set_transient
  do_eload_set_ovl do_eload_set_opl do_ping_device do_check_capabilities
  do_exit do_EOF screen_capture postloop : commands.

Module Logic.
Import Props.

Section Rules.

(** [R] relates the world before a computation to the world after it. *)
Variable R : World -> World -> Prop.
Hypothesis R_refl : forall w, R w w.
Hypothesis R_trans : forall a b c, R a b -> R b c -> R a c.
Hypothesis R_print : forall s w, R w (log_print s w).
Hypothesis R_call : forall c w, R w (log_call c w).
Hypothesis R_file : forall n c w, R w (log_file n c w).
Hypothesis R_history : forall w, R w (log_history w).

Lemma keeps_ret {A} E (a : A) : keeps R E (ret a).
Proof. intros w; split; [apply R_refl | discriminate]. Qed.

Lemma keeps_raise {A} (E : exn -> Prop) x : E x -> keeps R E (@raise A x).
Proof. intros H w; split; [apply R_refl | now intros ? [= <-]]. Qed.

Lemma keeps_bind {A B} E (m : M A) (k : A -> M B) :
  keeps R E m -> (forall a, keeps R E (k a)) -> keeps R E (bind m k).
Proof.
  intros Hm Hk w. unfold bind. destruct (Hm w) as [HR HE]. revert HR HE.
  destruct (m w) as [[a|x] w']; simpl; intros HR HE.
  - destruct (Hk a w') as [HR' HE']. split; [eauto | exact HE'].
  - split; [exact HR | intros y [= <-]; now apply HE].
Qed.

Lemma keeps_try_except {A} E (body : M A) handler :
  keeps R (allow_exc E) body -> (forall e, keeps R E (handler e)) ->
  keeps R E (try_except body handler).
Proof.
  intros Hb Hh w. unfold try_except. destruct (Hb w) as [HR HE]. revert HR HE.
  destruct (body w) as [[a|[e|code|]] w']; simpl; intros HR HE.
  - split; [exact HR | discriminate].
  - destruct (Hh e w') as [HR' HE']. split; [eauto | exact HE'].
  - split; [exact HR|]. intros x Hx. injection Hx as <-.
    destruct (HE _ eq_refl) as [H | [e H]]; [exact H | discriminate].
  - split; [exact HR|]. intros x Hx. injection Hx as <-.
    destruct (HE _ eq_refl) as [H | [e H]]; [exact H | discriminate].
Qed.

Lemma keeps_try_pass E body : keeps R (allow_exc E) body -> keeps R E (try_pass body).
Proof. intros H. apply keeps_try_except; [exact H | intros; apply keeps_ret]. Qed.

Lemma keeps_print E s : keeps R E (print s).
Proof. intros w; split; [apply R_print | discriminate]. Qed.

Lemma keeps_get_self E : keeps R E get_self.
Proof. intros w; split; [apply R_refl | discriminate]. Qed.

Lemma of_option_error_exc E o x :
  of_option_error o = Raise x -> allow_exc E x.
Proof. destruct o; simpl; [intros [= <-]; right; eauto | discriminate]. Qed.

Lemma of_sum_error_exc {A} E (o : error + A) x :
  of_sum_error o = Raise x -> allow_exc E x.
Proof. destruct o; simpl; [intros [= <-]; right; eauto | discriminate]. Qed.

Variable env : Env.

Lemma keeps_list_resources E : keeps R (allow_exc E) (rm_list_resources env).
Proof. intros w; split; [apply R_call | apply of_sum_error_exc]. Qed.

Lemma keeps_open_resource E name : keeps R (allow_exc E) (rm_open_resource env name).
Proof.
  intros w; split; [apply R_call|]. unfold rm_open_resource; simpl.
  destruct (env_open_resource env _ name); [intros x [= <-]; right; eauto | discriminate].
Qed.

Lemma keeps_close E inst : keeps R (allow_exc E) (inst_close env inst).
Proof. intros w; split; [apply R_call | apply of_option_error_exc]. Qed.

Lemma keeps_get_timeout E inst : keeps R (allow_exc E) (inst_get_timeout env inst).
Proof. intros w; split; [apply R_call | apply of_sum_error_exc]. Qed.

Lemma keeps_set_timeout E inst ms : keeps R (allow_exc E) (inst_set_timeout env inst ms).
Proof. intros w; split; [apply R_call | apply of_option_error_exc]. Qed.

Lemma keeps_write E inst msg : keeps R (allow_exc E) (inst_write env inst msg).
Proof. intros w; split; [apply R_call | apply of_option_error_exc]. Qed.

Lemma keeps_query E inst msg : keeps R (allow_exc E) (inst_query env inst msg).
Proof. intros w; split; [apply R_call | apply of_sum_error_exc]. Qed.

Lemma keeps_query_binary_values E inst msg :
  keeps R (allow_exc E) (inst_query_binary_values env inst msg).
Proof. intros w; split; [apply R_call | apply of_sum_error_exc]. Qed.

Lemma keeps_write_file E name content : keeps R (allow_exc E) (write_file env name content).
Proof.
  intros w. unfold write_file. destruct (env_open_file env name); simpl.
  - split; [apply R_refl | intros x [= <-]; right; eauto].
  - split; [apply R_file | discriminate].
Qed.

Lemma keeps_write_history_file E : keeps R (allow_exc E) (write_history_file env).
Proof.
  intros w. unfold write_history_file. destruct (env_write_history_file env); simpl.
  - split; [apply R_refl | intros x [= <-]; right; eauto].
  - split; [apply R_history | discriminate].
Qed.

Lemma keeps_raise_exception {A} E e : keeps R (allow_exc E) (@raise A (Exception e)).
Proof. apply keeps_raise. right; eauto. Qed.

Lemma keeps_with_instrument E msg k :
  (forall inst, keeps R E (k inst)) -> keeps R E (with_instrument msg k).
Proof.
  intros H. unfold with_instrument. apply keeps_bind; [apply keeps_get_self|].
  intros s. destruct (instrument s); [apply H | apply keeps_print].
Qed.

Lemma keeps_require_arg E arg usage k : keeps R E k -> keeps R E (require_arg arg usage k).
Proof. intros H. unfold require_arg. destruct (Py.truthy arg); [exact H | apply keeps_print]. Qed.

Lemma keeps_except_visa E visa other e : keeps R E (except_visa visa other e).
Proof. destruct e; apply keeps_print. Qed.

Lemma keeps_except_value_visa E fmt visa other e :
  keeps R E (except_value_visa fmt visa other e).
Proof. destruct e; apply keeps_print. Qed.

Lemma keeps_except_any E msg e : keeps R E (except_any msg e).
Proof. apply keeps_print. Qed.

Lemma keeps_unpack2 E parts : keeps R (allow_exc E) (unpack2 parts).
Proof.
  destruct parts as [|a [|b [|c l]]]; simpl;
    first [apply keeps_ret | apply keeps_raise_exception].
Qed.

Lemma keeps_unpack3 E parts : keeps R (allow_exc E) (unpack3 parts).
Proof.
  destruct parts as [|a [|b [|c [|d l]]]]; simpl;
    first [apply keeps_ret | apply keeps_raise_exception].
Qed.

Lemma keeps_print_indented E xs : keeps R E (print_indented xs).
Proof.
  induction xs as [|x xs IH]; simpl; [apply keeps_ret|].
  apply keeps_bind; [apply keeps_print | intros _; exact IH].
Qed.

Lemma keeps_parse_floats E s : keeps R (allow_exc E) (parse_floats env s).
Proof.
  unfold parse_floats. destruct (float_list env _);
    [apply keeps_raise_exception | apply keeps_ret].
Qed.

Lemma keeps_item E l k : keeps R (allow_exc E) (item l k).
Proof.
  unfold item. destruct (Waveform.index l k);
    [apply keeps_ret | apply keeps_raise_exception].
Qed.

Lemma keeps_probe E inst cmds : forall supported,
  keeps R E (probe env inst cmds supported).
Proof.
  induction cmds as [|c cmds IH]; intros supported; simpl; [apply keeps_ret|].
  apply keeps_bind; [|intros a; apply IH].
  apply keeps_try_except; [|intros _; apply keeps_ret].
  apply keeps_bind; [apply keeps_query | intros _; apply keeps_ret].
Qed.

End Rules.

(** One step of a proof by the rules: the rule of the head construct. *)
Ltac keeps_step :=
  match goal with
  | |- keeps _ _ (bind _ _) => apply keeps_bind; [assumption ..| | intros ?]
  | |- keeps _ _ (try_pass _) => apply keeps_try_pass; [assumption ..|]
  | |- keeps _ _ (try_except _ _) => apply keeps_try_except; [assumption ..| | intros ?]
  | |- keeps _ _ (with_instrument _ _) => apply keeps_with_instrument; [assumption ..| intros ?]
  | |- keeps _ _ (require_arg _ _ _) => apply keeps_require_arg; [assumption ..|]
  | |- keeps _ _ (ret _) => apply keeps_ret; assumption
  | |- keeps _ _ (print _) => apply keeps_print; assumption
  | |- keeps _ _ get_self => apply keeps_get_self; assumption
  | |- keeps _ _ (print_indented _) => apply keeps_print_indented; assumption
  | |- keeps _ _ (except_visa _ _ _) => apply keeps_except_visa; assumption
  | |- keeps _ _ (except_value_visa _ _ _ _) => apply keeps_except_value_visa; assumption
  | |- keeps _ _ (except_any _ _) => apply keeps_except_any; assumption
  | |- keeps _ _ (probe _ _ _ _) => apply keeps_probe; assumption
  | |- keeps _ (allow_exc _) (rm_list_resources _) => apply keeps_list_resources; assumption
  | |- keeps _ (allow_exc _) (rm_open_resource _ _) => apply keeps_open_resource; assumption
  | |- keeps _ (allow_exc _) (inst_close _ _) => apply keeps_close; assumption
  | |- keeps _ (allow_exc _) (inst_get_timeout _ _) => apply keeps_get_timeout; assumption
  | |- keeps _ (allow_exc _) (inst_set_timeout _ _ _) => apply keeps_set_timeout; assumption
  | |- keeps _ (allow_exc _) (inst_write _ _ _) => apply keeps_write; assumption
  | |- keeps _ (allow_exc _) (inst_query _ _ _) => apply keeps_query; assumption
  | |- keeps _ (allow_exc _) (inst_query_binary_values _ _ _) =>
      apply keeps_query_binary_values; assumption
  | |- keeps _ (allow_exc _) (write_file _ _ _) => apply keeps_write_file; assumption
  | |- keeps _ (allow_exc _) (write_history_file _) =>
      apply keeps_write_history_file; assumption
  | |- keeps _ (allow_exc _) (unpack2 _) => apply keeps_unpack2; assumption
  | |- keeps _ (allow_exc _) (unpack3 _) => apply keeps_unpack3; assumption
  | |- keeps _ (allow_exc _) (parse_floats _ _) => apply keeps_parse_floats; assumption
  | |- keeps _ (allow_exc _) (item _ _) => apply keeps_item; assumption
  | |- keeps _ (allow_exc _) (raise (Exception _)) => apply keeps_raise_exception; assumption
  | |- keeps _ _ (sys_exit _) => apply keeps_raise; [assumption ..| reflexivity]
  | |- keeps _ _ (if ?b then _ else _) => destruct b
  | |- keeps _ _ (match ?x with _ => _ end) => destruct x
  end.

Ltac keeps_tac := cbv zeta; repeat keeps_step.

Section Programs.

Variable R : World -> World -> Prop.
Hypothesis R_refl : forall w, R w w.
Hypothesis R_trans : forall a b c, R a b -> R b c -> R a c.
Hypothesis R_print : forall s w, R w (log_print s w).
Hypothesis R_call : forall c w, R w (log_call c w).
Hypothesis R_file : forall n c w, R w (log_file n c w).
Hypothesis R_history : forall w, R w (log_history w).
Variable env : Env.

(** Every command but deviceselect is built from printing, transport calls
    and file writes alone, and catches what these raise. *)
Lemma keeps_run c arg :
  c <> cmd_deviceselect -> keeps R exit_zero (run env c arg).
Proof.
  intros Hc. destruct c; try congruence; clear Hc;
    autounfold with commands; keeps_tac.
Qed.

Lemma keeps_postloop : keeps R exit_zero (postloop env).
Proof. autounfold with commands. keeps_tac. Qed.

(** deviceselect also assigns the two connection attributes. *)
Hypothesis R_self : forall c w, R w (with_self c w).

Lemma keeps_set_instrument E i : keeps R E (set_instrument i).
Proof. intros w; split; [apply R_self | discriminate]. Qed.

Lemma keeps_set_selected_device_id E d : keeps R E (set_selected_device_id d).
Proof. intros w; split; [apply R_self | discriminate]. Qed.

Lemma keeps_deviceselect device_id : keeps R exit_zero (do_deviceselect env device_id).
Proof.
  unfold do_deviceselect, do_id. cbv zeta.
  repeat first
    [ apply keeps_set_instrument
    | apply keeps_set_selected_device_id
    | keeps_step ].
Qed.

End Programs.

End Logic.

(** ** The connection state *)

Module Connection.
Import Py Props Logic.

(** Case analysis on whatever a [match] of the goal inspects. *)
Ltac break_match :=
  match goal with
  | |- context [match ?x with _ => _ end] =>
      lazymatch x with
      | context [match _ with _ => _ end] => fail
      | _ => destruct x eqn:?
      end
  end.

Ltac unfold_monad :=
  unfold with_instrument, require_arg, try_pass, try_except, bind, get_self,
    set_instrument, set_selected_device_id, print, ret, sys_exit, raise,
    rm_open_resource, rm_list_resources, inst_close, inst_get_timeout,
    inst_set_timeout, inst_write, inst_query, inst_query_binary_values,
    write_file, write_history_file, except_visa, except_value_visa, except_any,
    of_option_error, of_sum_error.

Lemma same_self_run env c arg w :
  c <> cmd_deviceselect -> same_self w (snd (run env c arg w)).
Proof.
  intros Hc.
  refine (proj1 (keeps_run same_self _ _ _ _ _ _ env c arg Hc w));
    unfold same_self; simpl; congruence.
Qed.

(** C8.  A command other than the connection-management commands
    (devicelist, deviceselect, deviceinfo, exit, EOF), run with any argument
    in any world and whatever the transport answers (success, a VISA error
    or any other error), leaves the instrument handle and the selected
    device id of the console unchanged. *)
Theorem connection_unchanged env c arg w :
  connection_management c = false ->
  connection (snd (run env c arg w)) = connection w.
Proof.
  intros Hc. unfold connection.
  rewrite (same_self_run env c arg w); [reflexivity|].
  intros ->. discriminate Hc.
Qed.

Lemma deviceselect_consistent env device_id w :
  consistent w -> consistent (snd (do_deviceselect env device_id w)).
Proof.
  intros Hw. unfold consistent in *.
  unfold do_deviceselect, do_id. unfold_monad.
  repeat (break_match; simpl in *; try congruence; try tauto; try (split; congruence)).
Qed.

Lemma select_or_not (c : command) : c = cmd_deviceselect \/ c <> cmd_deviceselect.
Proof. destruct c; ((left; reflexivity) || (right; discriminate)). Qed.

(** C10.  Every command preserves the consistency of the connection
    state: if the instrument handle is [None] exactly when the selected
    device id is [None] before a command, the same holds after it, for
    every command (a failed deviceselect included), argument and transport
    behaviour. *)
Theorem consistent_preserved env c arg w :
  consistent w -> consistent (snd (run env c arg w)).
Proof.
  intros Hw.
  destruct (select_or_not c) as [-> | Hc].
  - apply deviceselect_consistent, Hw.
  - unfold consistent. rewrite (same_self_run env c arg w Hc). exact Hw.
Qed.

(** The console starts consistent, and stays so along any session. *)
Lemma initial_consistent rm_ok : consistent (initial_world rm_ok).
Proof. unfold consistent; simpl; tauto. Qed.

Lemma cmdloop_consistent env events : forall w,
  consistent w -> consistent (snd (cmdloop env events w)).
Proof.
  assert (Hrun : forall c arg w, consistent w -> consistent (snd (run env c arg w))).
  { intros c arg w Hw. destruct (select_or_not c) as [-> | Hc].
    - apply deviceselect_consistent, Hw.
    - unfold consistent. rewrite (same_self_run env c arg w Hc). exact Hw. }
  induction events as [|[c arg| |] events IH]; intros w Hw; simpl.
  - apply (Hrun cmd_EOF EmptyString w Hw).
  - unfold bind. pose proof (Hrun c arg w Hw) as H.
    destruct (run env c arg w) as [[[]|x] w']; simpl in *; [apply IH, H | exact H].
  - apply IH, Hw.
  - exact Hw.
Qed.

(** What deviceselect does when the open attempt fails. *)
Lemma deviceselect_failure env device_id w e :
  rm (self w) = true ->
  device_id <> EmptyString ->
  env_open_resource env (open_time w) (clean device_id) = Some e ->
  exists w',
    do_deviceselect env device_id w = (Ret tt, w') /\
    instrument (self w') = None /\
    (selected_device_id (self w') = None \/
     (instrument (self w) = None /\ self w' = self w)) /\
    stdout w' = stdout w ++ [failure_message device_id e] /\
    files w' = files w /\
    trace w' = trace w
                 ++ match instrument (self w) with
                    | Some old => [Close old]
                    | None => []
                    end
                 ++ [OpenResource (clean device_id)].
Proof.
  intros Hrm Hd Hopen. unfold open_time in Hopen. unfold clean in *.
  unfold do_deviceselect, do_id. unfold_monad.
  destruct device_id as [|ch rest]; [congruence|]. cbn [truthy negb].
  rewrite Hrm. cbn [negb].
  destruct (instrument (self w)) as [old|] eqn:Hinst.
  - rewrite Nat.add_1_r in Hopen.
    destruct (env_close env (length (trace w)) old); simpl;
      rewrite length_app, Nat.add_1_r; simpl; rewrite Hopen;
      destruct e; simpl; eexists; (split; [reflexivity|]); simpl;
      rewrite <- ?app_assoc; (repeat split; eauto).
  - rewrite Nat.add_0_r in Hopen. simpl. rewrite Hopen.
    destruct e; simpl; eexists; (split; [reflexivity|]); simpl;
      repeat split; eauto;
      try (right; split; [reflexivity|]; destruct w as [[? ? ?] ? ? ? ?];
           simpl in *; subst; reflexivity).
Qed.

(** C2, as the code has it.  When the open attempt of a selection fails,
    deviceselect returns normally and leaves the console disconnected: the
    handle is [None], and so is the selected device id of a consistent
    console.  The connection that was open has been closed first: the calls
    made are the [close] of the old handle, when there was one, and then the
    failed [open_resource], and no other.  The connection state is the
    earlier one exactly when no connection was open.  One message is
    printed, which ends with the text of the error. *)
Theorem deviceselect_open_failure env device_id w e :
  rm (self w) = true ->
  device_id <> EmptyString ->
  env_open_resource env (open_time w) (clean device_id) = Some e ->
  consistent w ->
  exists w',
    do_deviceselect env device_id w = (Ret tt, w') /\
    connection w' = (None, None) /\
    (connection w' = connection w <-> instrument (self w) = None) /\
    trace w' = trace w
                 ++ match instrument (self w) with
                    | Some old => [Close old]
                    | None => []
                    end
                 ++ [OpenResource (clean device_id)] /\
    stdout w' = stdout w ++ [failure_message device_id e].
Proof.
  intros Hrm Hd Hopen Hw.
  destruct (deviceselect_failure env device_id w e Hrm Hd Hopen)
    as (w' & Hrun & Hi & Hs & Hout & _ & Htrace).
  exists w'. split; [exact Hrun|].
  assert (Hc : connection w' = (None, None)).
  { unfold connection. rewrite Hi. destruct Hs as [-> | [Hn Heq]]; [reflexivity|].
    rewrite Heq. now rewrite (proj1 Hw Hn). }
  split; [exact Hc|]. split; [|split; [exact Htrace | exact Hout]].
  rewrite Hc. unfold connection. split.
  - now intros [= <- _].
  - intros Hn. now rewrite Hn, (proj1 Hw Hn).
Qed.

(** C2 as stated fails: with a connection open, a selection whose open
    attempt fails does not leave the connection state as it was. *)
Lemma deviceselect_failure_drops_connection :
  ~ (forall env device_id w e,
       rm (self w) = true ->
       device_id <> EmptyString ->
       env_open_resource env (open_time w) (clean device_id) = Some e ->
       connection (snd (do_deviceselect env device_id w)) = connection w).
Proof.
  intros H.
  specialize (H Demo.unplugged "GPIB0::9::INSTR" Demo.connected
                (VisaIOError "VI_ERROR_RSRC_NFOUND") eq_refl).
  discriminate H; [discriminate | reflexivity].
Qed.

Lemma deviceselect_open_failure_witness :
  exists w',
    do_deviceselect Demo.unplugged "GPIB0::9::INSTR" Demo.connected = (Ret tt, w') /\
    connection w' = (None, None) /\
    trace w' = trace Demo.connected ++ [Close 0; OpenResource "GPIB0::9::INSTR"].
Proof.
  destruct (deviceselect_open_failure Demo.unplugged "GPIB0::9::INSTR" Demo.connected
              (VisaIOError "VI_ERROR_RSRC_NFOUND"))
    as (w' & H1 & H2 & _ & H3 & _).
  - reflexivity.
  - discriminate.
  - reflexivity.
  - unfold consistent; simpl; split; discriminate.
  - exists w'. split; [exact H1 | split; [exact H2 | exact H3]].
Defined.

Lemma connection_unchanged_witness :
  connection (snd (run Demo.unplugged cmd_query "*IDN?" Demo.connected))
  = connection Demo.connected.
Proof. apply connection_unchanged. reflexivity. Defined.

Lemma consistent_preserved_witness :
  consistent (snd (run Demo.bench cmd_deviceselect "GPIB0::2::INSTR" (initial_world true))).
Proof. apply consistent_preserved. unfold consistent; simpl; tauto. Defined.

End Connection.

(** ** Leaving the console *)

Module Exit.
Import Py Props Logic Connection.

Lemma do_exit_raises env arg w :
  exists out,
    do_exit env arg w
    = (Raise (SystemExit 0),
       mkWorld (self w)
               (trace w ++ match instrument (self w) with
                           | Some inst => [Close inst]
                           | None => []
                           end)
               (stdout w ++ out ++ ["Exiting console. Goodbye!"])
               (files w)
               (match env_write_history_file env with
                | None => S (history_saves w)
                | Some _ => history_saves w
                end)).
Proof.
  unfold do_exit. unfold_monad. destruct w as [c t o f h]; simpl.
  destruct (env_write_history_file env); simpl;
    destruct (instrument c) as [inst|]; simpl;
    try destruct (env_close env (length t) inst); simpl;
    unfold log_print, log_call, log_history; simpl;
    rewrite ?app_nil_r;
    first [ exists []; reflexivity
          | eexists [_]; rewrite <- app_assoc; reflexivity ].
Qed.

Lemma do_EOF_raises env arg w :
  exists w', do_EOF env arg w = (Raise (SystemExit 0), w').
Proof.
  unfold do_EOF, bind, print.
  destruct (do_exit_raises env arg (log_print EmptyString w)) as [out ->]. eauto.
Qed.

(** No command lets anything but [sys.exit(0)] escape. *)
Lemma run_exit_zero env c arg w x :
  fst (run env c arg w) = Raise x -> x = SystemExit 0.
Proof.
  destruct (select_or_not c) as [-> | Hc].
  - refine (proj2 (keeps_deviceselect always _ _ _ _ env _ arg w) x);
      unfold always; auto.
  - refine (proj2 (keeps_run always _ _ _ _ _ _ env c arg Hc w) x);
      unfold always; auto.
Qed.

(** The command loop ends, and only by [sys.exit(0)] or by Ctrl+C. *)
Lemma cmdloop_ends env events : forall w,
  fst (cmdloop env events w) = Raise (SystemExit 0) \/
  fst (cmdloop env events w) = Raise KeyboardInterrupt.
Proof.
  induction events as [|[c arg| |] events IH]; intros w; simpl.
  - left. destruct (do_EOF_raises env EmptyString w) as [w' ->]. reflexivity.
  - unfold bind. pose proof (run_exit_zero env c arg w) as H.
    destruct (run env c arg w) as [[[]|x] w']; simpl in *; [apply IH|].
    left. now rewrite (H x eq_refl).
  - apply IH.
  - right. reflexivity.
Qed.

(** C9.  The exit command raises [SystemExit(0)] from every console state,
    with or without a connection and whether or not saving the history or
    closing the connection fails; the process then ends with status 0 and
    runs nothing after it.  Ctrl+C at the prompt ends the process with
    status 0 as well, and so does every session. *)
Theorem exit_status_zero env :
  (forall arg w, exists w', do_exit env arg w = (Raise (SystemExit 0), w')) /\
  (forall arg rest w,
     main env (Dispatch cmd_exit arg :: rest) w = (0%Z, snd (do_exit env arg w))) /\
  (forall rest w, fst (main env (Interrupt :: rest) w) = 0%Z) /\
  (forall events w, fst (main env events w) = 0%Z).
Proof.
  repeat split.
  - intros arg w. destruct (do_exit_raises env arg w) as [out ->]. eauto.
  - intros arg rest w. unfold main; simpl. unfold bind.
    destruct (do_exit_raises env arg w) as [out ->]. reflexivity.
  - intros events w. unfold main.
    destruct (cmdloop_ends env events w) as [H | H];
      destruct (cmdloop env events w) as [r w']; simpl in H; subst r; reflexivity.
Qed.

End Exit.

(** ** Composite arguments *)

Module Composite.
Import Py Props Guard.

Lemma truthy_nonempty s : s <> EmptyString -> truthy s = true.
Proof. destruct s; [congruence | reflexivity]. Qed.

Lemma unpack2_wrong parts :
  length parts <> 2 -> exists m, unpack2 parts = raise (Exception (ValueError m)).
Proof.
  destruct parts as [|a [|b [|c l]]]; simpl; intros H; try congruence; eauto.
Qed.

Lemma unpack3_wrong parts :
  length parts <> 3 -> exists m, unpack3 parts = raise (Exception (ValueError m)).
Proof.
  destruct parts as [|a [|b [|c [|d l]]]]; simpl; intros H; try congruence; eauto.
Qed.

(** C5.  A composite-argument command (oscope_set_vertscale,
    oscope_measure_param, oscope_set_trigger_level, oscope_set_trigger_slope,
    afg_set_wave, sa_set_rbw_vbw, vna_set_sweep, vna_measure_sparam,
    vna_set_trace, eload_set_transient) run on a connected console with a
    non-empty argument that does not split on commas into the required
    number of parts returns normally, prints its [Invalid format.] message
    and nothing else, and makes no transport call. *)
Theorem composite_format_error env c n arg w inst :
  required_parts c = Some n ->
  instrument (self w) = Some inst ->
  arg <> EmptyString ->
  length (split comma arg) <> n ->
  run env c arg w = (Ret tt, log_print (format_error c) w) /\
  prefix "Invalid format." (format_error c) = true /\
  trace (log_print (format_error c) w) = trace w.
Proof.
  intros Hc Hinst Harg Hlen.
  split; [|split; [destruct c; try discriminate Hc; reflexivity | reflexivity]].
  destruct c; try discriminate Hc; injection Hc as <-;
    autounfold with commands;
    rewrite (with_instrument_some _ _ _ _ Hinst);
    unfold require_arg; rewrite (truthy_nonempty _ Harg);
    first [ destruct (unpack2_wrong _ Hlen) as [m Hm]
          | destruct (unpack3_wrong _ Hlen) as [m Hm] ];
    unfold try_except, bind; rewrite Hm; reflexivity.
Qed.

Lemma composite_format_error_witness :
  run Demo.bench cmd_vna_set_sweep "1GHz;2GHz;201" Demo.connected
  = (Ret tt, log_print (format_error cmd_vna_set_sweep) Demo.connected).
Proof.
  apply (composite_format_error Demo.bench cmd_vna_set_sweep 3 "1GHz;2GHz;201"
           Demo.connected 0); [reflexivity | reflexivity | discriminate |].
  vm_compute. discriminate.
Defined.

(** afg_psu_slew_set takes one part or two: with more it makes no transport
    call either, and reports the error under its own heading. *)
Lemma slew_set_too_many_parts env arg w inst :
  instrument (self w) = Some inst ->
  2 < length (split comma arg) ->
  run env cmd_afg_psu_slew_set arg w
  = (Ret tt,
     log_print ("Error setting slew rate. Command likely unsupported by instrument: "
                  +++ "too many values to unpack (expected 2)") w).
Proof.
  intros Hinst Hlen. autounfold with commands.
  rewrite (with_instrument_some _ _ _ _ Hinst).
  assert (Hc : contains_char comma arg = true).
  { clear Hinst. destruct (contains_char comma arg) eqn:E; [reflexivity|].
    exfalso. revert Hlen. clear - E. induction arg as [|ch r IH]; simpl in *.
    - lia.
    - destruct (Ascii.eqb ch comma); [discriminate|]. simpl in E.
      specialize (IH E). destruct (split comma r) as [|h [|h2 t]]; simpl in *; lia. }
  assert (Harg : truthy arg = true) by (destruct arg; [discriminate Hc | reflexivity]).
  unfold require_arg. rewrite Harg, Hc.
  destruct (split comma arg) as [|a [|b [|c l]]]; simpl in Hlen; try lia.
  reflexivity.
Qed.

End Composite.

(** ** Screen and waveform capture *)

Module Capture.
Import Py Props Guard Composite.

(** [split] and the text after the last separator. *)
Lemma split_nonempty sep s : split sep s <> [].
Proof.
  destruct s as [|c r]; simpl; [discriminate|].
  destruct (Ascii.eqb c sep); [discriminate|].
  destruct (split sep r); discriminate.
Qed.

Lemma split_no_sep sep s : contains_char sep s = false -> split sep s = [s].
Proof.
  induction s as [|c r IH]; simpl; [reflexivity|].
  destruct (Ascii.eqb c sep); simpl; [discriminate|].
  intros H. now rewrite (IH H).
Qed.

Lemma split_app_length sep pre suf :
  2 <= length (split sep (pre +++ String sep suf)).
Proof.
  induction pre as [|c r IH]; simpl.
  - rewrite Ascii.eqb_refl. pose proof (split_nonempty sep suf) as H.
    destruct (split sep suf); [congruence | simpl; lia].
  - destruct (Ascii.eqb c sep); [simpl; lia|].
    destruct (split sep (r +++ String sep suf)) as [|h t]; simpl in *; lia.
Qed.

Lemma last_split_app sep pre suf d :
  last (split sep (pre +++ String sep suf)) d = last (split sep suf) d.
Proof.
  induction pre as [|c r IH]; simpl.
  - rewrite Ascii.eqb_refl. pose proof (split_nonempty sep suf) as H.
    destruct (split sep suf); [congruence | reflexivity].
  - pose proof (split_app_length sep r suf) as H.
    destruct (split sep (r +++ String sep suf)) as [|h [|h' t]];
      simpl in H; try lia.
    destruct (Ascii.eqb c sep); exact IH.
Qed.

(** The extension is the upper-cased text after the last dot of the name,
    and the whole upper-cased name when it has no dot. *)
Lemma file_extension_after_last_dot pre suf :
  contains_char dot suf = false ->
  file_extension (pre +++ String dot suf) = upper suf.
Proof.
  intros H. unfold file_extension.
  now rewrite last_split_app, (split_no_sep _ _ H).
Qed.

Lemma file_extension_no_dot name :
  contains_char dot name = false -> file_extension name = upper name.
Proof. intros H. unfold file_extension. now rewrite (split_no_sep _ _ H). Qed.

Lemma contains_after c stem ext : contains_char c (stem +++ String c ext) = true.
Proof.
  induction stem as [|x stem IH]; cbn [String.append contains_char].
  - now rewrite Ascii.eqb_refl.
  - rewrite IH. apply orb_true_r.
Qed.

(** The extension the commands compute is the one the name has. *)
Lemma extension_named filename ext :
  names_extension filename ext -> file_extension filename = upper ext.
Proof.
  intros [Hext [-> | [stem ->]]].
  - now apply file_extension_no_dot.
  - now apply file_extension_after_last_dot.
Qed.

Lemma screen_capture_cases env c :
  screen_capture_command c = true ->
  exists u r s h, forall arg, run env c arg = screen_capture env u r s h arg.
Proof. destruct c; try discriminate; intros _; do 4 eexists; reflexivity. Qed.

(** C7, as the code has it.  A screen-capture command (oscope_screen_capture
    or rf_screen_capture) run on a connected console with a non-empty ASCII
    argument reads the extension of the stripped file name: the text after
    its last dot, and the whole name when it has no dot.  When the
    extension, upper-cased, is none of PNG, JPEG and JPG, the command makes
    no transport call, writes no file and prints the unsupported-format
    message.  When it is one of them (as for the name [png]) the command
    makes the binary query for that format and no other call; and when the
    instrument then returns an empty block, it prints an error and writes
    no file. *)
Theorem screen_capture_rejects env c arg w inst ext :
  screen_capture_command c = true ->
  instrument (self w) = Some inst ->
  arg <> EmptyString ->
  ascii_text arg = true ->
  names_extension (strip arg) ext ->
  (supported_image (upper ext) = false ->
   run env c arg w
   = (Ret tt, log_print "Unsupported format for screen capture. Use PNG or JPEG/JPG." w)
   /\ trace (snd (run env c arg w)) = trace w
   /\ files (snd (run env c arg w)) = files w)
  /\
  (supported_image (upper ext) = true ->
   trace (snd (run env c arg w))
   = trace w ++ [QueryBinaryValues inst (":DISPlay:DATA? " +++ upper ext)])
  /\
  (supported_image (upper ext) = true ->
   env_query_binary_values env (length (trace w)) inst
     (":DISPlay:DATA? " +++ upper ext) = inr EmptyString ->
   exists request,
     run env c arg w
     = (Ret tt,
        log_print "Error: Received no image data from the instrument."
          (log_call (QueryBinaryValues inst (":DISPlay:DATA? " +++ upper ext))
             (log_print request w)))
     /\ files (snd (run env c arg w)) = files w).
Proof.
  intros Hc Hinst Harg _ Hext. unfold supported_image.
  destruct (screen_capture_cases env c Hc) as (u & r & s & h & ->). clear Hc.
  unfold screen_capture. rewrite (with_instrument_some _ _ _ _ Hinst).
  unfold require_arg. rewrite (truthy_nonempty _ Harg).
  unfold try_except, bind. cbv zeta. rewrite (extension_named _ _ Hext).
  split; [|split].
  - intros ->. repeat split.
  - intros ->. unfold print at 1, inst_query_binary_values.
    cbn [trace log_print].
    destruct (env_query_binary_values env (length (trace w)) inst
                (":DISPlay:DATA? " +++ upper ext)) as [e | image_data];
      cbn [of_sum_error].
    + destruct e; reflexivity.
    + destruct (truthy image_data); cbn [negb]; [|reflexivity].
      unfold write_file. destruct (env_open_file env (strip arg)) as [e|];
        [destruct e|]; reflexivity.
  - intros -> Himg. exists (r +++ upper ext +++ ")...").
    match goal with
    | |- ?lhs = ?rhs /\ _ => assert (Heq : lhs = rhs)
    end.
    { unfold print at 1, inst_query_binary_values.
      cbn [trace log_print]. rewrite Himg. reflexivity. }
    split; [exact Heq | now rewrite Heq].
Qed.

Lemma screen_capture_rejects_witness :
  run Demo.bench cmd_rf_screen_capture "sweep.bmp" Demo.connected
  = (Ret tt, log_print "Unsupported format for screen capture. Use PNG or JPEG/JPG."
               Demo.connected)
  /\
  trace (snd (run Demo.bench cmd_oscope_screen_capture "png" Demo.connected))
  = trace Demo.connected ++ [QueryBinaryValues 0 ":DISPlay:DATA? PNG"]
  /\
  files (snd (run Demo.blank cmd_oscope_screen_capture "shot.jpg" Demo.connected))
  = files Demo.connected.
Proof.
  split; [|split].
  - apply (proj1 (screen_capture_rejects Demo.bench cmd_rf_screen_capture "sweep.bmp"
             Demo.connected 0 "bmp" eq_refl eq_refl ltac:(discriminate) eq_refl
             (conj eq_refl (or_intror (ex_intro _ "sweep" eq_refl))))).
    reflexivity.
  - apply (proj1 (proj2 (screen_capture_rejects Demo.bench cmd_oscope_screen_capture
             "png" Demo.connected 0 "png" eq_refl eq_refl ltac:(discriminate) eq_refl
             (conj eq_refl (or_introl eq_refl))))).
    reflexivity.
  - destruct (proj2 (proj2 (screen_capture_rejects Demo.blank cmd_oscope_screen_capture
             "shot.jpg" Demo.connected 0 "jpg" eq_refl eq_refl ltac:(discriminate) eq_refl
             (conj eq_refl (or_intror (ex_intro _ "shot" eq_refl)))))
             eq_refl eq_refl) as (request & _ & Hfiles).
    exact Hfiles.
Defined.

(** C7 as stated fails for a file name without a dot: no text follows a
    last dot, so no extension names a supported format, and yet the capture
    is made and the file written. *)
Lemma dotless_name_is_captured :
  ~ (forall env c arg w inst,
       screen_capture_command c = true ->
       instrument (self w) = Some inst ->
       arg <> EmptyString ->
       (forall stem ext,
          strip arg = stem +++ String dot ext -> supported_image (upper ext) = false) ->
       trace (snd (run env c arg w)) = trace w /\
       files (snd (run env c arg w)) = files w).
Proof.
  intros H.
  destruct (H Demo.bench cmd_oscope_screen_capture "png" Demo.connected 0
              eq_refl eq_refl ltac:(discriminate)) as [Htrace _].
  - intros stem ext Hname.
    pose proof (contains_after dot stem ext) as Hdot.
    rewrite <- Hname in Hdot. discriminate Hdot.
  - discriminate Htrace.
Qed.

(** What the console does with the name [png]. *)
Example capture_to_dotless_name :
  run Demo.bench cmd_oscope_screen_capture "png" Demo.connected
  = (Ret tt,
     mkWorld (self Demo.connected)
       (trace Demo.connected ++ [QueryBinaryValues 0 ":DISPlay:DATA? PNG"])
       ["Requesting scope screen data (PNG)...";
        "Scope screen capture successfully saved to: png"]
       [("png", "PNG-bytes")] 0).
Proof. reflexivity. Qed.

Lemma length_trace_call c w : length (trace (log_call c w)) = S (length (trace w)).
Proof. simpl. rewrite length_app. simpl. lia. Qed.

Lemma query_at env inst message w r :
  env_query env (length (trace w)) inst message = r ->
  inst_query env inst message w = (of_sum_error r, log_call (Query inst message) w).
Proof. intros <-. reflexivity. Qed.

Lemma write_at env inst message w r :
  env_write env (length (trace w)) inst message = r ->
  inst_write env inst message w = (of_option_error r, log_call (Write inst message) w).
Proof. intros <-. reflexivity. Qed.

Lemma item_short l :
  length l < 9 ->
  forall A (k : float -> float -> float -> M A) w,
    (x <- item l 5 ;; y <- item l 7 ;; z <- item l 8 ;; k x y z) w
    = (Raise (Exception (IndexError "list index out of range")), w).
Proof.
  intros H A k w.
  destruct l as [|a0 [|a1 [|a2 [|a3 [|a4 [|a5 [|a6 [|a7 [|a8 l]]]]]]]]];
    simpl in H; try lia; reflexivity.
Qed.

Lemma item_long l :
  9 <= length l ->
  exists x y z,
    Waveform.index l 5 = Some x /\ Waveform.index l 7 = Some y /\
    Waveform.index l 8 = Some z /\
    forall A (k : float -> float -> float -> M A),
      (x <- item l 5 ;; y <- item l 7 ;; z <- item l 8 ;; k x y z) = k x y z.
Proof.
  intros H.
  destruct l as [|a0 [|a1 [|a2 [|a3 [|a4 [|a5 [|a6 [|a7 [|a8 l]]]]]]]]];
    simpl in H; try lia.
  exists a5, a7, a8. repeat split.
Qed.

(** The successful path of oscope_capture_data: the decoded pairs are
    written to the named file, as CSV or as text after its extension. *)
Lemma capture_data_writes env arg w inst
    preamble_str preamble raw_data_str raw_data :
  instrument (self w) = Some inst ->
  arg <> EmptyString ->
  data_format (extension_of arg) = true ->
  env_query env (length (trace w)) inst ":WAVeform:PREamble?" = inr preamble_str ->
  float_list env (split comma (strip preamble_str)) = inr preamble ->
  9 <= length preamble ->
  env_write env (S (length (trace w))) inst ":WAVeform:FORMat ASCii" = None ->
  env_query env (S (S (length (trace w)))) inst ":WAVeform:DATA?" = inr raw_data_str ->
  float_list env (split comma (strip raw_data_str)) = inr raw_data ->
  env_open_file env (strip arg) = None ->
  exists processed_data,
    Waveform.decode preamble raw_data = Some processed_data /\
    do_oscope_capture_data env arg w
    = (Ret tt,
       log_print ("Waveform data successfully processed and saved to: " +++ strip arg
                    +++ " (" +++ str_nat (length raw_data) +++ " points).")
         (log_file (strip arg)
            (if String.eqb (extension_of arg) "CSV"
             then csv_content env processed_data else txt_content processed_data)
            (log_call (Query inst ":WAVeform:DATA?")
               (log_call (Write inst ":WAVeform:FORMat ASCii")
                  (log_call (Query inst ":WAVeform:PREamble?") w))))).
Proof.
  intros Hinst Harg Hext Hq Hp Hlen Hw Hq2 Hraw Hfile.
  destruct (item_long _ Hlen) as (x & y & z & Hx & Hy & Hz & Hitems).
  exists (Waveform.process_data x y z raw_data).
  split; [unfold Waveform.decode; now rewrite Hx, Hy, Hz|].
  unfold extension_of, data_format in *.
  unfold do_oscope_capture_data.
  rewrite (with_instrument_some _ _ _ _ Hinst).
  unfold require_arg. rewrite (truthy_nonempty _ Harg).
  cbv zeta. rewrite Hext. cbn [negb].
  unfold try_except. unfold bind at 1. rewrite (query_at _ _ _ _ _ Hq).
  cbn [of_sum_error]. unfold bind at 1. unfold parse_floats at 1. rewrite Hp.
  cbn [ret]. rewrite Hitems.
  rewrite <- length_trace_call with (c := Query inst ":WAVeform:PREamble?") in Hw, Hq2.
  unfold bind at 1. rewrite (write_at _ _ _ _ _ Hw). cbn [of_option_error].
  rewrite <- length_trace_call with (c := Write inst ":WAVeform:FORMat ASCii") in Hq2.
  unfold bind at 1. rewrite (query_at _ _ _ _ _ Hq2). cbn [of_sum_error].
  unfold bind at 1. unfold parse_floats. rewrite Hraw. cbn [ret].
  unfold bind at 1.
  assert (Hcase : String.eqb (file_extension (strip arg)) "CSV" = true \/
                  (String.eqb (file_extension (strip arg)) "CSV" = false /\
                   String.eqb (file_extension (strip arg)) "TXT" = true)).
  { unfold str_in in Hext. cbn [existsb] in Hext.
    destruct (String.eqb (file_extension (strip arg)) "CSV"); [now left | right].
    destruct (String.eqb (file_extension (strip arg)) "TXT"); [auto | discriminate]. }
  destruct Hcase as [-> | [-> ->]];
    unfold write_file; rewrite Hfile; reflexivity.
Qed.

(** C1.  The decoding step of oscope_capture_data: when the preamble
    parses to at least nine floats and the sample string to N floats (and
    the instrument and the file system let the command reach its end), the
    file written holds exactly N (time, voltage) pairs, in order, the pair
    at position [i] being
    [(i * preamble[5], preamble[7] * (raw[i] - preamble[8]))]; and with
    [1e-6], [0.01] and [127] at indices 5, 7 and 8 of the preamble and the
    samples [127, 227, 27], the pairs are
    [(0, 0.0), (1e-6, 1.0), (2e-6, -1.0)]. *)
Theorem decode_linear env arg w inst preamble_str preamble raw_data_str raw_data :
  instrument (self w) = Some inst ->
  arg <> EmptyString ->
  data_format (extension_of arg) = true ->
  env_query env (length (trace w)) inst ":WAVeform:PREamble?" = inr preamble_str ->
  float_list env (split comma (strip preamble_str)) = inr preamble ->
  9 <= length preamble ->
  env_write env (S (length (trace w))) inst ":WAVeform:FORMat ASCii" = None ->
  env_query env (S (S (length (trace w)))) inst ":WAVeform:DATA?" = inr raw_data_str ->
  float_list env (split comma (strip raw_data_str)) = inr raw_data ->
  env_open_file env (strip arg) = None ->
  exists p5 p7 p8 pairs,
    nth_error preamble 5 = Some p5 /\
    nth_error preamble 7 = Some p7 /\
    nth_error preamble 8 = Some p8 /\
    files (snd (do_oscope_capture_data env arg w))
    = files w
        ++ [(strip arg,
             if String.eqb (extension_of arg) "CSV"
             then csv_content env pairs else txt_content pairs)] /\
    length pairs = length raw_data /\
    (forall i r,
       nth_error raw_data i = Some r ->
       nth_error pairs i
       = Some ((Waveform.float_of_index i * p5)%float, (p7 * (r - p8))%float)) /\
    (p5 = 1e-6%float -> p7 = 0.01%float -> p8 = 127%float ->
     raw_data = [127; 227; 27]%float ->
     pairs = [(0, 0); (1e-6, 1); (2e-6, -1)]%float).
Proof.
  intros Hinst Harg Hext Hq Hp Hlen Hw Hq2 Hraw Hfile.
  destruct (capture_data_writes env arg w inst preamble_str preamble raw_data_str
              raw_data Hinst Harg Hext Hq Hp Hlen Hw Hq2 Hraw Hfile)
    as (pairs & Hd & Hrun).
  unfold Waveform.decode, Waveform.index in Hd.
  destruct (nth_error preamble 5) as [p5|]; [|discriminate Hd].
  destruct (nth_error preamble 7) as [p7|]; [|discriminate Hd].
  destruct (nth_error preamble 8) as [p8|]; [|discriminate Hd].
  injection Hd as <-.
  exists p5, p7, p8, (Waveform.process_data p5 p7 p8 raw_data).
  do 3 (split; [reflexivity|]).
  split; [now rewrite Hrun|].
  split; [apply WaveformFacts.process_from_length|].
  split.
  - intros i r Hi. unfold Waveform.process_data.
    now rewrite (WaveformFacts.process_from_nth p5 p7 p8 raw_data 0 i r Hi).
  - intros -> -> -> ->. vm_compute. reflexivity.
Qed.

Lemma decode_linear_witness :
  files (snd (do_oscope_capture_data Demo.bench "wave.txt" Demo.connected))
  = [("wave.txt", txt_content [(0, 0); (1e-6, 1); (2e-6, -1)]%float)].
Proof.
  destruct (decode_linear Demo.bench "wave.txt" Demo.connected 0
              "0,0,0,0,0,1e-6,0,0.01,127,0" [0; 0; 0; 0; 0; 1e-6; 0; 0.01; 127; 0]%float
              "127,227,27" [127; 227; 27]%float)
    as (p5 & p7 & p8 & pairs & H5 & H7 & H8 & Hfiles & _ & _ & Hexample);
    [reflexivity | discriminate | reflexivity | reflexivity | reflexivity | simpl; lia
    | reflexivity | reflexivity | reflexivity | reflexivity |].
  injection H5 as <-. injection H7 as <-. injection H8 as <-.
  rewrite (Hexample eq_refl eq_refl eq_refl eq_refl) in Hfiles. exact Hfiles.
Defined.

(** C6.  On a connected console and with a CSV or TXT file name,
    oscope_capture_data returns normally, prints an error message and writes
    no file when the preamble response parses to fewer than nine floats, and
    when the preamble is long enough but the sample response does not parse
    as floats. *)
Theorem capture_data_rejects env arg w inst :
  instrument (self w) = Some inst ->
  arg <> EmptyString ->
  data_format (extension_of arg) = true ->
  (forall preamble_str preamble,
     env_query env (length (trace w)) inst ":WAVeform:PREamble?" = inr preamble_str ->
     float_list env (split comma (strip preamble_str)) = inr preamble ->
     length preamble < 9 ->
     do_oscope_capture_data env arg w
     = (Ret tt,
        log_print (processing_error "list index out of range")
          (log_call (Query inst ":WAVeform:PREamble?") w))
     /\ files (snd (do_oscope_capture_data env arg w)) = files w)
  /\
  (forall preamble_str preamble raw_data_str bad,
     env_query env (length (trace w)) inst ":WAVeform:PREamble?" = inr preamble_str ->
     float_list env (split comma (strip preamble_str)) = inr preamble ->
     9 <= length preamble ->
     env_write env (S (length (trace w))) inst ":WAVeform:FORMat ASCii" = None ->
     env_query env (S (S (length (trace w)))) inst ":WAVeform:DATA?" = inr raw_data_str ->
     float_list env (split comma (strip raw_data_str)) = inl bad ->
     do_oscope_capture_data env arg w
     = (Ret tt,
        log_print (processing_error
                     ("could not convert string to float: " +++ env_repr_str env bad))
          (log_call (Query inst ":WAVeform:DATA?")
             (log_call (Write inst ":WAVeform:FORMat ASCii")
                (log_call (Query inst ":WAVeform:PREamble?") w))))
     /\ files (snd (do_oscope_capture_data env arg w)) = files w).
Proof.
  intros Hinst Harg Hext. unfold extension_of, data_format in Hext.
  unfold do_oscope_capture_data.
  rewrite (with_instrument_some _ _ _ _ Hinst).
  unfold require_arg. rewrite (truthy_nonempty _ Harg).
  cbv zeta. rewrite Hext. cbn [negb].
  split.
  - intros preamble_str preamble Hq Hp Hlen.
    match goal with
    | |- ?lhs = ?rhs /\ _ => assert (Heq : lhs = rhs)
    end.
    { unfold try_except. unfold bind at 1. rewrite (query_at _ _ _ _ _ Hq).
      cbn [of_sum_error]. unfold bind at 1. unfold parse_floats. rewrite Hp.
      cbn [ret]. rewrite (item_short _ Hlen). reflexivity. }
    split; [exact Heq | now rewrite Heq].
  - intros preamble_str preamble raw_data_str bad Hq Hp Hlen Hw Hq2 Hbad.
    match goal with
    | |- ?lhs = ?rhs /\ _ => assert (Heq : lhs = rhs)
    end.
    { unfold try_except. unfold bind at 1. rewrite (query_at _ _ _ _ _ Hq).
      cbn [of_sum_error]. unfold bind at 1. unfold parse_floats at 1. rewrite Hp.
      cbn [ret]. destruct (item_long _ Hlen) as (x & y & z & _ & _ & _ & ->).
      rewrite <- length_trace_call
        with (c := Query inst ":WAVeform:PREamble?") in Hw, Hq2.
      unfold bind at 1. rewrite (write_at _ _ _ _ _ Hw). cbn [of_option_error].
      rewrite <- length_trace_call
        with (c := Write inst ":WAVeform:FORMat ASCii") in Hq2.
      unfold bind at 1. rewrite (query_at _ _ _ _ _ Hq2). cbn [of_sum_error].
      unfold bind at 1. unfold parse_floats. rewrite Hbad. reflexivity. }
    split; [exact Heq | now rewrite Heq].
Qed.

Lemma capture_data_rejects_witness :
  do_oscope_capture_data Demo.short_preamble "wave.csv" Demo.connected
  = (Ret tt,
     log_print (processing_error "list index out of range")
       (log_call (Query 0 ":WAVeform:PREamble?") Demo.connected))
  /\
  files (snd (do_oscope_capture_data Demo.garbled "wave.txt" Demo.connected)) = [].
Proof.
  split.
  - apply (proj1 (capture_data_rejects Demo.short_preamble "wave.csv" Demo.connected 0
             eq_refl ltac:(discriminate) eq_refl)
             "1,2,3" [1; 2; 3]%float); [reflexivity | reflexivity | simpl; lia].
  - apply (proj2 (capture_data_rejects Demo.garbled "wave.txt" Demo.connected 0
             eq_refl ltac:(discriminate) eq_refl)
             "0,0,0,0,0,1e-6,0,0.01,127,0"
             [0; 0; 0; 0; 0; 1e-6; 0; 0.01; 127; 0]%float "127,abc" "abc");
      [reflexivity | reflexivity | simpl; lia | reflexivity | reflexivity | reflexivity].
Defined.

End Capture.

(** ** The exported files *)

Module FileExport.
Import Py Fmt Props.

Lemma append_assoc (a b c : string) : (a +++ b) +++ c = a +++ b +++ c.
Proof. induction a as [|x a IH]; simpl; [reflexivity | now rewrite IH]. Qed.

Lemma length_append (a b : string) :
  String.length (a +++ b) = String.length a + String.length b.
Proof. induction a as [|x a IH]; simpl; [reflexivity | now rewrite IH]. Qed.

Lemma all_digits_append a b :
  all_digits a = true -> all_digits b = true -> all_digits (a +++ b) = true.
Proof.
  induction a as [|x a IH]; cbn [all_digits String.append]; [auto|].
  intros H Hb. apply andb_true_iff in H as [H1 H2]. rewrite H1, IH; auto.
Qed.

Lemma digit_char_is_digit z : is_digit (digit_char (z mod 10)) = true.
Proof.
  unfold digit_char.
  assert (H : Z.to_nat (z mod 10) < 10)
    by (pose proof (Z.mod_pos_bound z 10 ltac:(lia)); lia).
  destruct (Z.to_nat (z mod 10)) as [|[|[|[|[|[|[|[|[|[|n]]]]]]]]]];
    try reflexivity; lia.
Qed.

Lemma fixed_digits_length w q : String.length (fixed_digits w q) = w.
Proof.
  induction w as [|w IH]; cbn [fixed_digits String.length];
    [reflexivity | now rewrite IH].
Qed.

Lemma fixed_digits_digits w q : all_digits (fixed_digits w q) = true.
Proof.
  induction w as [|w IH]; cbn [fixed_digits all_digits]; [reflexivity|].
  now rewrite digit_char_is_digit, IH.
Qed.

Lemma decimal_fuel_digits fuel : forall n acc,
  all_digits acc = true -> all_digits (decimal_fuel fuel n acc) = true.
Proof.
  induction fuel as [|f IH]; intros n acc H; cbn [decimal_fuel all_digits].
  - now rewrite digit_char_is_digit.
  - destruct (n <? 10)%Z; [cbn [all_digits]; now rewrite digit_char_is_digit|].
    apply IH. cbn [all_digits]. now rewrite digit_char_is_digit.
Qed.

Lemma decimal_fuel_length fuel : forall n acc,
  String.length acc < String.length (decimal_fuel fuel n acc).
Proof.
  induction fuel as [|f IH]; intros n acc; cbn [decimal_fuel String.length]; [lia|].
  destruct (n <? 10)%Z; cbn [String.length]; [lia|].
  specialize (IH (n / 10)%Z (String (digit_char (n mod 10)) acc)).
  cbn [String.length] in IH. lia.
Qed.

Lemma str_Z_digits n : all_digits (str_Z n) = true.
Proof. apply decimal_fuel_digits. reflexivity. Qed.

Lemma str_Z_length n : 1 <= String.length (str_Z n).
Proof.
  pose proof (decimal_fuel_length (Z.to_nat (Z.log2 n)) n EmptyString) as L.
  unfold str_Z. cbn [String.length] in L. lia.
Qed.

Lemma str_Z_two_digits n : (10 <= n)%Z -> 2 <= String.length (str_Z n).
Proof.
  intros H. unfold str_Z.
  assert (Hl : (3 <= Z.log2 n)%Z)
    by (change 3%Z with (Z.log2 8); apply Z.log2_le_mono; lia).
  destruct (Z.to_nat (Z.log2 n)) as [|f] eqn:E; [lia|].
  cbn [decimal_fuel]. destruct (Z.ltb_spec n 10); [lia|].
  pose proof (decimal_fuel_length f (n / 10)%Z
                (String (digit_char (n mod 10)) EmptyString)) as L.
  cbn [String.length] in L. lia.
Qed.

(** The shape of a finite number in the format [.<prec>e]. *)
Lemma finite_shape prec s q k :
  scientific prec (sign_part s +++ mantissa_part prec q +++ exp_part k).
Proof.
  unfold mantissa_part, exp_part.
  exists (sign_part s), (digit_char ((q / 10 ^ Z.of_nat prec) mod 10)),
    (fixed_digits prec q), (if (k <? 0)%Z then "-" else "+"),
    (if (Z.abs k <? 10)%Z then "0" +++ str_Z (Z.abs k) else str_Z (Z.abs k)).
  split; [reflexivity|].
  split; [destruct s; cbn [sign_part]; auto|].
  split; [apply digit_char_is_digit|].
  split; [apply fixed_digits_length|].
  split; [apply fixed_digits_digits|].
  split; [destruct (k <? 0)%Z; auto|].
  destruct (Z.ltb_spec (Z.abs k) 10); split.
  - cbn [String.append String.length]. pose proof (str_Z_length (Z.abs k)). lia.
  - apply all_digits_append; [reflexivity | apply str_Z_digits].
  - now apply str_Z_two_digits.
  - apply str_Z_digits.
Qed.

Lemma format_e_shape prec x :
  scientific prec (format_e prec x) \/ In (format_e prec x) ["nan"; "inf"; "-inf"].
Proof.
  unfold format_e. destruct (Prim2SF x) as [s|s| |s m e].
  - left. apply finite_shape.
  - right. destruct s; cbn [sign_part String.append In]; auto.
  - right. cbn [In]; auto.
  - left. destruct (sci_digits _ _ _) as [q k]. apply finite_shape.
Qed.


(** A whole capture on the sample bench: the file that is written. *)
Example capture_data_bench :
  files (snd (do_oscope_capture_data Demo.bench "wave.txt" Demo.connected))
  = [("wave.txt",
      "Time (s)" +++ tab +++ "Voltage (V)" +++ lf
        +++ "0.000000e+00" +++ tab +++ "0.000000e+00" +++ lf
        +++ "1.000000e-06" +++ tab +++ "1.000000e+00" +++ lf
        +++ "2.000000e-06" +++ tab +++ "-1.000000e+00" +++ lf)].
Proof. vm_compute. reflexivity. Qed.

End FileExport.

(** ** Sample sessions *)

Module Sessions.
Import Py.

(** Select, measure, a well-formed and a malformed scale command, exit:
    the command after exit is never run. *)
Example bench_session :
  main Demo.bench
    [Dispatch cmd_deviceselect (dq +++ "GPIB0::2::INSTR" +++ dq);
     Dispatch cmd_dmm_measure_dc_v EmptyString;
     Handled;
     Dispatch cmd_oscope_set_vertscale "1, 0.5";
     Dispatch cmd_oscope_set_vertscale "1";
     Dispatch cmd_exit EmptyString;
     Dispatch cmd_reset EmptyString]
    (initial_world true)
  = (0%Z,
     mkWorld (mkConsole true (Some "GPIB0::2::INSTR") (Some 0))
       [OpenResource "GPIB0::2::INSTR"; GetTimeout 0; SetTimeout 0 5000;
        Query 0 "*IDN?"; Query 0 ":MEASure:VOLTage:DC?";
        Write 0 ":CHANnel1:SCAle 0.5"; Close 0]
       ["Successfully selected and connected to: GPIB0::2::INSTR";
        "Instrument IDN: 1"; "DC Voltage: 1 V";
        "Oscilloscope Channel 1 scale set to: 0.5 V/div";
        "Invalid format. Use: <channel>,<volts_per_div> (e.g., 1,0.5)";
        "Closing connection to GPIB0::2::INSTR..."; "Exiting console. Goodbye!"]
       [] 1).
Proof. vm_compute. reflexivity. Qed.

(** Nothing answers: the selection fails, the console stays disconnected,
    and Ctrl+C ends the session. *)
Example unplugged_session :
  main Demo.unplugged
    [Dispatch cmd_devicelist EmptyString;
     Dispatch cmd_deviceselect "GPIB0::9::INSTR";
     Dispatch cmd_id EmptyString;
     Interrupt]
    (initial_world true)
  = (0%Z,
     mkWorld (mkConsole true None None)
       [ListResources; OpenResource "GPIB0::9::INSTR"]
       ["Available VISA Resources:"; "  GPIB0::2::INSTR";
        "Error connecting to device 'GPIB0::9::INSTR': VI_ERROR_RSRC_NFOUND";
        "No device selected. Use 'deviceselect' first.";
        lf +++ "Ctrl+C detected. Exiting console. Goodbye!"]
       [] 0).
Proof. vm_compute. reflexivity. Qed.

(** A screen capture: the extension is read without regard to case, and a
    name without a dot is its own extension. *)
Example screen_capture_sessions :
  run Demo.bench cmd_rf_screen_capture " shot.PnG " Demo.connected
  = (Ret tt,
     log_print "Screen capture successfully saved to: shot.PnG"
       (log_file "shot.PnG" "PNG-bytes"
          (log_call (QueryBinaryValues 0 ":DISPlay:DATA? PNG")
             (log_print "Requesting screen data (PNG)..." Demo.connected))))
  /\
  run Demo.blank cmd_oscope_screen_capture "jpg" Demo.connected
  = (Ret tt,
     log_print "Error: Received no image data from the instrument."
       (log_call (QueryBinaryValues 0 ":DISPlay:DATA? JPG")
          (log_print "Requesting scope screen data (JPG)..." Demo.connected))).
Proof. split; vm_compute; reflexivity. Qed.

End Sessions.

(** ** What every command does and never does *)

Module Boundary.
Import Py Props MoreProps Logic Guard.

Section Quiet.

Variable R : World -> World -> Prop.
Hypothesis R_refl : forall w, R w w.
Hypothesis R_trans : forall a b c, R a b -> R b c -> R a c.
Hypothesis R_print : forall s w, R w (log_print s w).
Hypothesis R_call : forall c w, R w (log_call c w).
Hypothesis R_self : forall c w, R w (with_self c w).
Variable E : exn -> Prop.
Variable env : Env.

(** The commands that neither write a file nor leave raise nothing at all
    and touch neither the files nor the history. *)
Lemma keeps_quiet c arg :
  captures c = false -> leaves c = false -> keeps R E (run env c arg).
Proof.
  intros Hc Hl. destruct c; try discriminate Hc; try discriminate Hl; clear Hc Hl;
    autounfold with commands; cbv zeta;
    repeat first
      [ apply keeps_set_instrument; assumption
      | apply keeps_set_selected_device_id; assumption
      | keeps_step ].
Qed.

Hypothesis R_file : forall n c w, R w (log_file n c w).

Lemma keeps_captures c arg : captures c = true -> keeps R E (run env c arg).
Proof.
  intros Hc. destruct c; try discriminate Hc; clear Hc;
    autounfold with commands; keeps_tac.
Qed.

End Quiet.

(** X1.  No command but exit and EOF ever raises: whatever the argument,
    the console state and the behaviour of the transport and of the file
    system, the command returns normally to the prompt. *)
Theorem command_returns env c arg w :
  leaves c = false -> fst (run env c arg w) = Ret tt.
Proof.
  intros Hl.
  assert (H : keeps always never (run env c arg)).
  { destruct (captures c) eqn:Hc.
    - apply keeps_captures; unfold always; auto.
    - apply keeps_quiet; unfold always; auto. }
  destruct (H w) as [_ Hx].
  destruct (run env c arg w) as [[[]|x] w']; [reflexivity|].
  destruct (Hx x eq_refl).
Qed.

Lemma command_returns_witness :
  fst (run Demo.unplugged cmd_check_capabilities EmptyString Demo.connected) = Ret tt.
Proof. apply command_returns. reflexivity. Defined.

(** X2.  Only oscope_screen_capture, rf_screen_capture and
    oscope_capture_data write files, and only exit and EOF save the
    history: every other command leaves both as they were. *)
Theorem files_unchanged env c arg w :
  captures c = false -> leaves c = false ->
  files (snd (run env c arg w)) = files w /\
  history_saves (snd (run env c arg w)) = history_saves w.
Proof.
  intros Hc Hl.
  refine (proj1 (keeps_quiet same_files _ _ _ _ _ never env c arg Hc Hl w));
    unfold same_files; simpl; intuition congruence.
Qed.

Lemma files_unchanged_witness :
  files (snd (run Demo.bench cmd_deviceselect "GPIB0::2::INSTR" (initial_world true))) = [].
Proof.
  apply (proj1 (files_unchanged Demo.bench cmd_deviceselect "GPIB0::2::INSTR"
                  (initial_world true) eq_refl eq_refl)).
Defined.

(** X3.  An instrument command that needs an argument, run on a connected
    console with the empty argument, prints one message that starts with
    [Usage:] and makes no transport call. *)
Theorem usage_on_missing_argument env c w inst :
  needs_argument c = true ->
  instrument (self w) = Some inst ->
  exists msg,
    run env c EmptyString w = (Ret tt, log_print msg w) /\
    prefix "Usage:" msg = true.
Proof.
  intros Hc Hinst.
  destruct c; try discriminate Hc; clear Hc; autounfold with commands;
    rewrite (with_instrument_some _ _ _ _ Hinst);
    eexists; (split; [reflexivity | reflexivity]).
Qed.

Lemma usage_on_missing_argument_witness :
  exists msg,
    run Demo.bench cmd_psu_measure_output EmptyString Demo.connected
    = (Ret tt, log_print msg Demo.connected) /\
    prefix "Usage:" msg = true.
Proof.
  apply (usage_on_missing_argument Demo.bench cmd_psu_measure_output Demo.connected 0);
    reflexivity.
Defined.

End Boundary.

(** ** The calls a command makes *)

Module Talk.
Import Py Props MoreProps Guard.

Section Rules.

Variable P : call -> Prop.

Lemma sends_nothing {A} (m : M A) :
  (forall w, trace (snd (m w)) = trace w) -> sends P m.
Proof. intros H w. exists []. now rewrite H, app_nil_r. Qed.

Lemma sends_one {A} (m : M A) c :
  P c -> (forall w, snd (m w) = log_call c w) -> sends P m.
Proof. intros Hc H w. exists [c]. rewrite H. split; [reflexivity | now constructor]. Qed.

Lemma sends_ret {A} (a : A) : sends P (ret a).
Proof. now apply sends_nothing. Qed.

Lemma sends_raise {A} x : sends P (@raise A x).
Proof. now apply sends_nothing. Qed.

Lemma sends_print s : sends P (print s).
Proof. now apply sends_nothing. Qed.

Lemma sends_get_self : sends P get_self.
Proof. now apply sends_nothing. Qed.

Lemma sends_bind {A B} (m : M A) (k : A -> M B) :
  sends P m -> (forall a, sends P (k a)) -> sends P (bind m k).
Proof.
  intros Hm Hk w. unfold bind. destruct (Hm w) as (l & Hl & HP). revert Hl.
  destruct (m w) as [[a|x] w']; simpl; intros Hl.
  - destruct (Hk a w') as (l' & Hl' & HP'). exists (l ++ l').
    rewrite Hl', Hl, app_assoc. split; [reflexivity | now apply Forall_app].
  - exists l. now split.
Qed.

Lemma sends_try_except {A} (body : M A) handler :
  sends P body -> (forall e, sends P (handler e)) -> sends P (try_except body handler).
Proof.
  intros Hb Hh w. unfold try_except. destruct (Hb w) as (l & Hl & HP). revert Hl.
  destruct (body w) as [[a|[e|code|]] w']; simpl; intros Hl;
    try (exists l; now split).
  destruct (Hh e w') as (l' & Hl' & HP'). exists (l ++ l').
  rewrite Hl', Hl, app_assoc. split; [reflexivity | now apply Forall_app].
Qed.

Lemma sends_try_pass body : sends P body -> sends P (try_pass body).
Proof. intros H. apply sends_try_except; [exact H | intros; apply sends_ret]. Qed.

Variable env : Env.

Lemma sends_write inst msg : P (Write inst msg) -> sends P (inst_write env inst msg).
Proof. intros H. now apply (sends_one _ (Write inst msg)). Qed.

Lemma sends_query inst msg : P (Query inst msg) -> sends P (inst_query env inst msg).
Proof. intros H. now apply (sends_one _ (Query inst msg)). Qed.

Lemma sends_query_binary_values inst msg :
  P (QueryBinaryValues inst msg) -> sends P (inst_query_binary_values env inst msg).
Proof. intros H. now apply (sends_one _ (QueryBinaryValues inst msg)). Qed.

Lemma sends_write_file name content : sends P (write_file env name content).
Proof.
  apply sends_nothing. intros w. unfold write_file.
  now destruct (env_open_file env name).
Qed.

Lemma sends_require_arg arg usage k : sends P k -> sends P (require_arg arg usage k).
Proof. intros H. unfold require_arg. destruct (truthy arg); [exact H | apply sends_print]. Qed.

Lemma sends_except_visa visa other e : sends P (except_visa visa other e).
Proof. destruct e; apply sends_print. Qed.

Lemma sends_except_value_visa fmt visa other e :
  sends P (except_value_visa fmt visa other e).
Proof. destruct e; apply sends_print. Qed.

Lemma sends_except_any msg e : sends P (except_any msg e).
Proof. apply sends_print. Qed.

Lemma sends_unpack2 parts : sends P (unpack2 parts).
Proof.
  destruct parts as [|a [|b [|c l]]]; simpl; first [apply sends_ret | apply sends_raise].
Qed.

Lemma sends_unpack3 parts : sends P (unpack3 parts).
Proof.
  destruct parts as [|a [|b [|c [|d l]]]]; simpl;
    first [apply sends_ret | apply sends_raise].
Qed.

Lemma sends_print_indented xs : sends P (print_indented xs).
Proof.
  induction xs as [|x xs IH]; simpl; [apply sends_ret|].
  apply sends_bind; [apply sends_print | intros _; exact IH].
Qed.

Lemma sends_parse_floats s : sends P (parse_floats env s).
Proof.
  unfold parse_floats. destruct (float_list env _); [apply sends_raise | apply sends_ret].
Qed.

Lemma sends_item l k : sends P (item l k).
Proof. unfold item. destruct (Waveform.index l k); [apply sends_ret | apply sends_raise]. Qed.

Lemma sends_probe inst cmds :
  (forall cmd, P (Query inst cmd)) ->
  forall supported, sends P (probe env inst cmds supported).
Proof.
  intros HP. induction cmds as [|c cmds IH]; intros supported; simpl; [apply sends_ret|].
  apply sends_bind; [|intros a; apply IH].
  apply sends_try_except; [|intros _; apply sends_ret].
  apply sends_bind; [apply sends_query, HP | intros _; apply sends_ret].
Qed.

(** Past the guard, on a console whose instrument is [h]. *)
Lemma sends_guarded msg k w h :
  instrument (self w) = Some h ->
  sends P (k h) ->
  exists l, trace (snd (with_instrument msg k w)) = trace w ++ l /\ Forall P l.
Proof. intros Hw Hk. rewrite (with_instrument_some _ _ _ _ Hw). apply Hk. Qed.

End Rules.

Ltac sends_step :=
  match goal with
  | |- sends _ (bind _ _) => apply sends_bind; [| intros ?]
  | |- sends _ (try_pass _) => apply sends_try_pass
  | |- sends _ (try_except _ _) => apply sends_try_except; [| intros ?]
  | |- sends _ (require_arg _ _ _) => apply sends_require_arg
  | |- sends _ (ret _) => apply sends_ret
  | |- sends _ (raise _) => apply sends_raise
  | |- sends _ (print _) => apply sends_print
  | |- sends _ (print_indented _) => apply sends_print_indented
  | |- sends _ (except_visa _ _ _) => apply sends_except_visa
  | |- sends _ (except_value_visa _ _ _ _) => apply sends_except_value_visa
  | |- sends _ (except_any _ _) => apply sends_except_any
  | |- sends _ (probe _ _ _ _) => apply sends_probe; intros ?; reflexivity
  | |- sends _ (inst_write _ _ _) => apply sends_write; reflexivity
  | |- sends _ (inst_query _ _ _) => apply sends_query; reflexivity
  | |- sends _ (inst_query_binary_values _ _ _) =>
      apply sends_query_binary_values; reflexivity
  | |- sends _ (write_file _ _ _) => apply sends_write_file
  | |- sends _ (unpack2 _) => apply sends_unpack2
  | |- sends _ (unpack3 _) => apply sends_unpack3
  | |- sends _ (parse_floats _ _) => apply sends_parse_floats
  | |- sends _ (item _ _) => apply sends_item
  | |- sends _ (if ?b then _ else _) => destruct b
  | |- sends _ (match ?x with _ => _ end) => destruct x
  end.

(** X4.  On a connected console an instrument command only talks to the
    selected instrument: every transport call it makes is a write, a query
    or a binary query on the current handle; it never opens, lists or closes
    a resource and never touches another handle. *)
Theorem talks_to_selected_only env c arg w h :
  instrument_facing c = true ->
  instrument (self w) = Some h ->
  exists l,
    trace (snd (run env c arg w)) = trace w ++ l /\ Forall (on_handle h) l.
Proof.
  intros Hc Hw.
  destruct c; try discriminate Hc; clear Hc; autounfold with commands;
    apply (sends_guarded _ _ _ _ _ Hw); cbv zeta; repeat sends_step.
Qed.

Lemma talks_to_selected_only_witness :
  exists l,
    trace (snd (run Demo.bench cmd_afg_set_wave "SIN,1000,1.0" Demo.connected))
    = trace Demo.connected ++ l /\ Forall (on_handle 0) l.
Proof.
  apply talks_to_selected_only; reflexivity.
Defined.

End Talk.

(** ** Listing, selecting and leaving *)

Module Selection.
Import Py Props MoreProps Logic Guard Connection.

Lemma print_indented_run xs : forall w,
  print_indented xs w
  = (Ret tt,
     mkWorld (self w) (trace w) (stdout w ++ map (fun x => "  " +++ x) xs)
             (files w) (history_saves w)).
Proof.
  induction xs as [|x xs IH]; intros [c t o f h]; cbn [print_indented map].
  - unfold ret. cbn. now rewrite app_nil_r.
  - unfold bind, print. rewrite IH. unfold log_print.
    cbn [self trace stdout files history_saves app].
    now rewrite <- app_assoc.
Qed.

(** X5.  devicelist makes no call when the resource manager is missing;
    otherwise it makes the one call [list_resources] and prints either the
    notice that nothing was found, or a heading and one indented line per
    resource in the order received, or the error that the call raised. *)
Theorem devicelist_outcomes env arg w :
  (rm (self w) = false ->
   run env cmd_devicelist arg w = (Ret tt, log_print "ResourceManager not available." w))
  /\
  (forall devices,
     rm (self w) = true ->
     env_list_resources env (length (trace w)) = inr devices ->
     run env cmd_devicelist arg w
     = (Ret tt,
        mkWorld (self w) (trace w ++ [ListResources])
                (stdout w ++ resource_lines devices) (files w) (history_saves w)))
  /\
  (forall e,
     rm (self w) = true ->
     env_list_resources env (length (trace w)) = inl e ->
     run env cmd_devicelist arg w
     = (Ret tt,
        log_print ("Error listing devices: " +++ str_error e) (log_call ListResources w))).
Proof.
  cbv [run]. unfold do_devicelist, try_except, bind, get_self, rm_list_resources.
  split; [|split].
  - intros ->. reflexivity.
  - intros devices -> Hl. cbn [negb]. rewrite Hl. cbn [of_sum_error].
    destruct devices as [|d ds]; [reflexivity|].
    unfold print at 1. rewrite print_indented_run. unfold log_print, log_call.
    cbn [self trace stdout files history_saves resource_lines].
    now rewrite <- app_assoc.
  - intros e -> Hl. cbn [negb]. rewrite Hl. reflexivity.
Qed.

Lemma devicelist_outcomes_witness :
  stdout (snd (run Demo.bench cmd_devicelist EmptyString (initial_world true)))
  = ["Available VISA Resources:"; "  GPIB0::2::INSTR"].
Proof.
  rewrite (proj1 (proj2 (devicelist_outcomes Demo.bench EmptyString (initial_world true)))
             ["GPIB0::2::INSTR"] eq_refl eq_refl).
  reflexivity.
Defined.

Lemma bind_ret {A B} (m : M A) (k : A -> M B) w a w' :
  m w = (Ret a, w') -> bind m k w = k a w'.
Proof. intros H. unfold bind. now rewrite H. Qed.

Lemma try_ret {A} (body : M A) handler w a w' :
  body w = (Ret a, w') -> try_except body handler w = (Ret a, w').
Proof. intros H. unfold try_except. now rewrite H. Qed.

Lemma grows_refl w : grows w w.
Proof. repeat split; [exists [] | exists []]; now rewrite app_nil_r. Qed.

Lemma grows_trans a b c : grows a b -> grows b c -> grows a c.
Proof.
  intros (Hs & [l Hl] & [o Ho]) (Hs' & [l' Hl'] & [o' Ho']). repeat split.
  - congruence.
  - exists (l ++ l'). now rewrite Hl', Hl, app_assoc.
  - exists (o ++ o'). now rewrite Ho', Ho, app_assoc.
Qed.

Lemma grows_print s w : grows w (log_print s w).
Proof. repeat split; [exists [] | exists [s]]; simpl; now rewrite ?app_nil_r. Qed.

Lemma grows_call c w : grows w (log_call c w).
Proof. repeat split; [exists [c] | exists []]; simpl; now rewrite ?app_nil_r. Qed.

(** A computation that keeps [grows] and raises nothing returns. *)
Lemma grows_returns (m : M unit) w :
  keeps grows never m -> exists w', m w = (Ret tt, w') /\ grows w w'.
Proof.
  intros H. destruct (H w) as [HR HE]. revert HR HE.
  destruct (m w) as [[[]|x] w']; simpl; intros HR HE; [eauto|].
  destruct (HE x eq_refl).
Qed.

(** The part of a selection that follows a successful open. *)
Lemma select_tail env inst name w :
  exists w',
    (set_instrument (Some inst) ;;
     set_selected_device_id (Some name) ;;
     try_pass
       (ms <- try_except (inst_get_timeout env inst)
                (fun e => match e with
                          | AttributeError _ => ret 5000%Z
                          | _ => raise (Exception e)
                          end) ;;
        inst_set_timeout env inst ms) ;;
     s <- get_self ;;
     print ("Successfully selected and connected to: "
              +++ str_opt (selected_device_id s)) ;;
     try_pass (do_id env EmptyString)) w
    = (Ret tt, w') /\
    connection w' = (Some inst, Some name) /\
    (exists l, trace w' = trace w ++ l) /\
    In ("Successfully selected and connected to: " +++ name) (stdout w').
Proof.
  pose proof grows_refl as Hr. pose proof grows_trans as Ht.
  pose proof grows_print as Hp. pose proof grows_call as Hc.
  erewrite bind_ret by reflexivity. erewrite bind_ret by reflexivity.
  match goal with
  | |- context [bind (try_pass ?T) ?K ?w0] =>
      destruct (grows_returns (try_pass T) w0) as (w1 & H1 & Hs1 & [l1 Hl1] & [o1 Ho1]);
        [keeps_tac | rewrite (bind_ret _ K _ _ _ H1)]
  end.
  erewrite bind_ret by reflexivity. erewrite bind_ret by reflexivity.
  match goal with
  | |- context [try_pass ?T ?w0] =>
      destruct (grows_returns (try_pass T) w0) as (w2 & H2 & Hs2 & [l2 Hl2] & [o2 Ho2]);
        [unfold do_id; keeps_tac | rewrite H2]
  end.
  exists w2. split; [reflexivity|].
  cbn [log_print self trace stdout] in Hs2, Hl2, Ho2.
  cbn [set_instrument set_selected_device_id with_self self trace stdout fst snd
       selected_device_id instrument rm] in Hs1, Hl1, Ho1.
  split; [|split].
  - unfold connection. now rewrite Hs2, Hs1.
  - exists (l1 ++ l2). now rewrite Hl2, Hl1, app_assoc.
  - rewrite Ho2, Hs1. cbn [selected_device_id str_opt].
    rewrite !in_app_iff. left. right. now left.
Qed.

(** X6.  When the open attempt of a selection succeeds the console ends
    connected to the new handle under the cleaned device id, whether or not
    setting the timeout or the identification query fails afterwards; a
    connection that was open is closed first (a failure to close it is
    ignored), and the success message is printed. *)
Theorem deviceselect_success env device_id w :
  rm (self w) = true ->
  device_id <> EmptyString ->
  env_open_resource env (open_time w) (clean device_id) = None ->
  exists w' rest,
    do_deviceselect env device_id w = (Ret tt, w') /\
    connection w' = (Some (open_time w), Some (clean device_id)) /\
    trace w' = trace w
                 ++ match instrument (self w) with
                    | Some old => [Close old]
                    | None => []
                    end
                 ++ OpenResource (clean device_id) :: rest /\
    In ("Successfully selected and connected to: " +++ clean device_id) (stdout w').
Proof.
  intros Hrm Hd Hopen. unfold open_time, clean in *.
  unfold do_deviceselect.
  destruct device_id as [|ch r]; [congruence|]. cbn [truthy negb].
  rewrite (bind_ret get_self _ w (self w) w eq_refl). rewrite Hrm. cbn [negb].
  cbv zeta.
  set (name := strip_dq (strip (String ch r))) in *.
  assert (Hbody : exists w' rest,
    (s <- get_self ;;
     match instrument s with
     | Some old =>
         try_pass (inst_close env old) ;;
         set_instrument None ;;
         set_selected_device_id None
     | None => ret tt
     end ;;
     inst <- rm_open_resource env name ;;
     set_instrument (Some inst) ;;
     set_selected_device_id (Some name) ;;
     try_pass
       (ms <- try_except (inst_get_timeout env inst)
                (fun e => match e with
                          | AttributeError _ => ret 5000%Z
                          | _ => raise (Exception e)
                          end) ;;
        inst_set_timeout env inst ms) ;;
     s <- get_self ;;
     print ("Successfully selected and connected to: "
              +++ str_opt (selected_device_id s)) ;;
     try_pass (do_id env EmptyString)) w = (Ret tt, w') /\
    connection w' = (Some (length (trace w)
                           + match instrument (self w) with Some _ => 1 | None => 0 end),
                     Some name) /\
    trace w' = trace w
                 ++ match instrument (self w) with
                    | Some old => [Close old]
                    | None => []
                    end
                 ++ OpenResource name :: rest /\
    In ("Successfully selected and connected to: " +++ name) (stdout w')).
  { rewrite (bind_ret get_self _ w (self w) w eq_refl).
    destruct (instrument (self w)) as [old|] eqn:Hinst.
    - rewrite Nat.add_1_r in *.
      assert (Hclose : exists w0,
        (try_pass (inst_close env old) ;;
         set_instrument None ;; set_selected_device_id None) w = (Ret tt, w0) /\
        trace w0 = trace w ++ [Close old]).
      { unfold try_pass, try_except, bind, inst_close.
        destruct (env_close env (length (trace w)) old); eexists; split; reflexivity. }
      destruct Hclose as (w0 & H0 & Ht0).
      rewrite (bind_ret _ _ _ _ _ H0).
      assert (Hop : rm_open_resource env name w0
                    = (Ret (S (length (trace w))), log_call (OpenResource name) w0)).
      { unfold rm_open_resource. rewrite Ht0, length_app, Nat.add_1_r. cbn [length].
        now rewrite Hopen. }
      rewrite (bind_ret _ _ _ _ _ Hop).
      destruct (select_tail env (S (length (trace w))) name
                  (log_call (OpenResource name) w0)) as (w' & Hrun & Hc & [l Hl] & Hin).
      exists w', l. rewrite Hrun. repeat split; try assumption.
      rewrite Hl. cbn [log_call trace]. rewrite Ht0, <- !app_assoc. reflexivity.
    - rewrite Nat.add_0_r in *. rewrite (bind_ret (ret tt) _ w tt w eq_refl).
      assert (Hop : rm_open_resource env name w
                    = (Ret (length (trace w)), log_call (OpenResource name) w)).
      { unfold rm_open_resource. now rewrite Hopen. }
      rewrite (bind_ret _ _ _ _ _ Hop).
      destruct (select_tail env (length (trace w)) name
                  (log_call (OpenResource name) w)) as (w' & Hrun & Hc & [l Hl] & Hin).
      exists w', l. rewrite Hrun. repeat split; try assumption.
      rewrite Hl. cbn [log_call trace app]. rewrite <- app_assoc. reflexivity. }
  destruct Hbody as (w' & rest & Hrun & Hc & Htr & Hin).
  exists w', rest. rewrite (try_ret _ _ _ _ _ Hrun). repeat split; assumption.
Qed.

Lemma deviceselect_success_witness :
  exists w' rest,
    do_deviceselect Demo.bench "GPIB0::2::INSTR" Demo.connected = (Ret tt, w') /\
    connection w' = (Some 2, Some "GPIB0::2::INSTR") /\
    trace w' = trace Demo.connected ++ [Close 0] ++ OpenResource "GPIB0::2::INSTR" :: rest.
Proof.
  destruct (deviceselect_success Demo.bench "GPIB0::2::INSTR" Demo.connected)
    as (w' & rest & H1 & H2 & H3 & _); [reflexivity | discriminate | reflexivity |].
  exists w', rest. repeat split; assumption.
Defined.

(** X7.  A selection with an empty device id, or without a resource
    manager, is not attempted: one message is printed, no call is made, and
    a connection that was open stays open. *)
Theorem deviceselect_not_attempted env device_id w :
  device_id = EmptyString \/ rm (self w) = false ->
  exists msg, do_deviceselect env device_id w = (Ret tt, log_print msg w).
Proof.
  intros [-> | Hrm]; unfold do_deviceselect.
  - eexists. reflexivity.
  - destruct (truthy device_id); cbn [negb]; [|eexists; reflexivity].
    unfold bind, get_self. rewrite Hrm. eexists. reflexivity.
Qed.

Lemma deviceselect_not_attempted_witness :
  exists msg,
    do_deviceselect Demo.bench EmptyString Demo.connected
    = (Ret tt, log_print msg Demo.connected).
Proof. apply deviceselect_not_attempted. left. reflexivity. Defined.

End Selection.

(** ** Whole sessions *)

Module WholeSession.
Import Py Props MoreProps Logic Guard Connection Talk.

(** X8.  Along every session started from the fresh console, whatever the
    commands, their arguments and the behaviour of the transport, the
    console ends with the instrument handle and the selected device id both
    set or both [None]. *)
Theorem session_consistent env events rm_ok :
  consistent (snd (main env events (initial_world rm_ok))).
Proof.
  pose proof (cmdloop_consistent env events (initial_world rm_ok)
                (initial_consistent rm_ok)) as H.
  unfold main. destruct (cmdloop env events (initial_world rm_ok)) as [[a|[e|code|]] w'];
    exact H.
Qed.

Lemma sends_list_resources P env :
  P ListResources -> sends P (rm_list_resources env).
Proof. intros H. now apply (sends_one P _ ListResources). Qed.

(** Without a connection, a command other than deviceselect calls at most
    [list_resources], and leaves the console without a connection. *)
Lemma disconnected_step env c arg w :
  c <> cmd_deviceselect ->
  instrument (self w) = None ->
  instrument (self (snd (run env c arg w))) = None /\
  exists l, trace (snd (run env c arg w)) = trace w ++ l /\ Forall is_list_resources l.
Proof.
  intros Hc Hw. split; [now rewrite (same_self_run env c arg w Hc)|].
  destruct (instrument_facing c) eqn:Hf.
  - destruct (run_guarded env c arg Hf) as (msg & k & -> & _).
    rewrite (with_instrument_none _ _ _ Hw). exists []. simpl.
    now rewrite app_nil_r.
  - destruct c; try discriminate Hf; try congruence; cbv [run].
    + unfold do_devicelist.
      apply sends_bind; [apply sends_get_self | intros s].
      destruct (negb (rm s)); [apply sends_print|].
      apply sends_try_except; [|intros e; apply sends_except_any].
      apply sends_bind; [apply sends_list_resources; reflexivity | intros devices].
      destruct devices; [apply sends_print|].
      apply sends_bind; [apply sends_print | intros _; apply sends_print_indented].
    + unfold do_deviceinfo.
      destruct (negb (truthy arg)); [apply sends_print|].
      apply sends_bind; [apply sends_print | intros _; apply sends_print].
    + destruct (Exit.do_exit_raises env arg w) as [out ->]. rewrite Hw.
      exists []. split; [reflexivity | constructor].
    + unfold do_EOF, bind, print.
      destruct (Exit.do_exit_raises env arg (log_print EmptyString w)) as [out ->].
      cbn [log_print self snd trace]. rewrite Hw.
      exists []. split; [reflexivity | constructor].
Qed.

Lemma disconnected_loop env events : forall w,
  never_selects events = true ->
  instrument (self w) = None ->
  exists l, trace (snd (cmdloop env events w)) = trace w ++ l /\
            Forall is_list_resources l.
Proof.
  induction events as [|[c arg| |] events IH]; intros w Hn Hw; cbn [cmdloop].
  - apply (disconnected_step env cmd_EOF EmptyString w); [discriminate | exact Hw].
  - assert (Hc : c <> cmd_deviceselect) by (intros ->; discriminate Hn).
    assert (Hn' : never_selects events = true) by (destruct c; try exact Hn; discriminate Hn).
    destruct (disconnected_step env c arg w Hc Hw) as (Hi & l & Hl & HP).
    unfold bind. revert Hi Hl. destruct (run env c arg w) as [[[]|x] w1]; simpl;
      intros Hi Hl; [|now exists l].
    destruct (IH w1 Hn' Hi) as (l' & Hl' & HP').
    exists (l ++ l'). rewrite Hl', Hl, app_assoc. split; [reflexivity|].
    now apply Forall_app.
  - apply IH; assumption.
  - exists []. simpl. now rewrite app_nil_r.
Qed.

(** X9.  A session in which deviceselect is never given sends nothing to
    any instrument: whatever commands are typed, the only calls made are
    [list_resources] calls on the resource manager. *)
Theorem unselected_session_is_silent env events rm_ok :
  never_selects events = true ->
  Forall is_list_resources (trace (snd (main env events (initial_world rm_ok)))).
Proof.
  intros Hn.
  destruct (disconnected_loop env events (initial_world rm_ok) Hn eq_refl)
    as (l & Hl & HP).
  unfold main. revert Hl.
  destruct (cmdloop env events (initial_world rm_ok)) as [[a|[e|code|]] w'];
    simpl; intros ->; exact HP.
Qed.

Lemma unselected_session_is_silent_witness :
  Forall is_list_resources
    (trace (snd (main Demo.bench
                   [Dispatch cmd_write "*RST"; Dispatch cmd_devicelist EmptyString;
                    Dispatch cmd_oscope_capture_data "wave.csv"]
                   (initial_world true)))).
Proof. apply unselected_session_is_silent. reflexivity. Defined.

(** X10.  exit tries to save the history, closes the open connection
    exactly once when there is one (and makes no call otherwise), prints the
    farewell last, and leaves the console attributes and the files as they
    were, whether or not saving or closing fails. *)
Theorem exit_cleanup env arg w :
  exists w',
    do_exit env arg w = (Raise (SystemExit 0), w') /\
    self w' = self w /\
    files w' = files w /\
    trace w' = trace w ++ match instrument (self w) with
                          | Some inst => [Close inst]
                          | None => []
                          end /\
    last (stdout w') EmptyString = "Exiting console. Goodbye!" /\
    history_saves w' = match env_write_history_file env with
                       | None => S (history_saves w)
                       | Some _ => history_saves w
                       end.
Proof.
  destruct (Exit.do_exit_raises env arg w) as [out ->].
  eexists. split; [reflexivity|]. cbn [self files trace stdout history_saves].
  repeat split. now rewrite app_assoc, last_last.
Qed.

End WholeSession.

(** ** More on the capture commands *)

Module CaptureMore.
Import Py Props MoreProps Guard Composite Capture.
Import Talk.

(** A command that starts with a query makes that query first. *)
Lemma query_first env inst msg {A} (k : string -> M A) handler w :
  (forall a, sends (fun _ => True) (k a)) ->
  (forall e, sends (fun _ => True) (handler e)) ->
  exists rest,
    trace (snd (try_except (bind (inst_query env inst msg) k) handler w))
    = trace w ++ Query inst msg :: rest.
Proof.
  intros Hk Hh. unfold try_except at 1, bind at 1, inst_query.
  destruct (env_query env (length (trace w)) inst msg) as [e | a]; cbn [of_sum_error].
  - destruct (Hh e (log_call (Query inst msg) w)) as (l & Hl & _).
    exists l. rewrite Hl. cbn [trace log_call]. now rewrite <- app_assoc.
  - destruct (Talk.sends_try_except _ (k a) handler (Hk a) Hh (log_call (Query inst msg) w))
      as (l & Hl & _).
    exists l. unfold try_except in Hl. rewrite Hl. cbn [trace log_call].
    now rewrite <- app_assoc.
Qed.

(** X11.  oscope_capture_data on a connected console with a non-empty ASCII
    argument reads the extension of the stripped file name, the text after
    its last dot and the whole name when it has no dot.  When the extension,
    upper-cased, is neither CSV nor TXT, the command makes no transport call
    and writes no file: it prints the unsupported-format message and
    returns.  When it is one of them (as for the name [csv]) the capture
    starts: the first call made is the preamble query. *)
Theorem capture_data_unsupported env arg w inst ext :
  instrument (self w) = Some inst ->
  arg <> EmptyString ->
  ascii_text arg = true ->
  names_extension (strip arg) ext ->
  (data_format (upper ext) = false ->
   run env cmd_oscope_capture_data arg w
   = (Ret tt, log_print "Unsupported format for data capture. Use CSV or TXT." w))
  /\
  (data_format (upper ext) = true ->
   exists rest,
     trace (snd (run env cmd_oscope_capture_data arg w))
     = trace w ++ Query inst ":WAVeform:PREamble?" :: rest).
Proof.
  intros Hinst Harg _ Hext. unfold data_format.
  cbv [run]. unfold do_oscope_capture_data.
  rewrite (with_instrument_some _ _ _ _ Hinst).
  unfold require_arg. rewrite (truthy_nonempty _ Harg).
  cbv zeta. rewrite (extension_named _ _ Hext).
  split; intros ->; cbn [negb]; [reflexivity|].
  apply query_first; intros; repeat Talk.sends_step.
Qed.

Lemma capture_data_unsupported_witness :
  run Demo.bench cmd_oscope_capture_data "wave.xlsx" Demo.connected
  = (Ret tt, log_print "Unsupported format for data capture. Use CSV or TXT."
               Demo.connected)
  /\
  exists rest,
    trace (snd (run Demo.bench cmd_oscope_capture_data "csv" Demo.connected))
    = trace Demo.connected ++ Query 0 ":WAVeform:PREamble?" :: rest.
Proof.
  split.
  - apply (proj1 (capture_data_unsupported Demo.bench "wave.xlsx" Demo.connected 0 "xlsx"
             eq_refl ltac:(discriminate) eq_refl
             (conj eq_refl (or_intror (ex_intro _ "wave" eq_refl))))).
    reflexivity.
  - apply (proj2 (capture_data_unsupported Demo.bench "csv" Demo.connected 0 "csv"
             eq_refl ltac:(discriminate) eq_refl (conj eq_refl (or_introl eq_refl)))).
    reflexivity.
Defined.

(** X12.  When both queries answer, both answers parse, the preamble has
    at least nine fields and the file can be opened, oscope_capture_data
    makes exactly three calls in order (preamble query, ASCII format write,
    data query), writes exactly one file under the stripped name, holding
    the decoded pairs as CSV or as text after the extension, and prints the
    number of samples. *)
Theorem capture_data_saves env arg w inst
    preamble_str preamble raw_data_str raw_data :
  instrument (self w) = Some inst ->
  arg <> EmptyString ->
  data_format (extension_of arg) = true ->
  env_query env (length (trace w)) inst ":WAVeform:PREamble?" = inr preamble_str ->
  float_list env (split comma (strip preamble_str)) = inr preamble ->
  9 <= length preamble ->
  env_write env (S (length (trace w))) inst ":WAVeform:FORMat ASCii" = None ->
  env_query env (S (S (length (trace w)))) inst ":WAVeform:DATA?" = inr raw_data_str ->
  float_list env (split comma (strip raw_data_str)) = inr raw_data ->
  env_open_file env (strip arg) = None ->
  exists processed_data w',
    Waveform.decode preamble raw_data = Some processed_data /\
    do_oscope_capture_data env arg w = (Ret tt, w') /\
    files w'
    = files w
        ++ [(strip arg,
             if String.eqb (extension_of arg) "CSV"
             then csv_content env processed_data else txt_content processed_data)] /\
    trace w'
    = trace w ++ [Query inst ":WAVeform:PREamble?"; Write inst ":WAVeform:FORMat ASCii";
                  Query inst ":WAVeform:DATA?"] /\
    stdout w'
    = stdout w
        ++ ["Waveform data successfully processed and saved to: " +++ strip arg
              +++ " (" +++ str_nat (length raw_data) +++ " points)."].
Proof.
  intros Hinst Harg Hext Hq Hp Hlen Hw Hq2 Hraw Hfile.
  destruct (capture_data_writes env arg w inst preamble_str preamble raw_data_str
              raw_data Hinst Harg Hext Hq Hp Hlen Hw Hq2 Hraw Hfile)
    as (processed & Hd & Hrun).
  exists processed. eexists. split; [exact Hd|]. split; [exact Hrun|].
  cbn [log_print log_file log_call files trace stdout].
  rewrite <- !app_assoc. repeat split.
Qed.

Lemma capture_data_saves_witness :
  exists processed_data w',
    Waveform.decode [0; 0; 0; 0; 0; 1e-6; 0; 0.01; 127; 0]%float [127; 227; 27]%float
    = Some processed_data /\
    do_oscope_capture_data Demo.bench "wave.txt" Demo.connected = (Ret tt, w') /\
    files w' = [("wave.txt", txt_content processed_data)].
Proof.
  destruct (capture_data_saves Demo.bench "wave.txt" Demo.connected 0
              "0,0,0,0,0,1e-6,0,0.01,127,0" [0; 0; 0; 0; 0; 1e-6; 0; 0.01; 127; 0]%float
              "127,227,27" [127; 227; 27]%float)
    as (p & w' & H1 & H2 & H3 & _);
    [reflexivity | discriminate | reflexivity | reflexivity | reflexivity | simpl; lia
    | reflexivity | reflexivity | reflexivity | reflexivity |].
  exists p, w'. repeat split; assumption.
Defined.

(** X13.  A screen capture with an accepted extension makes the single
    binary query [:DISPlay:DATA? <EXT>] with the upper-cased extension; a
    non-empty block is written unchanged to the file of the stripped name
    when it can be opened, and no file is recorded when it cannot. *)
Theorem screen_capture_saves env c arg w inst image_data :
  screen_capture_command c = true ->
  instrument (self w) = Some inst ->
  arg <> EmptyString ->
  supported_image (extension_of arg) = true ->
  env_query_binary_values env (length (trace w)) inst
    (":DISPlay:DATA? " +++ extension_of arg) = inr image_data ->
  image_data <> EmptyString ->
  exists w',
    run env c arg w = (Ret tt, w') /\
    trace w' = trace w ++ [QueryBinaryValues inst (":DISPlay:DATA? " +++ extension_of arg)] /\
    match env_open_file env (strip arg) with
    | None => files w' = files w ++ [(strip arg, image_data)]
    | Some _ => files w' = files w
    end.
Proof.
  intros Hc Hinst Harg Hext Himg Hdata. unfold extension_of, supported_image in *.
  assert (Hrun : exists u r s h, run env c arg = screen_capture env u r s h arg)
    by (destruct c; try discriminate Hc; do 4 eexists; reflexivity).
  destruct Hrun as (u & r & s & h & ->). clear Hc.
  unfold screen_capture. rewrite (with_instrument_some _ _ _ _ Hinst).
  unfold require_arg. rewrite (truthy_nonempty _ Harg).
  unfold try_except, bind. cbv zeta. rewrite Hext.
  unfold print at 1, inst_query_binary_values.
  cbn [trace log_print]. rewrite Himg. cbn [of_sum_error].
  rewrite (truthy_nonempty _ Hdata). cbn [negb].
  unfold write_file. destruct (env_open_file env (strip arg)) as [e|].
  - destruct e; eexists; (split; [reflexivity|]); split; reflexivity.
  - eexists. split; [reflexivity|]. split; reflexivity.
Qed.

Lemma screen_capture_saves_witness :
  exists w',
    run Demo.bench cmd_oscope_screen_capture "shot.jpeg" Demo.connected = (Ret tt, w') /\
    files w' = [("shot.jpeg", "PNG-bytes")].
Proof.
  destruct (screen_capture_saves Demo.bench cmd_oscope_screen_capture "shot.jpeg"
              Demo.connected 0 "PNG-bytes")
    as (w' & H1 & _ & H3);
    [reflexivity | reflexivity | discriminate | reflexivity | reflexivity | discriminate |].
  exists w'. split; [exact H1 | exact H3].
Defined.

End CaptureMore.

(** ** Letter case of file names *)

Module LetterCase.
Import Py Props MoreProps.

Section CaseMap.

(** A map on characters that moves neither dots nor blanks and is undone
    by upper-casing: [lower_char] and [upper_char] are the two instances. *)
Variable f : ascii -> ascii.
Hypothesis f_dot : forall c, Ascii.eqb (f c) dot = Ascii.eqb c dot.
Hypothesis f_space : forall c, is_space (f c) = is_space c.
Hypothesis f_upper : forall c, upper_char (f c) = upper_char c.

Lemma lstrip_map s :
  lstrip_by is_space (map_chars f s) = map_chars f (lstrip_by is_space s).
Proof.
  induction s as [|c r IH]; cbn [map_chars lstrip_by]; [reflexivity|].
  rewrite f_space. now destruct (is_space c).
Qed.

Lemma rstrip_map s :
  rstrip_by is_space (map_chars f s) = map_chars f (rstrip_by is_space s).
Proof.
  induction s as [|c r IH]; cbn [map_chars rstrip_by]; [reflexivity|].
  rewrite IH, f_space.
  destruct (rstrip_by is_space r); cbn [map_chars]; [now destruct (is_space c) | reflexivity].
Qed.

Lemma strip_map s : strip (map_chars f s) = map_chars f (strip s).
Proof. unfold strip, strip_by. now rewrite lstrip_map, rstrip_map. Qed.

Lemma split_map s : split dot (map_chars f s) = map (map_chars f) (split dot s).
Proof.
  induction s as [|c r IH]; cbn [map_chars split map]; [reflexivity|].
  rewrite f_dot, IH. destruct (Ascii.eqb c dot); [reflexivity|].
  now destruct (split dot r).
Qed.

Lemma last_map (l : list string) :
  last (map (map_chars f) l) EmptyString = map_chars f (last l EmptyString).
Proof.
  induction l as [|a [|b l] IH]; [reflexivity | reflexivity |].
  exact IH.
Qed.

Lemma upper_map s : upper (map_chars f s) = upper s.
Proof.
  unfold upper. induction s as [|c r IH]; cbn [map_chars]; [reflexivity|].
  now rewrite f_upper, IH.
Qed.

Lemma extension_of_map arg : extension_of (map_chars f arg) = extension_of arg.
Proof.
  unfold extension_of, file_extension.
  now rewrite strip_map, split_map, last_map, upper_map.
Qed.

End CaseMap.

Ltac by_cases_on_char :=
  intros c; destruct c as [[] [] [] [] [] [] [] []]; reflexivity.

(** X14.  For an ASCII argument the extension a capture command reads does
    not depend on the letter case of the file name: lower-casing or
    upper-casing the argument gives the same extension, hence the same
    accepted or rejected format. *)
Theorem extension_ignores_case arg :
  ascii_text arg = true ->
  extension_of (lower arg) = extension_of arg /\
  extension_of (upper arg) = extension_of arg /\
  supported_image (extension_of (lower arg)) = supported_image (extension_of arg) /\
  data_format (extension_of (lower arg)) = data_format (extension_of arg).
Proof.
  intros _.
  assert (Hl : extension_of (lower arg) = extension_of arg)
    by (apply extension_of_map; by_cases_on_char).
  assert (Hu : extension_of (upper arg) = extension_of arg)
    by (apply extension_of_map; by_cases_on_char).
  now rewrite Hl, Hu.
Qed.

Lemma extension_ignores_case_witness :
  extension_of (lower " Shot.Png ") = extension_of " Shot.Png " /\
  extension_of (upper " Shot.Png ") = extension_of " Shot.Png ".
Proof.
  destruct (extension_ignores_case " Shot.Png " eq_refl) as (Hl & Hu & _).
  split; [exact Hl | exact Hu].
Defined.

End LetterCase.

(** ** Sequences of calls *)

Module Sequences.
Import Py Props MoreProps Guard Composite Selection.



Lemma probe_run env inst cmds : forall supported w,
  exists supported',
    probe env inst cmds supported w
    = (Ret supported',
       mkWorld (self w) (trace w ++ map (Query inst) cmds) (stdout w) (files w)
               (history_saves w)).
Proof.
  induction cmds as [|c cmds IH]; intros supported [s t o f hs]; cbn [probe map].
  - exists supported. unfold ret. cbn [self trace stdout files history_saves].
    now rewrite app_nil_r.
  - unfold bind at 1. unfold try_except, bind, inst_query, ret.
    cbn [self trace stdout files history_saves log_call].
    destruct (env_query env (length t) inst c); cbn [of_sum_error];
      match goal with
      | |- exists _, probe _ _ _ ?sup ?w0 = _ =>
          destruct (IH sup w0) as [sup' ->]
      end;
      exists sup'; unfold log_call; cbn [self trace stdout files history_saves];
      now rewrite <- app_assoc.
Qed.

Lemma idn_step env inst w :
  exists line,
    try_except (r <- inst_query env inst "*IDN?" ;; print ("IDN: " +++ strip r))
               (fun _ => print "IDN query not supported or failed.") w
    = (Ret tt, log_print line (log_call (Query inst "*IDN?") w)).
Proof.
  unfold try_except, bind, inst_query.
  destruct (env_query env (length (trace w)) inst "*IDN?"); eexists; reflexivity.
Qed.

Lemma opt_step env inst w :
  exists line,
    try_except (r <- inst_query env inst "*OPT?" ;; print ("Options: " +++ strip r))
               (fun _ => print "Options query not supported.") w
    = (Ret tt, log_print line (log_call (Query inst "*OPT?") w)).
Proof.
  unfold try_except, bind, inst_query.
  destruct (env_query env (length (trace w)) inst "*OPT?"); eexists; reflexivity.
Qed.

(** X16.  check_capabilities on a connected console always makes the same
    nine queries in the same order, the identification, the options and the
    seven probes, whichever of them fail, and returns normally; it sends no
    write. *)
Theorem capabilities_probe env arg w h :
  instrument (self w) = Some h ->
  fst (run env cmd_check_capabilities arg w) = Ret tt /\
  trace (snd (run env cmd_check_capabilities arg w))
  = trace w ++ map (Query h) ("*IDN?" :: "*OPT?" :: candidate_cmds).
Proof.
  intros Hinst. cbv [run]. unfold do_check_capabilities.
  rewrite (with_instrument_some _ _ _ _ Hinst).
  assert (Hbody : exists w',
    (print ("Checking instrument capabilities..." +++ lf) ;;
     try_except (r <- inst_query env h "*IDN?" ;; print ("IDN: " +++ strip r))
                (fun _ => print "IDN query not supported or failed.") ;;
     try_except (r <- inst_query env h "*OPT?" ;; print ("Options: " +++ strip r))
                (fun _ => print "Options query not supported.") ;;
     supported <- probe env h candidate_cmds [] ;;
     match supported with
     | _ :: _ =>
         print (lf +++ "Likely supported SCPI commands (best-effort probe):") ;;
         print_indented supported
     | [] => print (lf +++ "Could not auto-detect SCPI feature set from probes.")
     end) w = (Ret tt, w') /\
    trace w' = trace w ++ map (Query h) ("*IDN?" :: "*OPT?" :: candidate_cmds)).
  { erewrite bind_ret by reflexivity.
    destruct (idn_step env h (log_print ("Checking instrument capabilities..." +++ lf) w))
      as [l1 H1].
    rewrite (bind_ret _ _ _ _ _ H1).
    match goal with
    | |- context [bind _ _ ?w0] => destruct (opt_step env h w0) as [l2 H2]
    end.
    rewrite (bind_ret _ _ _ _ _ H2).
    match goal with
    | |- context [bind (probe _ _ _ _) _ ?w0] =>
        destruct (probe_run env h candidate_cmds [] w0) as [sup Hp]
    end.
    rewrite (bind_ret _ _ _ _ _ Hp).
    destruct sup as [|x xs].
    - eexists. split; [reflexivity|].
      unfold log_print, log_call. cbn [trace self stdout files history_saves map].
      now rewrite <- !app_assoc.
    - erewrite bind_ret by reflexivity. rewrite print_indented_run.
      eexists. split; [reflexivity|].
      unfold log_print, log_call. cbn [trace self stdout files history_saves map].
      now rewrite <- !app_assoc. }
  destruct Hbody as (w' & Hrun & Htr).
  rewrite (try_ret _ _ _ _ _ Hrun). split; [reflexivity | exact Htr].
Qed.

Lemma capabilities_probe_witness :
  trace (snd (run Demo.unplugged cmd_check_capabilities EmptyString Demo.connected))
  = trace Demo.connected ++ map (Query 0) ("*IDN?" :: "*OPT?" :: candidate_cmds).
Proof. apply capabilities_probe. reflexivity. Defined.

Lemma str_in_In x l : str_in x l = true -> In x l.
Proof.
  unfold str_in. intros H. apply existsb_exists in H as (y & Hy & He).
  apply String.eqb_eq in He. now subst.
Qed.

Ltac no_call :=
  exists []; split; [now rewrite app_nil_r | split; [simpl; lia | constructor]].

(** X17.  The commands that check a keyword (dmm_autoranging,
    oscope_set_trigger_slope, eload_set_mode, psu_measure_output,
    eload_measure_input) send at most one message, and only one of their
    fixed messages: whatever the argument, nothing else reaches the
    instrument. *)
Theorem checked_keyword_messages env c arg w h :
  checked_keyword c = true ->
  instrument (self w) = Some h ->
  exists l,
    trace (snd (run env c arg w)) = trace w ++ l /\
    length l <= 1 /\
    Forall (one_of h (allowed_messages c)) l.
Proof.
  intros Hc Hinst.
  destruct c; try discriminate Hc; clear Hc; autounfold with commands;
    rewrite (with_instrument_some _ _ _ _ Hinst); cbv zeta.
  - unfold require_arg. destruct (truthy arg); [|no_call].
    unfold try_except, bind.
    destruct (str_in (upper arg) ["ON"; "OFF"; "1"; "0"]) eqn:E; cbn [negb]; [|no_call].
    unfold inst_write.
    exists [Write h (":SENSe:RANGe:AUTO " +++ upper arg)].
    split; [destruct (env_write env _ h _) as [[]|]; reflexivity|].
    split; [simpl; lia|]. constructor; [|constructor].
    exists (":SENSe:RANGe:AUTO " +++ upper arg).
    split; [apply in_map, str_in_In, E | now left].
  - unfold require_arg. destruct (truthy arg); [|no_call].
    unfold try_except, bind.
    destruct (split comma arg) as [|a [|b [|x l]]]; cbn [unpack2 raise ret];
      try (cbn [except_value_visa print snd log_print trace]; no_call).
    destruct (str_in (upper (strip b)) ["POS"; "NEG"; "EITH"]) eqn:E; cbn [negb];
      [|no_call].
    unfold inst_write.
    exists [Write h (":TRIGger:EDGE:SLOpe " +++ upper (strip b))].
    split; [destruct (env_write env _ h _) as [[]|]; reflexivity|].
    split; [simpl; lia|]. constructor; [|constructor].
    exists (":TRIGger:EDGE:SLOpe " +++ upper (strip b)).
    split; [apply in_map, str_in_In, E | now left].
  - destruct (str_in (upper (strip arg)) ["VOLT"; "CURR"]) eqn:E; cbn [negb]; [|no_call].
    unfold try_except, bind, inst_query.
    exists [Query h (":MEASure:" +++ upper (strip arg) +++ "?")].
    split; [destruct (env_query env _ h _) as [[]|]; reflexivity|].
    split; [simpl; lia|]. constructor; [|constructor].
    exists (":MEASure:" +++ upper (strip arg) +++ "?").
    split; [|now right].
    apply (in_map (fun s => ":MEASure:" +++ s +++ "?") ["VOLT"; "CURR"]), str_in_In, E.
  - unfold require_arg. destruct (truthy arg); [|no_call].
    unfold try_except, bind.
    destruct (str_in (upper (strip arg)) ["CURR"; "VOLT"; "RES"; "POW"]) eqn:E;
      cbn [negb]; [|no_call].
    unfold inst_write.
    exists [Write h (":FUNCtion:MODE " +++ upper (strip arg))].
    split; [destruct (env_write env _ h _) as [[]|]; reflexivity|].
    split; [simpl; lia|]. constructor; [|constructor].
    exists (":FUNCtion:MODE " +++ upper (strip arg)).
    split; [apply in_map, str_in_In, E | now left].
  - destruct (str_in (upper (strip arg)) ["VOLT"; "CURR"]) eqn:E; cbn [negb]; [|no_call].
    unfold try_except, bind, inst_query.
    exists [Query h (":MEASure:" +++ upper (strip arg) +++ "?")].
    split; [destruct (env_query env _ h _) as [[]|]; reflexivity|].
    split; [simpl; lia|]. constructor; [|constructor].
    exists (":MEASure:" +++ upper (strip arg) +++ "?").
    split; [|now right].
    apply (in_map (fun s => ":MEASure:" +++ s +++ "?") ["VOLT"; "CURR"]), str_in_In, E.
Qed.

Lemma checked_keyword_messages_witness :
  exists l,
    trace (snd (run Demo.bench cmd_eload_set_mode "volt; *RST" Demo.connected))
    = trace Demo.connected ++ l /\ length l <= 1.
Proof.
  destruct (checked_keyword_messages Demo.bench cmd_eload_set_mode "volt; *RST"
              Demo.connected 0 eq_refl eq_refl) as (l & H1 & H2 & _).
  exists l. split; assumption.
Defined.

Lemma split_two_has_comma arg a b :
  split comma arg = [a; b] -> contains_char comma arg = true.
Proof.
  intros H. destruct (contains_char comma arg) eqn:E; [reflexivity|].
  rewrite (Capture.split_no_sep _ _ E) in H. discriminate H.
Qed.

(** X20.  oscope_set_trigger_level, oscope_set_trigger_slope and
    afg_psu_slew_set read a channel before the value but never send it: two
    arguments that differ in the channel part only lead to the same
    transport calls. *)
Theorem channel_not_sent env c arg1 arg2 w h chan1 chan2 value :
  takes_channel c = true ->
  instrument (self w) = Some h ->
  split comma arg1 = [chan1; value] ->
  split comma arg2 = [chan2; value] ->
  trace (snd (run env c arg1 w)) = trace (snd (run env c arg2 w)).
Proof.
  intros Hc Hinst H1 H2.
  pose proof (split_two_has_comma _ _ _ H1) as C1.
  pose proof (split_two_has_comma _ _ _ H2) as C2.
  assert (T1 : truthy arg1 = true) by (destruct arg1; [discriminate C1 | reflexivity]).
  assert (T2 : truthy arg2 = true) by (destruct arg2; [discriminate C2 | reflexivity]).
  destruct c; try discriminate Hc; clear Hc; autounfold with commands;
    rewrite !(with_instrument_some _ _ _ _ Hinst);
    unfold require_arg; rewrite T1, T2, ?C1, ?C2, H1, H2;
    unfold try_except, bind, unpack2, ret, inst_write; cbv zeta;
    try (destruct (negb (str_in (upper (strip value)) ["POS"; "NEG"; "EITH"]));
         [reflexivity|]);
    destruct (env_write env (length (trace w)) h _) as [[]|]; reflexivity.
Qed.

Lemma channel_not_sent_witness :
  trace (snd (run Demo.bench cmd_oscope_set_trigger_level "1,0.5" Demo.connected))
  = trace (snd (run Demo.bench cmd_oscope_set_trigger_level "4,0.5" Demo.connected)).
Proof.
  apply (channel_not_sent Demo.bench cmd_oscope_set_trigger_level "1,0.5" "4,0.5"
           Demo.connected 0 "1" "4" "0.5"); reflexivity.
Defined.

(** X21.  The single-step commands make exactly one transport call on the
    selected instrument, whether it succeeds or fails: on a connected
    console (and with a non-empty argument for those that need one) nothing
    is retried and nothing else is sent. *)
Theorem one_call_no_retry env c arg w h :
  single_call c = true ->
  instrument (self w) = Some h ->
  (needs_argument c = true -> arg <> EmptyString) ->
  exists call,
    trace (snd (run env c arg w)) = trace w ++ [call] /\ on_handle h call.
Proof.
  intros Hc Hinst Harg.
  destruct c; try discriminate Hc; clear Hc; autounfold with commands;
    rewrite (with_instrument_some _ _ _ _ Hinst);
    unfold require_arg; try rewrite (truthy_nonempty _ (Harg eq_refl));
    unfold try_except, bind, inst_write, inst_query; cbv zeta;
    match goal with
    | |- context [env_write ?e ?t ?i ?m] =>
        exists (Write i m); destruct (env_write e t i m) as [[]|]
    | |- context [env_query ?e ?t ?i ?m] =>
        exists (Query i m); destruct (env_query e t i m) as [[]|]
    end;
    cbn [of_option_error of_sum_error];
    repeat match goal with
           | |- context [if ?b then _ else _] => destruct b
           end;
    (split; [reflexivity | reflexivity]).
Qed.

Lemma one_call_no_retry_witness :
  exists call,
    trace (snd (run Demo.unplugged cmd_write "*RST" Demo.connected))
    = trace Demo.connected ++ [call] /\ on_handle 0 call.
Proof.
  apply one_call_no_retry; [reflexivity | reflexivity | discriminate].
Defined.

End Sequences.

(** ** Decoding and reading back *)

Module Tables.
Import Py Fmt Props MoreProps Waveform FileExport.

Lemma process_from_app X Y R a : forall i b,
  process_from X Y R i (a ++ b)
  = process_from X Y R i a ++ process_from X Y R (i + length a) b.
Proof.
  induction a as [|r a IH]; intros i b; cbn [app process_from length].
  - now rewrite Nat.add_0_r.
  - rewrite IH. now rewrite Nat.add_succ_r.
Qed.

Lemma process_from_firstn X Y R k : forall i raw,
  firstn k (process_from X Y R i raw) = process_from X Y R i (firstn k raw).
Proof.
  induction k as [|k IH]; intros i [|r raw]; cbn [firstn process_from]; try reflexivity.
  now rewrite IH.
Qed.

(** X18.  Decoding is stable under extension and truncation of the
    capture: the pairs of the first samples do not depend on the samples
    that follow, decoding a longer capture only appends pairs (numbered on
    from the length of the first part), and the voltages depend on the
    sample values alone, not on their positions. *)
Theorem decode_prefix_stable X Y R :
  (forall a b,
     process_data X Y R (a ++ b)
     = process_data X Y R a ++ process_from X Y R (length a) b) /\
  (forall k raw,
     firstn k (process_data X Y R raw) = process_data X Y R (firstn k raw)) /\
  (forall raw,
     map snd (process_data X Y R raw) = map (fun r => (Y * (r - R))%float) raw).
Proof.
  unfold process_data. split; [|split].
  - intros a b. now rewrite process_from_app.
  - intros k raw. apply process_from_firstn.
  - intros raw. generalize 0. induction raw as [|r raw IH]; intros i;
      cbn [process_from map snd]; [reflexivity | now rewrite IH].
Qed.

Lemma contains_append c a b :
  contains_char c (a +++ b) = contains_char c a || contains_char c b.
Proof.
  induction a as [|x a IH]; cbn [String.append contains_char]; [reflexivity|].
  now rewrite IH, orb_assoc.
Qed.

Lemma split_at_sep sep a b :
  contains_char sep a = false -> split sep (a +++ String sep b) = a :: split sep b.
Proof.
  induction a as [|x a IH]; cbn [String.append contains_char split].
  - now rewrite Ascii.eqb_refl.
  - intros H. apply orb_false_iff in H as [Hx Ha]. rewrite Hx, (IH Ha). reflexivity.
Qed.

Lemma append_nil_r s : s +++ EmptyString = s.
Proof. induction s as [|c s IH]; cbn [String.append]; [reflexivity | now rewrite IH]. Qed.

Lemma concat_cons a l :
  String.concat EmptyString (a :: l) = a +++ String.concat EmptyString l.
Proof. destruct l; cbn [String.concat String.append]; [now rewrite append_nil_r | reflexivity]. Qed.

Section Separator.

(** A character that no formatted number holds: not a digit, and none of
    the sign, point and exponent marks or of the letters of nan and inf. *)
Variable c : ascii.
Hypothesis c_digit : is_digit c = false.
Hypothesis c_mark : contains_char c "-.e+naif" = false.

Lemma digits_without s : all_digits s = true -> contains_char c s = false.
Proof.
  induction s as [|x s IH]; cbn [all_digits contains_char]; [reflexivity|].
  intros H. apply andb_true_iff in H as [Hx Hs]. rewrite (IH Hs), orb_false_r.
  destruct (Ascii.eqb_spec x c) as [->|]; [congruence | reflexivity].
Qed.

Lemma marks :
  Ascii.eqb "-" c = false /\ Ascii.eqb "." c = false /\ Ascii.eqb "e" c = false /\
  Ascii.eqb "+" c = false /\ Ascii.eqb "n" c = false /\ Ascii.eqb "a" c = false /\
  Ascii.eqb "i" c = false /\ Ascii.eqb "f" c = false.
Proof.
  cbn [contains_char] in c_mark.
  repeat (apply orb_false_iff in c_mark as [? c_mark]). repeat split; assumption.
Qed.

Lemma format_without prec x : contains_char c (format_e prec x) = false.
Proof.
  destruct marks as (Hm & Hp & He & Hpl & Hn & Ha & Hi & Hf).
  destruct (format_e_shape prec x) as [Hs | Hin].
  - destruct Hs as (sign & d & frac & esign & edigits & -> & Hsign & Hd & _ & Hfrac
                    & Hesign & _ & Hdig).
    rewrite !contains_append. cbn [contains_char].
    rewrite !contains_append. cbn [contains_char].
    rewrite (digits_without _ Hfrac), (digits_without _ Hdig), Hp, He.
    assert (Hdc : Ascii.eqb d c = false)
      by (destruct (Ascii.eqb_spec d c) as [->|]; [congruence | reflexivity]).
    rewrite Hdc.
    destruct Hsign as [-> | ->], Hesign as [-> | ->]; cbn [contains_char];
      rewrite ?Hm, ?Hpl; reflexivity.
  - cbn [In] in Hin. destruct Hin as [<- | [<- | [<- | []]]]; cbn [contains_char];
      rewrite ?Hm, ?Hn, ?Ha, ?Hi, ?Hf; reflexivity.
Qed.

End Separator.

Lemma no_lf x : contains_char lf_char (format_6e x) = false.
Proof. apply format_without; reflexivity. Qed.

Lemma no_tab x : contains_char tab_char (format_6e x) = false.
Proof. apply format_without; reflexivity. Qed.

Lemma split_lines rows :
  split lf_char (String.concat EmptyString (map txt_line rows))
  = map (fun tv => format_6e (fst tv) +++ tab +++ format_6e (snd tv)) rows
      ++ [EmptyString].
Proof.
  induction rows as [|[t v] rows IH]; [reflexivity|].
  cbn [map fst snd]. rewrite concat_cons. unfold txt_line at 1.
  replace ((format_6e t +++ tab +++ format_6e v +++ lf)
             +++ String.concat EmptyString (map txt_line rows))
    with ((format_6e t +++ tab +++ format_6e v)
            +++ String lf_char (String.concat EmptyString (map txt_line rows))).
  - rewrite split_at_sep, IH; [reflexivity|].
    rewrite !contains_append, !no_lf. reflexivity.
  - rewrite !append_assoc. reflexivity.
Qed.

(** X19.  The text export reads back as a table: split at line feeds it
    gives the header, then one line per pair in order, then the empty
    remainder after the last line feed; and each data line split at tabs
    gives exactly its two formatted numbers. *)
Theorem txt_reads_back processed_data :
  split lf_char (txt_content processed_data)
  = ("Time (s)" +++ tab +++ "Voltage (V)")
      :: map (fun tv => format_6e (fst tv) +++ tab +++ format_6e (snd tv)) processed_data
      ++ [EmptyString]
  /\
  forall t v,
    split tab_char (format_6e t +++ tab +++ format_6e v) = [format_6e t; format_6e v].
Proof.
  split.
  - unfold txt_content.
    replace (("Time (s)" +++ tab +++ "Voltage (V)" +++ lf)
               +++ String.concat EmptyString (map txt_line processed_data))
      with (("Time (s)" +++ tab +++ "Voltage (V)")
              +++ String lf_char (String.concat EmptyString (map txt_line processed_data)))
      by reflexivity.
    rewrite split_at_sep by reflexivity. now rewrite split_lines.
  - intros t v. change (format_6e t +++ tab +++ format_6e v)
      with (format_6e t +++ String tab_char (format_6e v)).
    rewrite split_at_sep by apply no_tab.
    now rewrite (Capture.split_no_sep _ _ (no_tab v)).
Qed.

End Tables.

(** ** The number format of the text export *)

Module Rounding.
Import Py Fmt Props.
Local Open Scope Z_scope.
Lemma round_half_even_spec sn sd :
  0 < sd -> 0 <= sn ->
  2 * Z.abs (round_half_even sn sd * sd - sn) <= sd /\
  (2 * Z.abs (round_half_even sn sd * sd - sn) = sd ->
   Z.even (round_half_even sn sd) = true) /\
  sn / sd <= round_half_even sn sd <= sn / sd + 1.
Proof.
  intros Hsd Hsn. unfold round_half_even.
  pose proof (Z.div_mod sn sd ltac:(lia)) as Hdm.
  pose proof (Z.mod_pos_bound sn sd Hsd) as Hr.
  set (q := sn / sd) in *. set (r := sn mod sd) in *.
  assert (Hq : q * sd = sn - r) by lia.
  destruct (Z.ltb_spec sd (2 * r)).
  - replace ((q + 1) * sd) with (q * sd + sd) by ring. rewrite Hq.
    repeat split; try lia.
  - destruct (Z.eqb_spec (2 * r) sd).
    + destruct (Z.odd q) eqn:Ho.
      * replace ((q + 1) * sd) with (q * sd + sd) by ring. rewrite Hq.
        repeat split; try lia.
        intros _. change (q + 1) with (Z.succ q). now rewrite Z.even_succ.
      * rewrite Hq. repeat split; try lia.
        intros _. now rewrite <- Z.negb_odd, Ho.
    + rewrite Hq. repeat split; lia.
Qed.

Lemma int_exp_spec fuel : forall v k0,
  1 <= v < 10 ^ (Z.of_nat fuel + 1) ->
  k0 <= int_exp fuel v k0 <= k0 + Z.of_nat fuel /\
  10 ^ (int_exp fuel v k0 - k0) <= v < 10 ^ (int_exp fuel v k0 - k0 + 1).
Proof.
  induction fuel as [|f IH]; intros v k0 Hv; cbn [int_exp].
  - rewrite Z.sub_diag. change (Z.of_nat 0 + 1) with 1 in Hv.
    change (10 ^ (0 + 1)) with 10. change (10 ^ 0) with 1.
    change (10 ^ 1) with 10 in Hv. lia.
  - destruct (Z.ltb_spec v 10).
    + rewrite Z.sub_diag. change (10 ^ (0 + 1)) with 10. change (10 ^ 0) with 1. lia.
    + assert (Hv' : 1 <= v / 10 < 10 ^ (Z.of_nat f + 1)).
      { split; [apply Z.div_le_lower_bound; lia|].
        apply Z.div_lt_upper_bound; [lia|].
        replace (Z.of_nat (S f) + 1) with (Z.succ (Z.of_nat f + 1)) in Hv by lia.
        rewrite Z.pow_succ_r in Hv by lia. lia. }
      destruct (IH (v / 10) (k0 + 1) Hv') as [Hk Hp].
      set (r := int_exp f (v / 10) (k0 + 1)) in *.
      split; [lia|].
      replace (r - k0) with (Z.succ (r - (k0 + 1))) by lia.
      replace (Z.succ (r - (k0 + 1)) + 1) with (Z.succ (r - (k0 + 1) + 1)) by lia.
      rewrite !Z.pow_succ_r by lia.
      pose proof (Z.div_mod v 10 ltac:(lia)).
      pose proof (Z.mod_pos_bound v 10 ltac:(lia)). lia.
Qed.

Lemma scale_up_spec dn fuel : forall n j0,
  0 < n -> dn <= n * 10 ^ Z.of_nat fuel ->
  j0 <= scale_up fuel n dn j0 <= j0 + Z.of_nat fuel /\
  dn <= n * 10 ^ (scale_up fuel n dn j0 - j0) /\
  (j0 < scale_up fuel n dn j0 -> n * 10 ^ (scale_up fuel n dn j0 - j0 - 1) < dn).
Proof.
  induction fuel as [|f IH]; intros n j0 Hn Hd; cbn [scale_up].
  - rewrite Z.sub_diag. change (10 ^ Z.of_nat 0) with 1 in Hd.
    change (10 ^ 0) with 1. lia.
  - destruct (Z.leb_spec dn n).
    + rewrite Z.sub_diag. change (10 ^ 0) with 1. lia.
    + assert (Hd' : dn <= 10 * n * 10 ^ Z.of_nat f).
      { replace (Z.of_nat (S f)) with (Z.succ (Z.of_nat f)) in Hd by lia.
        rewrite Z.pow_succ_r in Hd by lia. lia. }
      destruct (IH (10 * n) (j0 + 1) ltac:(lia) Hd') as (Hj & Hle & Hlt).
      set (r := scale_up f (10 * n) dn (j0 + 1)) in *.
      split; [lia|]. split.
      * replace (r - j0) with (Z.succ (r - (j0 + 1))) by lia.
        rewrite Z.pow_succ_r by lia. lia.
      * intros _. destruct (Z.eq_dec r (j0 + 1)) as [-> | Hne].
        -- replace (j0 + 1 - j0 - 1) with 0 by lia. change (10 ^ 0) with 1. lia.
        -- specialize (Hlt ltac:(lia)).
           replace (r - j0 - 1) with (Z.succ (r - (j0 + 1) - 1)) by lia.
           rewrite Z.pow_succ_r by lia. lia.
Qed.

Lemma dec_exp_spec n dn :
  0 < n -> 0 < dn -> n < 10 ^ 401 -> dn <= 10 ^ 400 ->
  - 400 <= dec_exp n dn <= 400 /\ bracket n dn (dec_exp n dn).
Proof.
  intros Hn Hdn Hb1 Hb2. unfold dec_exp, bracket.
  destruct (Z.leb_spec dn n) as [Hle | Hlt].
  - assert (Hv : 1 <= n / dn < 10 ^ (Z.of_nat 400 + 1)).
    { split; [apply Z.div_le_lower_bound; lia|].
      apply Z.le_lt_trans with n; [|exact Hb1].
      apply Z.div_le_upper_bound; [lia|]. clear Hb1 Hb2. nia. }
    clear Hb1 Hb2.
    destruct (int_exp_spec 400 (n / dn) 0 Hv) as [Hk Hp]. clear Hv.
    set (k := int_exp 400 (n / dn) 0) in *.
    rewrite Z.sub_0_r in Hp. change (Z.of_nat 400) with 400 in Hk.
    split; [lia|].
    rewrite (Z.max_l k) by lia. rewrite (Z.max_r (- k)) by lia.
    rewrite (Z.max_r (- k - 1)) by lia. rewrite (Z.max_l (k + 1)) by lia.
    change (10 ^ 0) with 1.
    pose proof (Z.mul_div_le n dn Hdn) as H1.
    pose proof (Z.mul_succ_div_gt n dn Hdn) as H2.
    set (v := n / dn) in *. set (A := 10 ^ k) in *. set (B := 10 ^ (k + 1)) in *.
    split.
    + apply Z.le_trans with (dn * v); [apply Z.mul_le_mono_nonneg_l; lia | lia].
    + apply Z.lt_le_trans with (dn * Z.succ v); [lia|].
      apply Z.mul_le_mono_nonneg_l; lia.
  - assert (Hd : dn <= n * 10 ^ Z.of_nat 400).
    { change (Z.of_nat 400) with 400.
      apply Z.le_trans with (10 ^ 400); [exact Hb2|].
      rewrite <- (Z.mul_1_l (10 ^ 400)) at 1.
      apply Z.mul_le_mono_nonneg_r; [apply Z.pow_nonneg|]; clear Hb1 Hb2; lia. }
    clear Hb1 Hb2.
    destruct (scale_up_spec dn 400 n 0 Hn Hd) as (Hj & Hge & Hlt'). clear Hd.
    set (j := scale_up 400 n dn 0) in *.
    rewrite Z.sub_0_r in Hge, Hlt'. change (Z.of_nat 400) with 400 in Hj.
    assert (Hj0 : 0 < j).
    { destruct (Z.eq_dec j 0) as [E|]; [|lia].
      rewrite E in Hge. change (10 ^ 0) with 1 in Hge. lia. }
    specialize (Hlt' Hj0).
    split; [lia|].
    rewrite (Z.max_r (- j)) by lia. rewrite (Z.max_l (- - j)) by lia.
    rewrite (Z.max_l (- - j - 1)) by lia. rewrite (Z.max_r (- j + 1)) by lia.
    rewrite Z.opp_involutive. change (10 ^ 0) with 1.
    lia.
Qed.

Lemma sci_digits_spec n dn k :
  0 < n -> 0 < dn -> bracket n dn k -> dec_exp n dn = k ->
  let '(q, k') := sci_digits 6 n dn in
  10 ^ 6 <= q < 10 ^ 7 /\ k <= k' <= k + 1 /\ near n dn q k'.
Proof.
  intros Hn Hdn [Hlo Hhi] Hk. unfold sci_digits. rewrite Hk. cbv zeta.
  change (10 ^ (6 + 1)) with 10000000. change (10 ^ 6) with 1000000.
  change (10 ^ 7) with 10000000.
  destruct (Z.leb_spec 0 (6 - k)) as [Hsh | Hsh].
  - (* at most seven digits before the point *)
    set (P := 10 ^ (6 - k)).
    assert (HP : 0 < P) by (apply Z.pow_pos_nonneg; lia).
    assert (Hb : dn * 1000000 <= n * P < dn * 10000000).
    { destruct (Z.le_gt_cases 0 k) as [Hk0 | Hk0].
      - rewrite (Z.max_l k) in Hlo by lia. rewrite (Z.max_r (- k)) in Hlo by lia.
        rewrite (Z.max_r (- k - 1)) in Hhi by lia.
        rewrite (Z.max_l (k + 1)) in Hhi by lia.
        change (10 ^ 0) with 1 in Hlo, Hhi.
        assert (E : 10 ^ k * P = 1000000).
        { unfold P. rewrite <- Z.pow_add_r by lia.
          replace (k + (6 - k)) with 6 by lia. reflexivity. }
        assert (E' : 10 ^ (k + 1) = 10 * 10 ^ k).
        { replace (k + 1) with (Z.succ k) by lia. apply Z.pow_succ_r. lia. }
        rewrite E' in Hhi.
        assert (0 < 10 ^ k) by (apply Z.pow_pos_nonneg; lia).
        split; nia.
      - rewrite (Z.max_r k) in Hlo by lia. rewrite (Z.max_l (- k)) in Hlo by lia.
        rewrite (Z.max_l (- k - 1)) in Hhi by lia.
        rewrite (Z.max_r (k + 1)) in Hhi by lia.
        change (10 ^ 0) with 1 in Hlo, Hhi.
        assert (E : P = 10 ^ (- k) * 1000000).
        { unfold P. replace (6 - k) with (- k + 6) by lia.
          rewrite Z.pow_add_r by lia. reflexivity. }
        assert (E' : 10 ^ (- k) = 10 * 10 ^ (- k - 1)).
        { replace (- k) with (Z.succ (- k - 1)) at 1 by lia. apply Z.pow_succ_r. lia. }
        assert (0 < 10 ^ (- k - 1)) by (apply Z.pow_pos_nonneg; lia).
        split; nia. }
    destruct (round_half_even_spec (n * P) dn Hdn ltac:(nia)) as (Hnear & Heven & Hq).
    set (q := round_half_even (n * P) dn) in *.
    assert (Hfl : 1000000 <= n * P / dn < 10000000).
    { split; [apply Z.div_le_lower_bound; lia|].
      apply Z.div_lt_upper_bound; lia. }
    destruct (Z.leb_spec 10000000 q) as [Hc | Hc].
    + assert (Hq7 : q = 10000000) by lia.
      split; [lia|]. split; [lia|]. unfold near. cbv zeta.
      rewrite Hq7 in Hnear.
      destruct (Z.eq_dec k 6) as [-> | Hk6].
      * change (10 ^ Z.max (6 + 1 - 6) 0) with 10.
        change (10 ^ Z.max (6 - (6 + 1)) 0) with 1.
        change (10 ^ (6 - 6)) with 1 in P. subst P.
        split; [lia|]. intros _. reflexivity.
      * rewrite (Z.max_r (k + 1 - 6)) by lia. rewrite (Z.max_l (6 - (k + 1))) by lia.
        change (10 ^ 0) with 1.
        assert (E : P = 10 * 10 ^ (6 - (k + 1))).
        { unfold P. replace (6 - k) with (Z.succ (6 - (k + 1))) by lia.
          apply Z.pow_succ_r. lia. }
        rewrite E in Hnear.
        split; [lia|]. intros _. reflexivity.
    + split; [lia|]. split; [lia|]. unfold near. cbv zeta.
      rewrite (Z.max_r (k - 6)) by lia. rewrite (Z.max_l (6 - k)) by lia.
      change (10 ^ 0) with 1. rewrite Z.mul_1_l. fold P. split; assumption.
  - (* more than seven digits before the point *)
    rewrite (Z.max_l k) in Hlo by lia. rewrite (Z.max_r (- k)) in Hlo by lia.
    rewrite (Z.max_r (- k - 1)) in Hhi by lia. rewrite (Z.max_l (k + 1)) in Hhi by lia.
    change (10 ^ 0) with 1 in Hlo, Hhi.
    replace (- (6 - k)) with (k - 6) by lia.
    set (P := 10 ^ (k - 6)).
    assert (HP : 0 < P) by (apply Z.pow_pos_nonneg; lia).
    assert (E : 10 ^ k = P * 1000000).
    { unfold P. replace k with (k - 6 + 6) at 1 by lia.
      rewrite Z.pow_add_r by lia. reflexivity. }
    assert (E' : 10 ^ (k + 1) = P * 10000000).
    { unfold P. replace (k + 1) with (k - 6 + 7) by lia.
      rewrite Z.pow_add_r by lia. reflexivity. }
    rewrite E in Hlo. rewrite E' in Hhi.
    assert (Hsd : 0 < dn * P) by nia.
    destruct (round_half_even_spec n (dn * P) Hsd ltac:(lia)) as (Hnear & Heven & Hq).
    set (q := round_half_even n (dn * P)) in *.
    assert (Hfl : 1000000 <= n / (dn * P) < 10000000).
    { split; [apply Z.div_le_lower_bound; nia|].
      apply Z.div_lt_upper_bound; nia. }
    destruct (Z.leb_spec 10000000 q) as [Hc | Hc].
    + assert (Hq7 : q = 10000000) by lia.
      split; [lia|]. split; [lia|]. unfold near. cbv zeta.
      rewrite Hq7 in Hnear.
      rewrite (Z.max_l (k + 1 - 6)) by lia. rewrite (Z.max_r (6 - (k + 1))) by lia.
      change (10 ^ 0) with 1.
      assert (E2 : 10 ^ (k + 1 - 6) = 10 * P).
      { unfold P. replace (k + 1 - 6) with (Z.succ (k - 6)) by lia.
        apply Z.pow_succ_r. lia. }
      rewrite E2. split; [nia|]. intros _. reflexivity.
    + split; [lia|]. split; [lia|]. unfold near. cbv zeta.
      rewrite (Z.max_l (k - 6)) by lia. rewrite (Z.max_r (6 - k)) by lia.
      change (10 ^ 0) with 1. fold P. rewrite Z.mul_1_r.
      replace (P * dn) with (dn * P) by ring. split; assumption.
Qed.

(** The mantissa and the exponent of a finite binary64 value are bounded. *)
Lemma digits2_pos_bound m : Z.pos m < 2 ^ Z.pos (SpecFloat.digits2_pos m).
Proof.
  induction m as [m IH | m IH |]; cbn [SpecFloat.digits2_pos].
  - rewrite Pos2Z.inj_succ, Z.pow_succ_r by lia. lia.
  - rewrite Pos2Z.inj_succ, Z.pow_succ_r by lia. lia.
  - reflexivity.
Qed.

Lemma finite_bounds x s m e :
  Prim2SF x = S754_finite s m e ->
  Z.pos m < 2 ^ 53 /\ - 1074 <= e <= 971.
Proof.
  intros E. pose proof (Prim2SF_valid x) as V. rewrite E in V.
  unfold SpecFloat.valid_binary, SpecFloat.bounded in V.
  apply andb_true_iff in V as [C B].
  unfold SpecFloat.canonical_mantissa in C.
  apply Z.eqb_eq in C. apply Z.leb_le in B.
  unfold SpecFloat.fexp, SpecFloat.emin in C.
  change FloatOps.prec with 53 in *. change FloatOps.emax with 1024 in *.
  pose proof (digits2_pos_bound m) as D.
  assert (Hd : Z.pos (SpecFloat.digits2_pos m) <= 53) by lia.
  split; [|lia].
  apply Z.lt_le_trans with (1 := D). apply Z.pow_le_mono_r; lia.
Qed.

Lemma pow2_1024 : 2 ^ 53 * 2 ^ 971 < 10 ^ 401.
Proof. vm_compute. reflexivity. Qed.

Lemma pow2_1074 : 2 ^ 1074 <= 10 ^ 400.
Proof. vm_compute. intros H. discriminate H. Qed.

Lemma finite_fraction x s m e :
  Prim2SF x = S754_finite s m e ->
  0 < Z.pos m * 2 ^ Z.max e 0 < 10 ^ 401 /\ 0 < 2 ^ Z.max (- e) 0 <= 10 ^ 400.
Proof.
  intros E. destruct (finite_bounds x s m e E) as [Hm He].
  assert (H1 : 0 < 2 ^ Z.max e 0) by (apply Z.pow_pos_nonneg; lia).
  assert (H2 : 0 < 2 ^ Z.max (- e) 0) by (apply Z.pow_pos_nonneg; lia).
  assert (H3 : 2 ^ Z.max e 0 <= 2 ^ 971) by (apply Z.pow_le_mono_r; lia).
  assert (H4 : 2 ^ Z.max (- e) 0 <= 2 ^ 1074) by (apply Z.pow_le_mono_r; lia).
  split; split.
  - apply Z.mul_pos_pos; [lia | exact H1].
  - apply Z.lt_le_trans with (2 ^ 53 * 2 ^ Z.max e 0).
    + apply Z.mul_lt_mono_pos_r; assumption.
    + apply Z.le_trans with (2 ^ 53 * 2 ^ 971); [|apply Z.lt_le_incl, pow2_1024].
      apply Z.mul_le_mono_nonneg_l; [|exact H3]. apply Z.pow_nonneg. lia.
  - exact H2.
  - apply Z.le_trans with (1 := H4). exact pow2_1074.
Qed.

(** The digits of the text are those of the number. *)
Lemma digit_value_char d :
  0 <= d <= 9 -> digit_value (digit_char d) = Some d.
Proof.
  intros H.
  assert (C : d = 0 \/ d = 1 \/ d = 2 \/ d = 3 \/ d = 4 \/ d = 5 \/ d = 6 \/ d = 7
              \/ d = 8 \/ d = 9) by lia.
  repeat (destruct C as [-> | C]; [reflexivity|]). subst d. reflexivity.
Qed.

Lemma decimal_from_fixed w : forall acc q,
  decimal_from acc (fixed_digits w q)
  = Some (acc * 10 ^ Z.of_nat w + q mod 10 ^ Z.of_nat w).
Proof.
  induction w as [|w IH]; intros acc q; cbn [fixed_digits decimal_from].
  - change (10 ^ Z.of_nat 0) with 1. rewrite Z.mod_1_r. f_equal. lia.
  - rewrite digit_value_char by (pose proof (Z.mod_pos_bound (q / 10 ^ Z.of_nat w) 10 ltac:(lia)); lia).
    rewrite IH. f_equal.
    replace (Z.of_nat (S w)) with (Z.succ (Z.of_nat w)) by lia.
    rewrite Z.pow_succ_r by lia.
    set (P := 10 ^ Z.of_nat w).
    assert (HP : 0 < P) by (apply Z.pow_pos_nonneg; lia).
    replace (10 * P) with (P * 10) by ring.
    rewrite (Z.rem_mul_r q P 10) by lia. ring.
Qed.

Lemma mantissa_value q :
  10 ^ 6 <= q < 10 ^ 7 ->
  decimal_value (String (digit_char ((q / 10 ^ 6) mod 10)) (fixed_digits 6 q)) = Some q.
Proof.
  intros Hq. cbn [decimal_value decimal_from].
  rewrite digit_value_char by (pose proof (Z.mod_pos_bound (q / 10 ^ 6) 10 ltac:(lia)); lia).
  rewrite (decimal_from_fixed 6). f_equal.
  change (Z.of_nat 6) with 6. change (10 ^ 6) with 1000000 in *.
  change (10 ^ 7) with 10000000 in *.
  assert (Hd : 0 <= q / 1000000 < 10).
  { split; [apply Z.div_pos; lia | apply Z.div_lt_upper_bound; lia]. }
  rewrite (Z.mod_small (q / 1000000)) by lia.
  pose proof (Z.div_mod q 1000000 ltac:(lia)). lia.
Qed.

Lemma exponents_checked : forallb exponent_ok (seq 0 402) = true.
Proof. vm_compute. reflexivity. Qed.

Lemma exponent_value k :
  - 401 <= k <= 401 ->
  decimal_value (exponent_digits (Z.abs k)) = Some (Z.abs k) /\
  String.length (exponent_digits (Z.abs k)) = if Z.abs k <? 100 then 2%nat else 3%nat.
Proof.
  intros Hk.
  assert (Hin : In (Z.to_nat (Z.abs k)) (seq 0 402)) by (apply in_seq; lia).
  pose proof (proj1 (forallb_forall _ _) exponents_checked _ Hin) as H.
  unfold exponent_ok in H. rewrite Z2Nat.id in H by lia.
  destruct (decimal_value (exponent_digits (Z.abs k))) as [v|]; [|discriminate].
  apply andb_true_iff in H as [Hv Hl].
  apply Z.eqb_eq in Hv. apply Nat.eqb_eq in Hl. subst v. split; [reflexivity|].
  rewrite Hl. destruct (Z.ltb_spec (Z.abs k) 100), (Nat.ltb_spec (Z.to_nat (Z.abs k)) 100);
    try reflexivity; lia.
Qed.

(** The format [.6e] writes seven correctly rounded digits. *)
Lemma format_6e_written x : written_6e x (format_6e x).
Proof.
  unfold written_6e, format_6e, format_e.
  destruct (Prim2SF x) as [s|s| |s m e] eqn:E.
  - destruct s; reflexivity.
  - destruct s; reflexivity.
  - reflexivity.
  - destruct (finite_fraction x s m e E) as [[Hn Hn'] [Hd Hd']].
    set (n := Z.pos m * 2 ^ Z.max e 0) in *.
    set (dn := 2 ^ Z.max (- e) 0) in *.
    destruct (dec_exp_spec n dn Hn Hd Hn' Hd') as [Hk Hb].
    pose proof (sci_digits_spec n dn (dec_exp n dn) Hn Hd Hb eq_refl) as H.
    change (Z.of_nat 6) with 6.
    destruct (sci_digits 6 n dn) as [q k]. destruct H as (Hq & Hk' & Hnear).
    exists (digit_char ((q / 10 ^ 6) mod 10)), (fixed_digits 6 q),
      (exponent_digits (Z.abs k)), q, k.
    destruct (exponent_value k ltac:(lia)) as [Hev Hel].
    split; [reflexivity|].
    split; [reflexivity|].
    split; [apply mantissa_value, Hq|].
    split; [exact Hq|].
    split; [|split; assumption].
    unfold nearest_decimal. cbv zeta. fold dn. fold n.
    unfold near in Hnear. cbv zeta in Hnear. exact Hnear.
Qed.

End Rounding.

(** ** The files of a data capture *)

Module ExportFormat.
Import Py Fmt Props MoreProps Capture FileExport Tables Rounding.







(** The rendering is pinned: the text with six significant digits is not
    a rendering of 1.0, and the text with seven is. *)
Example six_digits_not_written :
  ~ written_6e 1%float "1.00000e+00" /\ written_6e 1%float "1.000000e+00".
Proof.
  split.
  - unfold written_6e.
    replace (Prim2SF 1%float) with (S754_finite false 4503599627370496 (-52))
      by (vm_compute; reflexivity).
    intros (d & frac & edigits & q & k & Hs & Hlen & Hval & _).
    cbn [minus_if String.append] in Hs. injection Hs as <- Hs.
    destruct frac as [|c1 [|c2 [|c3 [|c4 [|c5 [|c6 [|c7 frac]]]]]]];
      try discriminate Hlen.
    cbn [String.append] in Hs. injection Hs as <- <- <- <- <- <- _.
    discriminate Hval.
  - exact (format_6e_written 1%float).
Qed.


End ExportFormat.
